(** * Furniture layout generation and placement

    A shallow embedding of [utils/layout_generator.py] and of
    [utils/visualization.py] (the placement engine and the figure that is
    drawn from its result), with the properties of the layout engine proved
    over it.

    Python [float]s are IEEE-754 binary64 numbers; they are modelled by the
    Standard Library's [spec_float] with precision 53 and maximal exponent
    1024, so that every arithmetic step rounds exactly as the interpreter
    does.  Python exceptions are modelled by the [result] monad. *)

From Stdlib Require Import ZArith Ascii String Floats.SpecFloat.
From stdpp Require Import gmap strings list sorting pretty.

Local Open Scope Z_scope.

(** ** Exceptions *)

Inductive exn :=
| NameError (name : string)
| KeyError (key : string)
| TypeError
| ValueError
| OverflowError
| ZeroDivisionError.

Inductive result (A : Type) :=
| Ok (a : A)
| Raise (e : exn).
Arguments Ok {A} a.
Arguments Raise {A} e.

#[global] Instance result_ret : MRet result := λ A a, Ok a.
#[global] Instance result_bind : MBind result := λ A B f r,
  match r with
  | Ok a => f a
  | Raise e => Raise e
  end.
#[global] Instance result_fmap : FMap result := λ A B f r,
  match r with
  | Ok a => Ok (f a)
  | Raise e => Raise e
  end.

(** A [for x in xs: body] loop whose body may raise; [s] is the state the
    body updates. *)
Fixpoint for_each {S A : Type} (body : S → A → result S) (xs : list A) (s : S)
  : result S :=
  match xs with
  | [] => Ok s
  | x :: xs' => s' ← body s x; for_each body xs' s'
  end.

(** [range(n)]: empty when [n <= 0]. *)
Definition py_range (n : Z) : list Z := Z.of_nat <$> seq 0 (Z.to_nat n).

(** ** Floats *)

Module Float.

Definition prec : Z := 53.
Definition emax : Z := 1024.

(** [float(z)] for an integer that is in range. *)
Definition of_Z (z : Z) : spec_float := binary_normalize prec emax z 0 false.

(** The decimal literal [n/d] (for instance [1.15] is [lit 115 100]): the
    double nearest to the written value, which is what the correctly
    rounded quotient of two exactly representable integers gives. *)
Definition lit (n d : Z) : spec_float := SFdiv prec emax (of_Z n) (of_Z d).

Definition mul : spec_float → spec_float → spec_float := SFmul prec emax.
Definition sub : spec_float → spec_float → spec_float := SFsub prec emax.
Definition add : spec_float → spec_float → spec_float := SFadd prec emax.
(** [-x] *)
Definition opp : spec_float → spec_float := SFopp.
Definition ltb : spec_float → spec_float → bool := SFltb.
Definition eqb : spec_float → spec_float → bool := SFeqb.
(** [a >= b] *)
Definition geb (a b : spec_float) : bool := SFleb b a.

Definition is_nan (x : spec_float) : bool :=
  match x with S754_nan => true | _ => false end.

(** [math.isfinite(x)], [np.isfinite(x)]: neither NaN nor an infinity. *)
Definition isfinite (x : spec_float) : bool :=
  match x with
  | S754_zero _ | S754_finite _ _ _ => true
  | _ => false
  end.

(** [a / b]: Python raises on a zero divisor. *)
Definition div (a b : spec_float) : result spec_float :=
  match b with
  | S754_zero _ => Raise ZeroDivisionError
  | _ => Ok (SFdiv prec emax a b)
  end.

(** [int(x)]: truncation toward zero; [ValueError] on NaN and
    [OverflowError] on an infinity. *)
Definition to_int (x : spec_float) : result Z :=
  match x with
  | S754_zero _ => Ok 0
  | S754_infinity _ => Raise OverflowError
  | S754_nan => Raise ValueError
  | S754_finite s m e => Ok (cond_Zopp s (Z.shiftl (Z.pos m) e))
  end.

(** The conversion of an [int] operand that meets a [float] one:
    [OverflowError] when the integer is too large for a double. *)
Definition of_int (z : Z) : result spec_float :=
  match of_Z z with
  | S754_infinity _ => Raise OverflowError
  | x => Ok x
  end.

(** The mathematical floor of the value a float denotes (no value for NaN
    and the infinities); used in statements only. *)
Definition floor (x : spec_float) : option Z :=
  match x with
  | S754_zero _ => Some 0
  | S754_finite s m e => Some (Z.shiftl (cond_Zopp s (Z.pos m)) e)
  | _ => None
  end.

End Float.

Arguments Float.of_Z : simpl never.
Arguments Float.lit : simpl never.
Arguments Float.mul : simpl never.
Arguments Float.sub : simpl never.
Arguments Float.add : simpl never.
Arguments Float.div : simpl never.
Arguments Float.to_int : simpl never.
Arguments Float.of_int : simpl never.
Arguments Float.floor : simpl never.
Arguments Float.geb : simpl never.
Arguments Float.ltb : simpl never.
Arguments Float.eqb : simpl never.

Abbreviation float := spec_float.

(** ** Strings *)

(** A string is the sequence of the bytes of its UTF-8 encoding.  The case
    functions below are Python's on ASCII text (every byte below 128): they
    map the ASCII letters and leave every other byte as it is.  On a
    character outside ASCII Python follows the Unicode case tables, which
    can even change the length (['ß'.upper()] is ['SS']); that part is not
    modelled, and a statement that depends on the case functions beyond
    their use as a name is stated for ASCII strings. *)

(** [str.lower] on the ASCII letters (the room types of the application are
    ASCII; other characters are left as they are). *)
Definition lower_ascii (c : ascii) : ascii :=
  let n := nat_of_ascii c in
  if bool_decide (65 ≤ n ≤ 90)%nat then ascii_of_nat (n + 32) else c.

Fixpoint lower (s : string) : string :=
  match s with
  | EmptyString => EmptyString
  | String c s' => String (lower_ascii c) (lower s')
  end.

(** [str.upper] on one ASCII letter. *)
Definition upper_ascii (c : ascii) : ascii :=
  let n := nat_of_ascii c in
  if bool_decide (97 ≤ n ≤ 122)%nat then ascii_of_nat (n - 32) else c.

(** Is the character cased, that is, an ASCII letter? *)
Definition is_cased (c : ascii) : bool :=
  let n := nat_of_ascii c in
  bool_decide ((65 ≤ n ≤ 90)%nat ∨ (97 ≤ n ≤ 122)%nat).

(** [s.replace(old, new)] for patterns of one ASCII character; a byte
    below 128 occurs in UTF-8 text only as that character, so the byte-wise
    replacement is the replacement of the character. *)
Fixpoint replace (old new : ascii) (s : string) : string :=
  match s with
  | EmptyString => EmptyString
  | String c s' =>
      String (if bool_decide (c = old) then new else c) (replace old new s')
  end.

(** [str.title] on ASCII text: the interpreter walks the string once; a
    character that follows a cased character is lowered, any other character
    is put in title case, which is the upper case for an ASCII letter. *)
Fixpoint title_from (previous_is_cased : bool) (s : string) : string :=
  match s with
  | EmptyString => EmptyString
  | String c s' =>
      String (if previous_is_cased then lower_ascii c else upper_ascii c)
        (title_from (is_cased c) s')
  end.

Definition title (s : string) : string := title_from false s.

(** [d.get(key, default)] on a dict used as a read-only table. *)
Definition dict_get {V : Type} (d : gmap string V) (key : string) (dflt : V) : V :=
  default dflt (d !! key).

(** * layout_generator.py *)

Record Requirement := {
  req_type : string;
  priority : Z;
  min_area : float
}.

Record Dimensions := {
  dim_length : float;
  dim_width : float
}.

Record FurnitureItem := {
  item_type : string;
  price : Z;
  style : string;
  dimensions : Dimensions
}.

Record Layout := {
  layout_id : Z;
  furniture : list FurnitureItem;
  cost : Z;
  description : string;
  features : list string
}.

Definition requirements : gmap string (list Requirement) :=
  list_to_map [
    ("Living Room", [
       {| req_type := "sofa"; priority := 1; min_area := Float.lit 20 10 |};
       {| req_type := "coffee_table"; priority := 2; min_area := Float.lit 6 10 |};
       {| req_type := "tv_stand"; priority := 2; min_area := Float.lit 10 10 |};
       {| req_type := "armchair"; priority := 3; min_area := Float.lit 8 10 |} ]);
    ("Bedroom", [
       {| req_type := "bed"; priority := 1; min_area := Float.lit 35 10 |};
       {| req_type := "wardrobe"; priority := 1; min_area := Float.lit 12 10 |};
       {| req_type := "nightstand"; priority := 2; min_area := Float.lit 2 10 |} ]);
    ("Home Office", [
       {| req_type := "desk"; priority := 1; min_area := Float.lit 12 10 |};
       {| req_type := "office_chair"; priority := 1; min_area := Float.lit 4 10 |};
       {| req_type := "bookshelf"; priority := 2; min_area := Float.lit 8 10 |} ]);
    ("Dining Room", [
       {| req_type := "dining_table"; priority := 1; min_area := Float.lit 20 10 |};
       {| req_type := "chairs"; priority := 1; min_area := Float.lit 4 10 |};
       {| req_type := "sideboard"; priority := 2; min_area := Float.lit 10 10 |} ]);
    ("Kitchen", [
       {| req_type := "counter"; priority := 1; min_area := Float.lit 20 10 |};
       {| req_type := "storage"; priority := 1; min_area := Float.lit 15 10 |};
       {| req_type := "dining_set"; priority := 2; min_area := Float.lit 12 10 |} ])
  ].

Definition get_furniture_requirements (room_type : string) : list Requirement :=
  dict_get requirements room_type [].

Definition style_multipliers_table : list (string * float) := [
  ("Modern", Float.lit 12 10);
  ("Traditional", Float.lit 11 10);
  ("Minimalist", Float.lit 10 10);
  ("Scandinavian", Float.lit 13 10);
  ("Industrial", Float.lit 115 100)
].

Definition style_multipliers : gmap string float :=
  list_to_map style_multipliers_table.

Definition base_prices_table : list (string * Z) := [
  ("sofa", 1000);
  ("coffee_table", 200);
  ("tv_stand", 300);
  ("armchair", 400);
  ("bed", 800);
  ("wardrobe", 600);
  ("nightstand", 100);
  ("desk", 400);
  ("office_chair", 200);
  ("bookshelf", 300);
  ("dining_table", 600);
  ("chairs", 150);
  ("sideboard", 400);
  ("counter", 800);
  ("storage", 500);
  ("dining_set", 700)
].

Definition base_prices : gmap string Z := list_to_map base_prices_table.

Definition dimensions_table : list (string * Dimensions) := [
  ("sofa", {| dim_length := Float.lit 20 10; dim_width := Float.lit 9 10 |});
  ("coffee_table", {| dim_length := Float.lit 9 10; dim_width := Float.lit 6 10 |});
  ("tv_stand", {| dim_length := Float.lit 15 10; dim_width := Float.lit 5 10 |});
  ("armchair", {| dim_length := Float.lit 8 10; dim_width := Float.lit 8 10 |});
  ("bed", {| dim_length := Float.lit 20 10; dim_width := Float.lit 16 10 |});
  ("wardrobe", {| dim_length := Float.lit 12 10; dim_width := Float.lit 6 10 |});
  ("nightstand", {| dim_length := Float.lit 4 10; dim_width := Float.lit 4 10 |});
  ("desk", {| dim_length := Float.lit 12 10; dim_width := Float.lit 6 10 |});
  ("office_chair", {| dim_length := Float.lit 6 10; dim_width := Float.lit 6 10 |});
  ("bookshelf", {| dim_length := Float.lit 8 10; dim_width := Float.lit 3 10 |});
  ("dining_table", {| dim_length := Float.lit 16 10; dim_width := Float.lit 9 10 |});
  ("chairs", {| dim_length := Float.lit 5 10; dim_width := Float.lit 5 10 |});
  ("sideboard", {| dim_length := Float.lit 12 10; dim_width := Float.lit 4 10 |});
  ("counter", {| dim_length := Float.lit 20 10; dim_width := Float.lit 6 10 |});
  ("storage", {| dim_length := Float.lit 10 10; dim_width := Float.lit 6 10 |});
  ("dining_set", {| dim_length := Float.lit 12 10; dim_width := Float.lit 12 10 |})
].

Definition get_furniture_dimensions (furniture_type : string) : Dimensions :=
  dict_get (list_to_map dimensions_table) furniture_type
    {| dim_length := Float.lit 10 10; dim_width := Float.lit 10 10 |}.

(** [base_price * multiplier] is an [int] times a [float]: the integer is
    converted and the product is a binary64 product; [int(...)] truncates. *)
Definition generate_furniture_item (requirement : Requirement) (style : string)
  : result FurnitureItem :=
  let multiplier := dict_get style_multipliers style (Float.lit 10 10) in
  let base_price := dict_get base_prices (req_type requirement) 300 in
  b ← Float.of_int base_price;
  p ← Float.to_int (Float.mul b multiplier);
  Ok {| item_type := req_type requirement;
        price := p;
        style := style;
        dimensions := get_furniture_dimensions (req_type requirement) |}.

Definition generate_layout_description (layout : Layout) (style room_type : string)
  : string :=
  let furniture_count := Z.of_nat (length (furniture layout)) in
  let total_cost := cost layout in
  let descriptions : gmap string string := list_to_map [
    ("Modern", "Clean lines and contemporary pieces create a sophisticated space");
    ("Traditional", "Classic furniture arrangement for timeless appeal");
    ("Minimalist", "Essential pieces arranged for maximum functionality");
    ("Scandinavian", "Light and airy layout with functional Nordic design");
    ("Industrial", "Raw and refined elements combine for an urban feel")
  ] in
  let base_description := dict_get descriptions style "Balanced and functional layout" in
  base_description +:+ " in this " +:+ lower room_type +:+ ". "
    +:+ "Featuring " +:+ pretty furniture_count +:+ " carefully selected pieces "
    +:+ "with an estimated total cost of $" +:+ pretty total_cost +:+ ".".

Definition style_features : gmap string (list string) := list_to_map [
  ("Modern", ["Contemporary materials"; "Minimal ornamentation"; "Bold geometric shapes"]);
  ("Traditional", ["Classic patterns"; "Symmetrical arrangement"; "Rich textures"]);
  ("Minimalist", ["Clean spaces"; "Functional design"; "Neutral colors"]);
  ("Scandinavian", ["Light woods"; "Natural materials"; "Bright spaces"]);
  ("Industrial", ["Raw materials"; "Open layout"; "Metallic accents"])
].

Definition generate_layout_features (layout : Layout) (style : string) : list string :=
  let features := [] in
  let features :=
    features ++ dict_get style_features style ["Balanced design"; "Functional layout"] in
  let furniture_types := item_type <$> furniture layout in
  let features :=
    if bool_decide (3 ≤ length furniture_types)%nat
    then features ++ ["Complete room setup"] else features in
  let features :=
    if bool_decide (cost layout < 2000) then features ++ ["Budget-friendly selection"]
    else if bool_decide (cost layout > 5000) then features ++ ["Premium quality pieces"]
    else features in
  features.

(** The body of the inner loop of [generate_room_layout]; the state is the
    layout under construction and the area still available. *)
Definition add_required (style : string) (st : Layout * float) (item : Requirement)
  : result (Layout * float) :=
  let '(layout, available_area) := st in
  if Float.geb available_area (min_area item) then
    furniture_item ← generate_furniture_item item style;
    Ok ({| layout_id := layout_id layout;
           furniture := furniture layout ++ [furniture_item];
           cost := cost layout + price furniture_item;
           description := description layout;
           features := features layout |},
        Float.sub available_area (min_area item))
  else Ok st.

(** One iteration of [for i in range(3)]. *)
Definition generate_option (area : float) (room_type style : string)
    (furniture_requirements : list Requirement) (layouts : list Layout) (i : Z)
  : result (list Layout) :=
  let layout :=
    {| layout_id := i + 1; furniture := []; cost := 0; description := ""; features := [] |} in
  let available_area := Float.mul area (Float.lit 7 10) in
  '(layout, _) ← for_each (add_required style) furniture_requirements
                   (layout, available_area);
  let layout :=
    {| layout_id := layout_id layout; furniture := furniture layout; cost := cost layout;
       description := generate_layout_description layout style room_type;
       features := features layout |} in
  let layout :=
    {| layout_id := layout_id layout; furniture := furniture layout; cost := cost layout;
       description := description layout;
       features := generate_layout_features layout style |} in
  Ok (layouts ++ [layout]).

Definition generate_room_layout (area : float) (room_type style : string)
    (furniture_requirements : list Requirement) : result (list Layout) :=
  for_each (generate_option area room_type style furniture_requirements)
    (py_range 3) [].

(** [budget] is the pair of integers the budget slider supplies. *)
Definition filter_by_budget (layouts : list Layout) (budget : Z * Z) : list Layout :=
  let '(min_budget, max_budget) := budget in
  filter (λ layout, min_budget ≤ cost layout ∧ cost layout ≤ max_budget) layouts.

(** ** The entry point

    The names bound at module level in [layout_generator.py]: its imports
    and its [def]s.  Evaluating any other name that is not a builtin raises
    [NameError]. *)
Definition module_globals : list string := [
  "Dict"; "List"; "Any"; "np";
  "generate_layout_suggestions"; "get_furniture_requirements";
  "generate_room_layout"; "generate_furniture_item";
  "get_furniture_dimensions"; "filter_by_budget";
  "generate_layout_description"; "generate_layout_features"
].

Definition load_global (name : string) : result unit :=
  if bool_decide (name ∈ module_globals) then Ok () else Raise (NameError name).

Record Recommendation := {
  rec_description : string;
  rec_cost : Z;
  rec_features : list string
}.

(** Modelled from the spec: [generate_recommendations] is called by
    [generate_layout_suggestions] but no file of the repository defines it.
    The specification describes the formatter as a direct field projection
    of every filtered option to its description, cost and features; the
    style and the detected room features are passed along and not used. *)
Definition generate_recommendations {F : Type} (layouts : list Layout)
    (style : string) (room_features : F) : list Recommendation :=
  (λ layout, {| rec_description := description layout;
                rec_cost := cost layout;
                rec_features := features layout |}) <$> layouts.

Record Suggestions := {
  layout_options : list Layout;
  recommendations : list Recommendation
}.

(** The callee name of a call is evaluated before the call is made, so the
    lookup of [generate_recommendations] comes after the three statements
    above it and before the result is built. *)
Definition generate_layout_suggestions {F : Type} (length width height : float)
    (room_type style : string) (budget : Z * Z) (features : F)
  : result Suggestions :=
  let area := Float.mul length width in
  let furniture_requirements := get_furniture_requirements room_type in
  layout_options ←
    generate_room_layout area room_type style furniture_requirements;
  let filtered_suggestions := filter_by_budget layout_options budget in
  _ ← load_global "generate_recommendations";
  let recommendations :=
    generate_recommendations filtered_suggestions style features in
  Ok {| layout_options := filtered_suggestions;
        recommendations := recommendations |}.

(** * visualization.py: the placement engine *)

(** ** The occupancy grid

    [np.zeros((h, w))] is a two-dimensional array; a cell is [true] when it
    is non-zero.  The shape is kept beside the rows because an array with no
    row still has a column count. *)
Record ndarray := {
  shape : Z * Z;
  rows : list (list bool)
}.

(** The largest [npy_intp], the type of a dimension and of a byte count on
    a 64-bit platform. *)
Definition NPY_MAX_INTP : Z := 2 ^ 63 - 1.

(** The size in bytes of an element of the default dtype, [float64]. *)
Definition itemsize : Z := 8.

(** [np.zeros((h, w))].  numpy checks the shape before it allocates: a
    negative dimension is refused ("negative dimensions are not allowed"),
    and so is a shape whose byte count, the item size times the dimensions
    other than 0, does not fit an [npy_intp] ("array is too big", or
    "Maximum allowed dimension exceeded" when a dimension alone does not
    fit); both are [ValueError].  After the check the allocation itself can
    fail with [MemoryError]; whether it does depends on the memory of the
    machine and not on the program, and the model is of a run in which the
    memory suffices.  The theorems that say that a call returns take
    [np_zeros shp = Ok _] as the hypothesis that the array was made. *)
Definition np_zeros (shp : Z * Z) : result ndarray :=
  let '(h, w) := shp in
  if bool_decide (h < 0 ∨ w < 0) then Raise ValueError
  else if bool_decide (NPY_MAX_INTP < itemsize * Z.max h 1 * Z.max w 1)
  then Raise ValueError
  else Ok {| shape := shp;
             rows := replicate (Z.to_nat h) (replicate (Z.to_nat w) false) |}.

(** The bound [i] of a slice on an axis of length [n]: a negative bound
    counts from the end, and every bound is clipped to the axis. *)
Definition slice_bound (n i : Z) : Z :=
  if bool_decide (i < 0) then Z.max (i + n) 0 else Z.min i n.

(** Is index [i] selected by the slice [start:stop] of an axis of length [n]? *)
Definition in_slice (n start stop i : Z) : bool :=
  bool_decide (slice_bound n start ≤ i < slice_bound n stop).

(** The two-dimensional slice [a[y0:y1, x0:x1]]. *)
Record Block := {
  y0 : Z; y1 : Z;
  x0 : Z; x1 : Z
}.

Definition in_block (shp : Z * Z) (b : Block) (r c : Z) : bool :=
  in_slice shp.1 (y0 b) (y1 b) r && in_slice shp.2 (x0 b) (x1 b) c.

(** The value of cell [(r, c)], when the array has one. *)
Definition cell (a : ndarray) (r c : nat) : option bool :=
  rows a !! r ≫= (.!! c).

(** [np.any(a[y0:y1, x0:x1])] *)
Definition np_any (a : ndarray) (b : Block) : bool :=
  existsb id
    (concat (imap (λ r row,
       imap (λ c v, in_block (shape a) b (Z.of_nat r) (Z.of_nat c) && v) row)
       (rows a))).

(** [a[y0:y1, x0:x1] = 1] *)
Definition set_block (a : ndarray) (b : Block) : ndarray :=
  {| shape := shape a;
     rows := imap (λ r row,
       imap (λ c v, if in_block (shape a) b (Z.of_nat r) (Z.of_nat c) then true else v) row)
       (rows a) |}.

(** The first element of [xs] on which [f] returns: a loop left by [return]. *)
Fixpoint first_some {A B : Type} (f : A → option B) (xs : list A) : option B :=
  match xs with
  | [] => None
  | x :: xs' =>
      match f x with
      | Some b => Some b
      | None => first_some f xs'
      end
  end.

(** The block [occupancy_grid[y:y+item_width, x:x+item_length]]. *)
Definition block_at (x y item_length item_width : Z) : Block :=
  {| y0 := y; y1 := y + item_width; x0 := x; x1 := x + item_length |}.

Definition find_furniture_position (occupancy_grid : ndarray)
    (item_length item_width : Z) (grid_size : float) : option (Z * Z) :=
  let '(grid_height, grid_width) := shape occupancy_grid in
  first_some (λ y,
    first_some (λ x,
      if negb (np_any occupancy_grid (block_at x y item_length item_width))
      then Some (x, y) else None)
      (py_range (grid_width - item_length + 1)))
    (py_range (grid_height - item_width + 1)).

(** ** Sorting

    [sorted(xs, key=key, reverse=rev)].  The list sort of CPython is
    stable and compares keys with [<] only; with [reverse=True] it reverses
    the list, sorts it and reverses the result, which keeps the sort stable.
    The insertion below puts an element in front of the first element that
    is not smaller, as a stable sort must for an element that came first.
    When no key is NaN a stable sort has a single possible result
    ([py_sorted_reverse_unique]), so the algorithm chosen does not matter;
    with a NaN key the keys are not ordered and the statements about the
    order are not made. *)
Fixpoint insert_by {A : Type} (key : A → float) (x : A) (l : list A) : list A :=
  match l with
  | [] => [x]
  | y :: l' =>
      if Float.ltb (key y) (key x) then y :: insert_by key x l' else x :: l
  end.

Definition sort_by {A : Type} (key : A → float) (l : list A) : list A :=
  foldr (insert_by key) [] l.

Definition py_sorted {A : Type} (key : A → float) (rev : bool) (l : list A)
  : list A :=
  if rev then reverse (sort_by key (reverse l)) else sort_by key l.

(** ** Placement *)

(** A copy of a furniture item with the key ['position'] added. *)
Record PositionedItem := {
  placed : FurnitureItem;
  position : float * float
}.

(** The sort key [x['dimensions']['length'] * x['dimensions']['width']]. *)
Definition footprint (x : FurnitureItem) : float :=
  Float.mul (dim_length (dimensions x)) (dim_width (dimensions x)).

(** [int(d / grid_size)] *)
Definition grid_units (d grid_size : float) : result Z :=
  q ← Float.div d grid_size; Float.to_int q.

(** [k * grid_size] for an integer [k]. *)
Definition scale (k : Z) (grid_size : float) : result float :=
  f ← Float.of_int k; Ok (Float.mul f grid_size).

(** The body of the loop over [sorted_furniture]; the state is the
    occupancy grid and the list [positioned_furniture]. *)
Definition place_item (grid_size : float) (st : ndarray * list PositionedItem)
    (item : FurnitureItem) : result (ndarray * list PositionedItem) :=
  let '(occupancy_grid, positioned_furniture) := st in
  item_length ← grid_units (dim_length (dimensions item)) grid_size;
  item_width ← grid_units (dim_width (dimensions item)) grid_size;
  match find_furniture_position occupancy_grid item_length item_width grid_size with
  | Some (x, y) =>
      let occupancy_grid :=
        set_block occupancy_grid (block_at x y item_length item_width) in
      px ← scale x grid_size;
      py ← scale y grid_size;
      Ok (occupancy_grid,
          positioned_furniture ++ [{| placed := item; position := (px, py) |}])
  | None => Ok st
  end.

Definition position_furniture (furniture : list FurnitureItem)
    (room_length room_width : float) : result (list PositionedItem) :=
  let positioned_furniture := [] in
  let grid_size := Float.lit 5 10 in
  grid_length ← grid_units room_length grid_size;
  grid_width ← grid_units room_width grid_size;
  occupancy_grid ← np_zeros (grid_width, grid_length);
  let sorted_furniture := py_sorted footprint true furniture in
  '(_, positioned_furniture) ←
    for_each (place_item grid_size) sorted_furniture
      (occupancy_grid, positioned_furniture);
  Ok positioned_furniture.

(** ** The figure *)

(** [plt.Rectangle(xy, width, height, ...)]: the corner, the two sides,
    and the keyword arguments the source gives ([color] also stands for the
    face colour [fc] of a legend handle).  Integers among the arguments are
    kept as the floats they are converted to. *)
Record Rectangle := {
  xy : float * float;
  rect_width : float;
  rect_height : float;
  fill : bool;
  color : string;
  alpha : option float
}.

(** [ax.text(x, y, s, ha='center', va='center', fontsize=8)]: the anchor
    and the string; the alignment and the font size are the same for every
    text. *)
Record Text := {
  text_x : float;
  text_y : float;
  text : string
}.

(** What the calls on [ax] leave in the figure: the patches and the texts,
    each in the order they are added, the limits as they are passed to
    [set_xlim] and [set_ylim] (matplotlib widens an interval whose ends
    coincide), the title, the axis labels and the legend as pairs of a face
    colour and a label.  The calls whose arguments are constants
    ([figsize], [set_aspect], [grid], the placement of the legend,
    [tight_layout]) add nothing that depends on the input and have no
    field. *)
Record Figure := {
  patches : list Rectangle;
  texts : list Text;
  xlim : float * float;
  ylim : float * float;
  axes_title : string;
  xlabel : string;
  ylabel : string;
  legend : list (string * string)
}.

(** The dict [colors]; a dict keeps the order of insertion, which is the
    order of the legend. *)
Definition colors : list (string * string) := [
  ("sofa", "#FF9999");
  ("coffee_table", "#66B2FF");
  ("tv_stand", "#99FF99");
  ("armchair", "#FFCC99");
  ("bed", "#FF99CC");
  ("wardrobe", "#99CCFF");
  ("desk", "#FFB366");
  ("dining_table", "#99FFCC");
  ("counter", "#FF99FF");
  ("storage", "#FFFF99")
].

(** The values of the dict [layout_data] that [generate_layout_suggestions]
    builds: a list of layout options under ['layout_options'], a list of
    recommendations under ['recommendations'].  A list is true when it is
    not empty; a recommendation has no key ['furniture']. *)
Inductive data_value :=
| VLayouts (layouts : list Layout)
| VRecommendations (recs : list Recommendation).

Definition suggestions_dict (s : Suggestions) : gmap string data_value :=
  <["layout_options" := VLayouts (layout_options s)]>
    (<["recommendations" := VRecommendations (recommendations s)]> ∅).

(** The body of the loop over [furniture_layout]; the state is the patches
    and the texts of the axes. *)
Definition draw_item (st : list Rectangle * list Text) (item : PositionedItem)
  : result (list Rectangle * list Text) :=
  let '(patches, texts) := st in
  let color := dict_get (list_to_map colors) (item_type (placed item)) "#CCCCCC" in
  let furniture :=
    {| xy := position item;
       rect_width := dim_length (dimensions (placed item));
       rect_height := dim_width (dimensions (placed item));
       fill := true; color := color; alpha := Some (Float.lit 7 10) |} in
  let patches := patches ++ [furniture] in
  half_length ← Float.div (dim_length (dimensions (placed item))) (Float.of_Z 2);
  let center_x := Float.add (position item).1 half_length in
  half_width ← Float.div (dim_width (dimensions (placed item))) (Float.of_Z 2);
  let center_y := Float.add (position item).2 half_width in
  Ok (patches,
      texts ++ [{| text_x := center_x; text_y := center_y;
                   text := title (replace "_" " " (item_type (placed item))) |}]).

(** [ax.set_xlim(low, high)] and [ax.set_ylim(low, high)]: matplotlib
    validates each limit and raises [ValueError] ("Axis limits cannot be
    NaN or Inf") for one that is not finite. *)
Definition set_lim (low high : float) : result (float * float) :=
  if Float.isfinite low && Float.isfinite high then Ok (low, high)
  else Raise ValueError.

Definition create_layout_visualization (length width : float)
    (layout_data : gmap string data_value) (room_type : string) : result Figure :=
  let room :=
    {| xy := (Float.of_Z 0, Float.of_Z 0); rect_width := length; rect_height := width;
       fill := false; color := "black"; alpha := None |} in
  let patches := [room] in
  '(patches, texts) ←
    match layout_data !! "layout_options" with
    | Some (VLayouts (layout :: _)) =>
        furniture_layout ← position_furniture (furniture layout) length width;
        for_each draw_item furniture_layout (patches, [])
    | Some (VRecommendations (_ :: _)) => Raise (KeyError "furniture")
    | _ => Ok (patches, [])
    end;
  xlim ← set_lim (Float.opp (Float.lit 5 10)) (Float.add length (Float.lit 5 10));
  ylim ← set_lim (Float.opp (Float.lit 5 10)) (Float.add width (Float.lit 5 10));
  Ok {| patches := patches;
        texts := texts;
        xlim := xlim;
        ylim := ylim;
        axes_title := room_type +:+ " Layout Visualization";
        xlabel := "Length (meters)";
        ylabel := "Width (meters)";
        legend := (λ kv, (kv.2, title (replace "_" " " kv.1))) <$> colors |}.

(** ** The blocks carved by a run

    The same loop with a ghost list that records, for every item placed, the
    block marked in the grid at that step.  [place_item_erase] below shows
    that dropping the ghost list gives [place_item] back. *)
Definition place_item_ghost (grid_size : float)
    (st : ndarray * list (PositionedItem * Block))
    (item : FurnitureItem) : result (ndarray * list (PositionedItem * Block)) :=
  let '(occupancy_grid, trace) := st in
  item_length ← grid_units (dim_length (dimensions item)) grid_size;
  item_width ← grid_units (dim_width (dimensions item)) grid_size;
  match find_furniture_position occupancy_grid item_length item_width grid_size with
  | Some (x, y) =>
      let b := block_at x y item_length item_width in
      px ← scale x grid_size;
      py ← scale y grid_size;
      Ok (set_block occupancy_grid b,
          trace ++ [({| placed := item; position := (px, py) |}, b)])
  | None => Ok st
  end.

Definition position_furniture_ghost (furniture : list FurnitureItem)
    (room_length room_width : float)
  : result (ndarray * list (PositionedItem * Block)) :=
  let grid_size := Float.lit 5 10 in
  grid_length ← grid_units room_length grid_size;
  grid_width ← grid_units room_width grid_size;
  occupancy_grid ← np_zeros (grid_width, grid_length);
  for_each (place_item_ghost grid_size) (py_sorted footprint true furniture)
    (occupancy_grid, []).

(** ** Placement over a store

    [position_furniture] receives a list object whose elements are dict
    objects, and both kinds are mutable.  This second model keeps the
    objects in a store and follows the references, so that what the
    function mutates is visible: [sorted] builds a new list, [item.copy()]
    a new dict whose values are shared with the original, and the only
    writes are to objects the call itself has created. *)
Module Store.

Abbreviation loc := positive.

Inductive value :=
| VInt (z : Z)
| VFloat (f : float)
| VStr (s : string)
| VTuple (a b : float)
| VRef (l : loc).

Inductive object :=
| ODict (d : gmap string value)
| OList (vs : list value).

Abbreviation store := (gmap loc object).

(** A new object gets a location that is not in use. *)
Definition alloc (h : store) (o : object) : store * loc :=
  let l := fresh (dom h) in (<[l := o]> h, l).

Definition get_dict (h : store) (v : value) : result (gmap string value) :=
  match v with
  | VRef l =>
      match h !! l with
      | Some (ODict d) => Ok d
      | _ => Raise TypeError
      end
  | _ => Raise TypeError
  end.

Definition get_list (h : store) (l : loc) : result (list value) :=
  match h !! l with
  | Some (OList vs) => Ok vs
  | _ => Raise TypeError
  end.

(** [d[key]] *)
Definition subscript (d : gmap string value) (key : string) : result value :=
  match d !! key with
  | Some v => Ok v
  | None => Raise (KeyError key)
  end.

(** The dimensions are floats, as [get_furniture_dimensions] makes them. *)
Definition get_float (v : value) : result float :=
  match v with
  | VFloat f => Ok f
  | _ => Raise TypeError
  end.

(** [item['dimensions'][key]] *)
Definition item_dimension (h : store) (item : value) (key : string)
  : result float :=
  d ← get_dict h item;
  dims ← subscript d "dimensions";
  dd ← get_dict h dims;
  v ← subscript dd key;
  get_float v.

Definition footprint (h : store) (item : value) : result float :=
  l ← item_dimension h item "length";
  w ← item_dimension h item "width";
  Ok (Float.mul l w).

(** [lst.append(v)] *)
Definition list_append (h : store) (lst : loc) (v : value) : result store :=
  vs ← get_list h lst;
  Ok (<[lst := OList (vs ++ [v])]> h).

(** The loop body; the state is the store and the occupancy grid, which
    is local to the call. *)
Definition place_item (grid_size : float) (positioned_furniture : loc)
    (st : store * ndarray) (item : value) : result (store * ndarray) :=
  let '(h, occupancy_grid) := st in
  l ← item_dimension h item "length";
  item_length ← grid_units l grid_size;
  w ← item_dimension h item "width";
  item_width ← grid_units w grid_size;
  match find_furniture_position occupancy_grid item_length item_width grid_size with
  | Some (x, y) =>
      let occupancy_grid :=
        set_block occupancy_grid (block_at x y item_length item_width) in
      d ← get_dict h item;
      let '(h, positioned_item) := alloc h (ODict d) in
      px ← scale x grid_size;
      py ← scale y grid_size;
      let h := <[positioned_item := ODict (<["position" := VTuple px py]> d)]> h in
      h ← list_append h positioned_furniture (VRef positioned_item);
      Ok (h, occupancy_grid)
  | None => Ok st
  end.

(** [sorted] computes the key of every element first and builds a new
    list; the list it is given is read only. *)
Definition sorted_by_footprint (h : store) (furniture : loc)
  : result (list value) :=
  vs ← get_list h furniture;
  keyed ← for_each (λ acc v, k ← footprint h v; Ok (acc ++ [(k, v)])) vs [];
  Ok (snd <$> py_sorted fst true keyed).

Definition position_furniture (h : store) (furniture : loc)
    (room_length room_width : float) : result (store * loc) :=
  let '(h, positioned_furniture) := alloc h (OList []) in
  let grid_size := Float.lit 5 10 in
  grid_length ← grid_units room_length grid_size;
  grid_width ← grid_units room_width grid_size;
  occupancy_grid ← np_zeros (grid_width, grid_length);
  sorted_furniture ← sorted_by_footprint h furniture;
  '(h, _) ←
    for_each (place_item grid_size positioned_furniture) sorted_furniture
      (h, occupancy_grid);
  Ok (h, positioned_furniture).

End Store.

(** * Definitions used in the statements *)

#[global] Instance spec_float_eq_dec : EqDecision spec_float.
Proof. solve_decision. Defined.

Definition one : float := Float.lit 10 10.

(** Every base price the table can give, and every multiplier. *)
Definition all_base_prices : list Z := 300 :: base_prices_table.*2.
Definition all_multipliers : list float := one :: style_multipliers_table.*2.

(** [int(base_price * multiplier)] succeeds and is the floor of the
    product, and the price is not negative. *)
Definition price_ok (base_price : Z) (multiplier : float) : Prop :=
  ∃ b p, Float.of_int base_price = Ok b
    ∧ b = Float.of_Z base_price
    ∧ Float.to_int (Float.mul b multiplier) = Ok p
    ∧ Float.floor (Float.mul b multiplier) = Some p
    ∧ 0 ≤ p.

Definition price_check (base_price : Z) (multiplier : float) : bool :=
  match Float.of_int base_price with
  | Ok b =>
      match Float.to_int (Float.mul b multiplier) with
      | Ok p =>
          bool_decide (b = Float.of_Z base_price
                       ∧ Float.floor (Float.mul b multiplier) = Some p ∧ 0 ≤ p)
      | Raise _ => false
      end
  | Raise _ => false
  end.

(** The multipliers as the source writes them, as fractions: 1.15 is
    115/100.  [written_multipliers_floats] below shows that the multiplier
    table holds their nearest doubles. *)
Definition written_multipliers : list (string * (Z * Z)) := [
  ("Modern", (12, 10));
  ("Traditional", (11, 10));
  ("Minimalist", (10, 10));
  ("Scandinavian", (13, 10));
  ("Industrial", (115, 100))
].

(** The price read with the arithmetic of the specification:
    [floor(base_price * multiplier)] for the numbers as they are written,
    with the multiplier 1.0 for a style that is not in the table. *)
Definition exact_price (base_price : Z) (style : string) : Z :=
  let '(n, d) := dict_get (list_to_map written_multipliers) style (10, 10) in
  (base_price * n) `div` d.

(** [int(base_price * multiplier)], for the double nearest to the written
    multiplier [n/d] of a style, is the exact floor or one less, and is the
    exact floor when the style is not Industrial. *)
Definition price_near_exact (base_price : Z) (entry : string * (Z * Z)) : bool :=
  let '(style, (n, d)) := entry in
  match Float.to_int (Float.mul (Float.of_Z base_price) (Float.lit n d)) with
  | Ok p => bool_decide ((base_price * n) `div` d - 1 ≤ p ≤ (base_price * n) `div` d
                         ∧ (style ≠ "Industrial" → p = (base_price * n) `div` d))
  | Raise _ => false
  end.

(** The sum of the prices of a furniture list. *)
Definition total_price (fs : list FurnitureItem) : Z :=
  foldr Z.add 0 (price <$> fs).

(** A layout with another [id]. *)
Definition with_id (i : Z) (layout : Layout) : Layout :=
  {| layout_id := i; furniture := furniture layout; cost := cost layout;
     description := description layout; features := features layout |}.

(** The layout [generate_room_layout] appends for the option of number [i],
    from the layout its inner loop has filled. *)
Definition finished (i : Z) (style room_type : string) (layout : Layout) : Layout :=
  {| layout_id := i; furniture := furniture layout; cost := cost layout;
     description := generate_layout_description layout style room_type;
     features := generate_layout_features layout style |}.

(** Every feature list the style table can give. *)
Definition all_style_features : list (list string) :=
  ["Balanced design"; "Functional layout"]
  :: (map_to_list style_features).*2.

(** The rows and columns of a grid agree with its shape. *)
Definition wf_grid (a : ndarray) : Prop :=
  0 ≤ (shape a).1 ∧ 0 ≤ (shape a).2
  ∧ length (rows a) = Z.to_nat (shape a).1
  ∧ Forall (λ row, length row = Z.to_nat (shape a).2) (rows a).

(** Two blocks of an array of shape [shp] share no cell. *)
Definition disjoint_blocks (shp : Z * Z) (b1 b2 : Block) : Prop :=
  ∀ r c, ¬ (in_block shp b1 r c = true ∧ in_block shp b2 r c = true).

(** What the ghost list records about a placed item: the block is the one
    of the item at the grid position found, and the position of the item is
    that grid position scaled by the grid size. *)
Definition records (grid_size : float) (entry : PositionedItem * Block) : Prop :=
  ∃ x y item_length item_width,
    grid_units (dim_length (dimensions (placed entry.1))) grid_size = Ok item_length
    ∧ grid_units (dim_width (dimensions (placed entry.1))) grid_size = Ok item_width
    ∧ entry.2 = block_at x y item_length item_width
    ∧ scale x grid_size = Ok (position entry.1).1
    ∧ scale y grid_size = Ok (position entry.1).2.

(** The invariant of the placement loop, for a grid of shape [shp]: the
    cells of the recorded blocks are exactly the occupied cells, and the
    recorded blocks are pairwise disjoint. *)
Definition placement_inv (grid_size : float) (shp : Z * Z)
    (st : ndarray * list (PositionedItem * Block)) : Prop :=
  wf_grid st.1 ∧ shape st.1 = shp
  ∧ (∀ r c, cell st.1 r c = Some true
            ↔ ∃ entry, entry ∈ st.2
                       ∧ in_block shp entry.2 (Z.of_nat r) (Z.of_nat c) = true)
  ∧ (∀ i j e1 e2, i ≠ j → st.2 !! i = Some e1 → st.2 !! j = Some e2 →
                  disjoint_blocks shp e1.2 e2.2)
  ∧ Forall (records grid_size) st.2.

(** The grid size of [position_furniture], 0.5, and the float 0.0. *)
Definition half : float := Float.lit 5 10.
Definition zero : float := S754_zero false.

(** A positioned item of the store model: a dict at a location the call
    has allocated, equal to the dict of an element of the input list with
    the key ['position'] added. *)
Definition copy_with_position (h h' : Store.store) (items : list Store.value)
    (out : Store.loc) (v : Store.value) : Prop :=
  ∃ l d item px py,
    v = Store.VRef l ∧ (l ∉ dom h) ∧ l ≠ out
    ∧ h' !! l = Some (Store.ODict (<["position" := Store.VTuple px py]> d))
    ∧ item ∈ items ∧ Store.get_dict h item = Ok d.

(** The invariant of the loop of the store model: the objects of the
    initial store [h] are as they were, and the list under construction
    holds copies. *)
Definition store_inv (h : Store.store) (items : list Store.value)
    (out : Store.loc) (st : Store.store * ndarray) : Prop :=
  (∀ l, l ∈ dom h → st.1 !! l = h !! l)
  ∧ ∃ vs, st.1 !! out = Some (Store.OList vs)
          ∧ Forall (copy_with_position h st.1 items out) vs.

(** In ascending order of the keys: [b], which comes later, is not smaller
    than [a]. *)
Definition not_after {A : Type} (key : A → float) (a b : A) : Prop :=
  Float.ltb (key b) (key a) = false.

(** In descending order of the keys: [a], which comes first, is not smaller
    than [b]. *)
Definition not_before {A : Type} (key : A → float) (a b : A) : Prop :=
  Float.ltb (key a) (key b) = false.

(** ** Reading the store

    The record a dict of the store stands for, when it has the four keys
    of a furniture item with values of the right kind. *)
Definition read_dimensions (h : Store.store) (v : Store.value) : option Dimensions :=
  match Store.get_dict h v with
  | Ok dd =>
      match dd !! "length", dd !! "width" with
      | Some (Store.VFloat l), Some (Store.VFloat w) =>
          Some {| dim_length := l; dim_width := w |}
      | _, _ => None
      end
  | Raise _ => None
  end.

Definition read_item (h : Store.store) (v : Store.value) : option FurnitureItem :=
  match Store.get_dict h v with
  | Ok d =>
      match d !! "type", d !! "price", d !! "style", d !! "dimensions" with
      | Some (Store.VStr t), Some (Store.VInt p), Some (Store.VStr s), Some dims =>
          (λ dm, {| item_type := t; price := p; style := s; dimensions := dm |})
            <$> read_dimensions h dims
      | _, _, _, _ => None
      end
  | Raise _ => None
  end.

Definition read_positioned (h : Store.store) (v : Store.value)
  : option PositionedItem :=
  match Store.get_dict h v with
  | Ok d =>
      match d !! "position" with
      | Some (Store.VTuple a b) =>
          (λ item, {| placed := item; position := (a, b) |}) <$> read_item h v
      | _ => None
      end
  | Raise _ => None
  end.

(** The dicts of [h] are in [h'], unchanged. *)
Definition dicts_preserved (h h' : Store.store) : Prop :=
  ∀ l d, h !! l = Some (Store.ODict d) → h' !! l = Some (Store.ODict d).

(** The states of the two loops agree: same grid, the dicts of the initial
    store are in place, and the list under construction reads as the list of
    positioned items. *)
Definition store_sim (h : Store.store) (out : Store.loc)
    (st : Store.store * ndarray) (st' : ndarray * list PositionedItem) : Prop :=
  st.2 = st'.1
  ∧ dicts_preserved h st.1
  ∧ ∃ ws, st.1 !! out = Some (Store.OList ws)
          ∧ Forall2 (λ w p, read_positioned st.1 w = Some p) ws st'.2.

(** ** The catalogue *)

(** The room types of the requirement table. *)
Definition room_types : list string :=
  ["Living Room"; "Bedroom"; "Home Office"; "Dining Room"; "Kitchen"].

(** [int(base_price * multiplier)] lies between the base price and 1.3
    times the base price, and is the base price when the multiplier is
    1.0. *)
Definition price_in_band (base_price : Z) (multiplier : float) : bool :=
  match Float.to_int (Float.mul (Float.of_Z base_price) multiplier) with
  | Ok p => bool_decide (base_price ≤ p ≤ (13 * base_price) `div` 10
                         ∧ (multiplier = one → p = base_price))
  | Raise _ => false
  end.

(** The largest price an item made for a requirement can have, and the
    sum of these prices over a requirement list. *)
Definition price_cap (r : Requirement) : Z :=
  (13 * dict_get base_prices (req_type r) 300) `div` 10.

Definition total_cap (reqs : list Requirement) : Z :=
  foldr Z.add 0 (price_cap <$> reqs).

(** The dimensions convert to grid units, and these are not negative. *)
Definition units_ok (d : Dimensions) : bool :=
  match grid_units (dim_length d) half, grid_units (dim_width d) half with
  | Ok item_length, Ok item_width => bool_decide (0 ≤ item_length ∧ 0 ≤ item_width)
  | _, _ => false
  end.

(** ** The figure *)

(** [s.isascii()]: every byte is below 128. *)
Definition isascii (s : string) : bool :=
  forallb (λ c, bool_decide (nat_of_ascii c < 128)%nat) (list_ascii_of_string s).

(** The outline of the room, the first patch of every figure. *)
Definition room_outline (length width : float) : Rectangle :=
  {| xy := (Float.of_Z 0, Float.of_Z 0); rect_width := length; rect_height := width;
     fill := false; color := "black"; alpha := None |}.

(** The patch and the text that [draw_item] adds for a positioned item: the
    rectangle of the item, and its label at the centre of the rectangle. *)
Definition drawn_as (p : PositionedItem) (r : Rectangle) (t : Text) : Prop :=
  xy r = position p
  ∧ rect_width r = dim_length (dimensions (placed p))
  ∧ rect_height r = dim_width (dimensions (placed p))
  ∧ fill r = true
  ∧ color r = dict_get (list_to_map colors) (item_type (placed p)) "#CCCCCC"
  ∧ text t = title (replace "_" " " (item_type (placed p)))
  ∧ ∃ half_length half_width,
      Float.div (dim_length (dimensions (placed p))) (Float.of_Z 2) = Ok half_length
      ∧ Float.div (dim_width (dimensions (placed p))) (Float.of_Z 2) = Ok half_width
      ∧ text_x t = Float.add (position p).1 half_length
      ∧ text_y t = Float.add (position p).2 half_width.

(** ** Sample inputs *)

(** The item [generate_furniture_item] makes for a type in the Minimalist
    style, whose multiplier is 1.0. *)
Definition sample_item (t : string) : FurnitureItem :=
  {| item_type := t; price := dict_get base_prices t 300;
     style := "Minimalist"; dimensions := get_furniture_dimensions t |}.

Definition sample_furniture : list FurnitureItem :=
  sample_item <$> ["coffee_table"; "sofa"; "bookshelf"; "bed"].

(** A store with a list of two items, a coffee table and a sofa. *)
Definition sample_store : Store.store :=
  list_to_map [
    (1%positive, Store.OList [Store.VRef 2; Store.VRef 4]);
    (2%positive, Store.ODict (list_to_map [
       ("type", Store.VStr "coffee_table"); ("price", Store.VInt 240);
       ("style", Store.VStr "Modern"); ("dimensions", Store.VRef 3)]));
    (3%positive, Store.ODict (list_to_map [
       ("length", Store.VFloat (Float.lit 9 10));
       ("width", Store.VFloat (Float.lit 6 10))]));
    (4%positive, Store.ODict (list_to_map [
       ("type", Store.VStr "sofa"); ("price", Store.VInt 1200);
       ("style", Store.VStr "Modern"); ("dimensions", Store.VRef 5)]));
    (5%positive, Store.ODict (list_to_map [
       ("length", Store.VFloat (Float.lit 20 10));
       ("width", Store.VFloat (Float.lit 9 10))]))
  ].

Arguments generate_furniture_item : simpl never.
Arguments add_required : simpl never.
Arguments generate_option : simpl never.
Arguments generate_layout_description : simpl never.
Arguments generate_layout_features : simpl never.
Arguments grid_units : simpl never.
Arguments scale : simpl never.
Arguments find_furniture_position : simpl never.
Arguments place_item : simpl never.
Arguments place_item_ghost : simpl never.
Arguments footprint : simpl never.
Arguments np_zeros : simpl never.
Arguments set_lim : simpl never.
Arguments py_sorted : simpl never.
Arguments cell : simpl never.
Arguments set_block : simpl never.
Arguments np_any : simpl never.
Arguments in_block : simpl never.
Arguments block_at : simpl never.
Arguments draw_item : simpl never.
Arguments create_layout_visualization : simpl never.

(** * Properties *)

(** ** Loops and lookups *)

Lemma for_each_cons {S A : Type} (body : S → A → result S) x xs s :
  for_each body (x :: xs) s = body s x ≫= for_each body xs.
Proof. reflexivity. Qed.

Lemma bind_Ok_l {A B : Type} (a : A) (f : A → result B) : Ok a ≫= f = f a.
Proof. reflexivity. Qed.

Lemma bind_Ok {A B : Type} (r : result A) (f : A → result B) (b : B) :
  r ≫= f = Ok b ↔ ∃ a, r = Ok a ∧ f a = Ok b.
Proof.
  destruct r as [a|e]; simpl; split.
  - eauto.
  - by intros (? & [= <-] & ?).
  - done.
  - by intros (? & ? & ?).
Qed.

(** A loop invariant: what holds before the loop and is kept by every
    iteration holds when the loop ends. *)
Lemma for_each_inv {S A : Type} (I : S → Prop) (body : S → A → result S) xs s s' :
  I s →
  (∀ t x t', x ∈ xs → I t → body t x = Ok t' → I t') →
  for_each body xs s = Ok s' →
  I s'.
Proof.
  revert s. induction xs as [|x xs IH]; intros s Hs Hbody; simpl.
  - by intros [= <-].
  - intros (t & Ht & Hrest)%bind_Ok.
    apply (IH t); [|intros; eapply Hbody; eauto using list_elem_of_further|done].
    eapply Hbody; eauto using list_elem_of_here.
Qed.

Lemma dict_get_cases {V : Type} (l : list (string * V)) (key : string) (dflt : V) :
  NoDup l.*1 →
  (key, dict_get (list_to_map l) key dflt) ∈ l
  ∨ (key ∉ l.*1) ∧ dict_get (list_to_map l) key dflt = dflt.
Proof.
  intros Hnd. unfold dict_get.
  destruct (list_to_map l !! key) as [v|] eqn:E; simpl.
  - left. by apply elem_of_list_to_map.
  - right. split; [|done]. by apply not_elem_of_list_to_map.
Qed.

Lemma NoDup_style_multipliers : NoDup style_multipliers_table.*1.
Proof. compute_done. Qed.

Lemma NoDup_base_prices : NoDup base_prices_table.*1.
Proof. compute_done. Qed.

Lemma NoDup_dimensions : NoDup dimensions_table.*1.
Proof. compute_done. Qed.

(** ** Prices *)

Lemma price_check_ok base_price multiplier :
  price_check base_price multiplier = true → price_ok base_price multiplier.
Proof.
  unfold price_check, price_ok.
  destruct (Float.of_int base_price) as [b|]; [|done].
  destruct (Float.to_int (Float.mul b multiplier)) as [p|] eqn:Hp; [|done].
  intros (? & ? & ?)%bool_decide_eq_true. by exists b, p.
Qed.

Lemma all_prices_checked :
  Forall (λ b, Forall (λ m, price_check b m = true) all_multipliers) all_base_prices.
Proof. compute_done. Qed.

Lemma base_price_known (t : string) :
  dict_get base_prices t 300 ∈ all_base_prices.
Proof.
  unfold base_prices, all_base_prices.
  destruct (dict_get_cases base_prices_table t 300 NoDup_base_prices)
    as [Hin|[_ ->]]; [|left].
  right. by apply (list_elem_of_fmap_2 snd) in Hin.
Qed.

Lemma multiplier_known (s : string) :
  dict_get style_multipliers s one ∈ all_multipliers.
Proof.
  unfold style_multipliers, all_multipliers.
  destruct (dict_get_cases style_multipliers_table s one NoDup_style_multipliers)
    as [Hin|[_ ->]]; [|left].
  right. by apply (list_elem_of_fmap_2 snd) in Hin.
Qed.

Lemma lookup_price_ok (t s : string) :
  price_ok (dict_get base_prices t 300) (dict_get style_multipliers s one).
Proof.
  apply price_check_ok.
  pose proof all_prices_checked as H.
  rewrite Forall_forall in H. specialize (H _ (base_price_known t)).
  rewrite Forall_forall in H. apply H, multiplier_known.
Qed.

(** [generate_furniture_item] never raises. *)
Lemma generate_furniture_item_Ok (requirement : Requirement) (s : string) :
  ∃ p, generate_furniture_item requirement s
       = Ok {| item_type := req_type requirement; price := p; style := s;
               dimensions := get_furniture_dimensions (req_type requirement) |}
     ∧ Float.floor (Float.mul (Float.of_Z (dict_get base_prices (req_type requirement) 300))
                              (dict_get style_multipliers s one)) = Some p
     ∧ 0 ≤ p.
Proof.
  destruct (lookup_price_ok (req_type requirement) s)
    as (b & p & Hb & -> & Hp & Hfl & Hpos).
  exists p. unfold generate_furniture_item. fold one.
  rewrite Hb, bind_Ok_l, Hp. done.
Qed.

(** The multiplier table holds the doubles nearest to the written
    multipliers. *)
Lemma written_multipliers_floats :
  style_multipliers_table
  = (λ entry : string * (Z * Z), (entry.1, Float.lit entry.2.1 entry.2.2))
      <$> written_multipliers.
Proof. reflexivity. Qed.

Lemma NoDup_written_multipliers : NoDup written_multipliers.*1.
Proof. compute_done. Qed.

Lemma all_prices_near_exact :
  Forall (λ b, Forall (λ entry, price_near_exact b entry = true)
                 (("", (10, 10)) :: written_multipliers)) all_base_prices.
Proof. compute_done. Qed.

(** The price against the arithmetic of the specification. *)
Lemma price_against_exact (requirement : Requirement) (s : string) (item : FurnitureItem) :
  generate_furniture_item requirement s = Ok item →
  let base_price := dict_get base_prices (req_type requirement) 300 in
  exact_price base_price s - 1 ≤ price item ≤ exact_price base_price s
  ∧ (s ≠ "Industrial" → price item = exact_price base_price s).
Proof.
  intros Hitem. cbv zeta.
  destruct (lookup_price_ok (req_type requirement) s)
    as (b & p & Hb & -> & Hp & _ & _).
  unfold generate_furniture_item in Hitem. fold one in Hitem.
  rewrite Hb, bind_Ok_l, Hp, bind_Ok_l in Hitem. injection Hitem as <-.
  cbn [price].
  pose proof all_prices_near_exact as Hall. rewrite Forall_forall in Hall.
  specialize (Hall _ (base_price_known (req_type requirement))).
  rewrite Forall_forall in Hall. unfold exact_price.
  revert Hp Hall. generalize (dict_get base_prices (req_type requirement) 300).
  intros base Hp Hall.
  destruct (dict_get_cases written_multipliers s (10, 10) NoDup_written_multipliers)
    as [Hin|[Hout Hdflt]].
  - destruct (dict_get (list_to_map written_multipliers) s (10, 10)) as [n d].
    assert (dict_get style_multipliers s one = Float.lit n d) as Hm.
    { unfold style_multipliers, dict_get.
      erewrite (elem_of_list_to_map_1 style_multipliers_table s (Float.lit n d));
        [done|apply NoDup_style_multipliers|].
      rewrite written_multipliers_floats.
      by apply (list_elem_of_fmap_2
                  (λ entry : string * (Z * Z),
                     (entry.1, Float.lit entry.2.1 entry.2.2)) _ (s, (n, d))). }
    rewrite Hm in Hp.
    specialize (Hall (s, (n, d)) (list_elem_of_further _ _ _ Hin)).
    unfold price_near_exact in Hall. rewrite Hp in Hall.
    by apply bool_decide_eq_true in Hall.
  - rewrite Hdflt.
    assert (dict_get style_multipliers s one = Float.lit 10 10) as Hm.
    { unfold style_multipliers, dict_get.
      rewrite (not_elem_of_list_to_map_1 style_multipliers_table s); [done|].
      rewrite written_multipliers_floats, <-list_fmap_compose. exact Hout. }
    rewrite Hm in Hp.
    specialize (Hall ("", (10, 10)) (list_elem_of_here _ _)).
    unfold price_near_exact in Hall. rewrite Hp in Hall.
    apply bool_decide_eq_true in Hall as [Hnear Heq].
    split; [exact Hnear|]. intros _. by apply Heq.
Qed.

(** C4 as amended.  For every furniture type and every style, the item has
    the price [floor(base_price * multiplier)], where the base price is the
    entry of the type in the price table, or 300 when the table has none,
    the multiplier is the entry of the style, or 1.0 when there is none, and
    [*] is the multiplication of Python floats (binary64, rounded to
    nearest).  Against the product of the numbers as they are written, this
    price is the exact floor or one less, and it is the exact floor for
    every style but Industrial, whose multiplier 1.15 is not a binary64
    number.  The dimensions of the item are the entry of the type in the
    dimension table, or 1.0 by 1.0 when there is none, whatever the
    style. *)
Theorem furniture_item_price_and_dimensions (requirement : Requirement) (s : string) :
  ∃ item base_price multiplier,
    generate_furniture_item requirement s = Ok item
    ∧ item_type item = req_type requirement
    ∧ ((req_type requirement, base_price) ∈ base_prices_table
       ∨ (req_type requirement ∉ base_prices_table.*1) ∧ base_price = 300)
    ∧ ((s, multiplier) ∈ style_multipliers_table
       ∨ (s ∉ style_multipliers_table.*1) ∧ multiplier = Float.lit 10 10)
    ∧ Float.floor (Float.mul (Float.of_Z base_price) multiplier) = Some (price item)
    ∧ ((req_type requirement, dimensions item) ∈ dimensions_table
       ∨ (req_type requirement ∉ dimensions_table.*1)
          ∧ dimensions item
            = {| dim_length := Float.lit 10 10; dim_width := Float.lit 10 10 |})
    ∧ (∀ s', ∃ item', generate_furniture_item requirement s' = Ok item'
                      ∧ dimensions item' = dimensions item)
    ∧ exact_price base_price s - 1 ≤ price item ≤ exact_price base_price s
    ∧ (s ≠ "Industrial" → price item = exact_price base_price s).
Proof.
  destruct (generate_furniture_item_Ok requirement s) as (p & Hitem & Hfl & _).
  pose proof (price_against_exact requirement s _ Hitem) as Hexact.
  eexists _, (dict_get base_prices (req_type requirement) 300),
    (dict_get style_multipliers s one).
  split; [exact Hitem|]. simpl. split; [done|].
  split; [apply dict_get_cases, NoDup_base_prices|].
  split; [apply dict_get_cases, NoDup_style_multipliers|].
  split; [exact Hfl|].
  split; [apply dict_get_cases, NoDup_dimensions|].
  split; [|exact Hexact].
  intros s'. destruct (generate_furniture_item_Ok requirement s') as (p' & -> & _).
  by eexists.
Qed.

(** The claim as the specification words it, with the product of the
    numbers as they are written, does not hold: an Industrial coffee table
    costs [int(200 * 1.15)], which is 229, and [floor(200 * 1.15)] is
    230. *)
Lemma industrial_price_is_below_the_exact_floor :
  ¬ (∀ (requirement : Requirement) (s : string) (item : FurnitureItem),
       generate_furniture_item requirement s = Ok item →
       price item = exact_price (dict_get base_prices (req_type requirement) 300) s).
Proof.
  intros Hclaim.
  specialize (Hclaim
    {| req_type := "coffee_table"; priority := 2; min_area := Float.lit 6 10 |}
    "Industrial" _ eq_refl).
  vm_compute in Hclaim. discriminate Hclaim.
Qed.

(** The product is a binary64 product: 1.15 is not a binary fraction, so
    [200 * 1.15] is the double just below 230 and [int] gives 229, one less
    than the floor of the decimal product [200 * 115 / 100]. *)
Lemma industrial_coffee_table_price :
  price <$> generate_furniture_item
    {| req_type := "coffee_table"; priority := 2; min_area := Float.lit 6 10 |}
    "Industrial" = Ok 229
  ∧ (200 * 115) `div` 100 = 230.
Proof. split; by vm_compute. Qed.

(** ** Candidate generation *)

Lemma add_required_with_id (s : string) l a item l' a' i :
  add_required s (l, a) item = Ok (l', a') →
  add_required s (with_id i l, a) item = Ok (with_id i l', a').
Proof.
  unfold add_required.
  destruct (Float.geb a (min_area item)); [|by intros [= <- <-]].
  destruct (generate_furniture_item item s) as [fi|]; [|done].
  rewrite !bind_Ok_l. by intros [= <- <-].
Qed.

Lemma for_each_add_required_with_id (s : string) reqs l a l' a' i :
  for_each (add_required s) reqs (l, a) = Ok (l', a') →
  for_each (add_required s) reqs (with_id i l, a) = Ok (with_id i l', a').
Proof.
  revert l a. induction reqs as [|item reqs IH]; intros l a.
  - by intros [= <- <-].
  - rewrite !for_each_cons. intros ([l1 a1] & Hstep & Hrest)%bind_Ok.
    rewrite (add_required_with_id _ _ _ _ _ _ i Hstep), bind_Ok_l. by apply IH.
Qed.

Lemma total_price_app fs gs :
  total_price (fs ++ gs) = total_price fs + total_price gs.
Proof.
  unfold total_price. rewrite fmap_app, foldr_app.
  generalize (price <$> gs). intros qs.
  induction (price <$> fs) as [|q ps IH]; simpl; lia.
Qed.

(** One step of the inner loop never raises; it appends nothing, or one
    item of the type required. *)
Lemma add_required_Ok (s : string) l a item :
  ∃ l' a' sel,
    add_required s (l, a) item = Ok (l', a')
    ∧ furniture l' = furniture l ++ sel
    ∧ cost l' = cost l + total_price sel
    ∧ item_type <$> sel `sublist_of` [req_type item].
Proof.
  unfold add_required. destruct (Float.geb a (min_area item)).
  - destruct (generate_furniture_item_Ok item s) as (p & -> & _).
    rewrite bind_Ok_l. eexists _, _, [_]. split; [done|]. simpl.
    split; [done|]. split; [unfold total_price; simpl; lia|done].
  - exists l, a, []. rewrite app_nil_r. split; [done|]. split; [done|].
    split; [unfold total_price; simpl; lia|]. by apply sublist_cons.
Qed.

(** The inner loop never raises.  It appends to the furniture a selection
    whose types are, in order, types of the requirement list, and adds the
    prices of the selection to the cost. *)
Lemma select_run (s : string) reqs l a :
  ∃ l' a' sel,
    for_each (add_required s) reqs (l, a) = Ok (l', a')
    ∧ furniture l' = furniture l ++ sel
    ∧ cost l' = cost l + total_price sel
    ∧ item_type <$> sel `sublist_of` req_type <$> reqs.
Proof.
  revert l a. induction reqs as [|item reqs IH]; intros l a.
  - exists l, a, []. rewrite app_nil_r. simpl. split; [done|].
    split; [done|]. split; [unfold total_price; simpl; lia|constructor].
  - rewrite for_each_cons.
    destruct (add_required_Ok s l a item) as (l1 & a1 & sel1 & -> & Hf1 & Hc1 & Hs1).
    rewrite bind_Ok_l.
    destruct (IH l1 a1) as (l' & a' & sel & -> & Hf & Hc & Hsub).
    exists l', a', (sel1 ++ sel). split; [done|].
    rewrite Hf, Hf1, Hc, Hc1, total_price_app, <-app_assoc.
    split; [done|]. split; [lia|]. rewrite fmap_app, fmap_cons.
    by apply (sublist_app _ [_]).
Qed.

Lemma generate_option_Ok (area : float) (room_type s : string) reqs :
  ∃ filled,
    cost filled = total_price (furniture filled)
    ∧ item_type <$> furniture filled `sublist_of` req_type <$> reqs
    ∧ ∀ layouts i,
        generate_option area room_type s reqs layouts i
        = Ok (layouts ++ [finished (i + 1) s room_type filled]).
Proof.
  set (init i := {| layout_id := i; furniture := []; cost := 0;
                    description := ""; features := [] |}).
  destruct (select_run s reqs (init 0) (Float.mul area (Float.lit 7 10)))
    as (l & a & sel & Hrun & Hf & Hc & Hsub).
  simpl in Hf, Hc. exists l. rewrite Hf, Hc. split; [done|]. split; [done|].
  intros layouts i. unfold generate_option.
  apply (for_each_add_required_with_id _ _ _ _ _ _ (i + 1)) in Hrun.
  change (with_id (i + 1) (init 0)) with (init (i + 1)) in Hrun.
  subst init. simpl in Hrun. rewrite Hrun. done.
Qed.

Lemma generate_room_layout_Ok (area : float) (room_type s : string) reqs :
  ∃ filled,
    cost filled = total_price (furniture filled)
    ∧ item_type <$> furniture filled `sublist_of` req_type <$> reqs
    ∧ generate_room_layout area room_type s reqs
      = Ok [finished 1 s room_type filled; finished 2 s room_type filled;
            finished 3 s room_type filled].
Proof.
  destruct (generate_option_Ok area room_type s reqs)
    as (filled & Hcost & Hsub & Hopt).
  exists filled. split; [done|]. split; [done|].
  unfold generate_room_layout.
  change (py_range 3) with [0; 1; 2].
  rewrite for_each_cons, Hopt, bind_Ok_l.
  rewrite for_each_cons, Hopt, bind_Ok_l.
  rewrite for_each_cons, Hopt, bind_Ok_l.
  reflexivity.
Qed.

(** C8.  Whatever the area, the room type, the style and the requirement
    list, [generate_room_layout] returns, without raising, exactly three
    options; their ids are 1, 2 and 3, and their furniture, cost,
    description and features are the same.  The cost is the sum of the
    prices.  The model is a function of its arguments only (the source
    reads no clock, random source or global state), so a second call with
    the same arguments returns this same list. *)
Theorem generate_room_layout_three_equal_options
    (area : float) (room_type s : string) (reqs : list Requirement) :
  ∃ o1 o2 o3,
    generate_room_layout area room_type s reqs = Ok [o1; o2; o3]
    ∧ layout_id o1 = 1 ∧ layout_id o2 = 2 ∧ layout_id o3 = 3
    ∧ furniture o1 = furniture o2 ∧ furniture o2 = furniture o3
    ∧ cost o1 = cost o2 ∧ cost o2 = cost o3
    ∧ description o1 = description o2 ∧ description o2 = description o3
    ∧ features o1 = features o2 ∧ features o2 = features o3
    ∧ o2 = with_id 2 o1 ∧ o3 = with_id 3 o1
    ∧ cost o1 = total_price (furniture o1)
    ∧ ∀ again, again = generate_room_layout area room_type s reqs →
               again = Ok [o1; o2; o3].
Proof.
  destruct (generate_room_layout_Ok area room_type s reqs)
    as (filled & Hcost & _ & Hrun).
  eexists _, _, _. split; [exact Hrun|]. simpl.
  repeat split; try done. by intros again ->.
Qed.

(** C3.  A 5 by 4 bedroom in the Modern style: the requirement list is
    bed (3.5), wardrobe (1.2), nightstand (0.2); the available area is
    14.0, which admits 3.5, then 10.5 admits 1.2, then 9.3 admits 0.2; each
    of the three options selects bed, wardrobe and nightstand in this
    order, at the prices 960, 720 and 120, and costs 1800. *)
Theorem bedroom_modern_5_by_4 :
  let area := Float.mul (Float.of_Z 5) (Float.of_Z 4) in
  (λ r, (req_type r, min_area r)) <$> get_furniture_requirements "Bedroom"
    = [("bed", Float.lit 35 10); ("wardrobe", Float.lit 12 10);
       ("nightstand", Float.lit 2 10)]
  ∧ Float.mul area (Float.lit 7 10) = Float.of_Z 14
  ∧ Float.geb (Float.of_Z 14) (Float.lit 35 10) = true
  ∧ Float.sub (Float.of_Z 14) (Float.lit 35 10) = Float.lit 105 10
  ∧ Float.geb (Float.lit 105 10) (Float.lit 12 10) = true
  ∧ Float.sub (Float.lit 105 10) (Float.lit 12 10) = Float.lit 93 10
  ∧ Float.geb (Float.lit 93 10) (Float.lit 2 10) = true
  ∧ ∃ o1 o2 o3,
      generate_room_layout area "Bedroom" "Modern"
        (get_furniture_requirements "Bedroom") = Ok [o1; o2; o3]
      ∧ Forall (λ o,
          item_type <$> furniture o = ["bed"; "wardrobe"; "nightstand"]
          ∧ price <$> furniture o = [960; 720; 120]
          ∧ cost o = 1800
          ∧ cost o = (800 * 12) `div` 10 + (600 * 12) `div` 10 + (100 * 12) `div` 10)
        [o1; o2; o3].
Proof.
  do 7 (split; [by vm_compute|]).
  eexists _, _, _. split; [by vm_compute|].
  repeat (apply Forall_cons; split; [by vm_compute|]). constructor.
Qed.

(** ** The entry point *)

(** C2.  [generate_layout_suggestions] calls [generate_recommendations],
    a name that is bound nowhere: with any arguments, the first three
    statements succeed and the call raises [NameError]; no result is
    returned. *)
Theorem generate_layout_suggestions_raises {F : Type}
    (length width height : float) (room_type s : string) (budget : Z * Z)
    (room_features : F) :
  generate_layout_suggestions length width height room_type s budget room_features
  = Raise (NameError "generate_recommendations").
Proof.
  unfold generate_layout_suggestions.
  destruct (generate_room_layout_Ok (Float.mul length width) room_type s
              (get_furniture_requirements room_type)) as (filled & _ & _ & ->).
  reflexivity.
Qed.

(** ** The budget filter *)

(** C5.  The budget filter returns the options whose cost lies between the
    two bounds, both included, in their original order: the result is a
    sublist of the input, an option is in it exactly when it is in the input
    and in range, every sublist of the input whose options are all in range
    is a sublist of the result, and the result is empty exactly when no
    option is in range. *)
Theorem filter_by_budget_in_range_sublist
    (layouts : list Layout) (min_budget max_budget : Z) :
  let kept := filter_by_budget layouts (min_budget, max_budget) in
  kept `sublist_of` layouts
  ∧ (∀ o, o ∈ kept ↔ o ∈ layouts ∧ min_budget ≤ cost o ≤ max_budget)
  ∧ (∀ sub, sub `sublist_of` layouts →
            Forall (λ o, min_budget ≤ cost o ≤ max_budget) sub →
            sub `sublist_of` kept)
  ∧ (kept = [] ↔ Forall (λ o, ¬ min_budget ≤ cost o ≤ max_budget) layouts).
Proof.
  simpl. set (P := λ layout, min_budget ≤ cost layout ∧ cost layout ≤ max_budget).
  split; [apply sublist_filter|].
  split; [intros o; rewrite list_elem_of_filter; unfold P; tauto|].
  split.
  - intros sub Hsub. induction Hsub as [|x l1 l2 Hsub IH|x l1 l2 Hsub IH];
      intros Hall.
    + constructor.
    + apply Forall_cons in Hall as [Hx Hall].
      rewrite filter_cons_True by done. apply sublist_skip; auto.
    + rewrite filter_cons. destruct (decide (P x)); [apply sublist_cons|]; auto.
  - rewrite Forall_forall. split.
    + intros Hnil o Hin HP. by eapply (filter_nil_not_elem_of P).
    + intros Hout. destruct (filter P layouts) as [|o kept] eqn:E; [done|].
      assert (o ∈ filter P layouts) as [HP Hin]%list_elem_of_filter
        by (rewrite E; left).
      by destruct (Hout o Hin).
Qed.

(** The options of the 5 by 4 Modern bedroom cost 1800: the budget
    (2000, 5000) keeps none of them, and (1000, 1800) keeps the three. *)
Example bedroom_options_filtered :
  (λ layouts, (length (filter_by_budget layouts (2000, 5000)),
               length (filter_by_budget layouts (1000, 1800))))
    <$> generate_room_layout (Float.mul (Float.of_Z 5) (Float.of_Z 4)) "Bedroom"
          "Modern" (get_furniture_requirements "Bedroom")
  = Ok (0%nat, 3%nat).
Proof. by vm_compute. Qed.

(** ** Feature tags *)

Lemma remove_dups_length_le {A : Type} `{!EqDecision A} (l : list A) :
  (length (remove_dups l) ≤ length l)%nat.
Proof.
  induction l as [|x l IH]; simpl; [done|].
  destruct (decide_rel elem_of x l); simpl; lia.
Qed.

Lemma NoDup_remove_dups_id {A : Type} `{!EqDecision A} (l : list A) :
  NoDup l → remove_dups l = l.
Proof.
  induction 1 as [|x l Hx Hnd IH]; simpl; [done|].
  destruct (decide_rel elem_of x l); [done|by rewrite IH].
Qed.

Lemma style_features_have_no_tag :
  Forall (λ fs, ("Complete room setup" ∉ fs)
                ∧ ("Budget-friendly selection" ∉ fs)
                ∧ ("Premium quality pieces" ∉ fs)) all_style_features.
Proof. compute_done. Qed.

Lemma style_features_known (s : string) :
  dict_get style_features s ["Balanced design"; "Functional layout"]
  ∈ all_style_features.
Proof.
  unfold dict_get, all_style_features.
  destruct (style_features !! s) as [fs|] eqn:E; simpl; [right|left].
  apply elem_of_map_to_list in E. by apply (list_elem_of_fmap_2 snd) in E.
Qed.

(** The three conditional tags of [generate_layout_features]. *)
Lemma generate_layout_features_tags (layout : Layout) (s : string) :
  let fs := generate_layout_features layout s in
  ("Complete room setup" ∈ fs ↔ (3 ≤ length (furniture layout))%nat)
  ∧ ("Budget-friendly selection" ∈ fs ↔ cost layout < 2000)
  ∧ ("Premium quality pieces" ∈ fs ↔ cost layout > 5000).
Proof.
  pose proof style_features_have_no_tag as Hno.
  rewrite Forall_forall in Hno.
  destruct (Hno _ (style_features_known s)) as (Hn1 & Hn2 & Hn3).
  unfold generate_layout_features. cbv zeta. rewrite length_fmap, app_nil_l.
  generalize dependent (dict_get style_features s ["Balanced design"; "Functional layout"]).
  intros fs Hn1 Hn2 Hn3.
  repeat case_bool_decide;
    rewrite ?elem_of_app, ?list_elem_of_singleton;
    intuition (discriminate || lia).
Qed.

(** C9 as amended.  For every option [generate_room_layout] returns, the
    feature list contains "Complete room setup" exactly when the option has
    at least 3 furniture items; this is the case whenever it has at least 3
    distinct furniture types, and the two conditions are the same when the
    types of the requirement list are pairwise distinct.  It contains
    "Budget-friendly selection" exactly when the cost is below 2000 and
    "Premium quality pieces" exactly when the cost is above 5000, never
    both, and neither when the cost is between 2000 and 5000. *)
Theorem generated_option_feature_tags
    (area : float) (room_type s : string) (reqs : list Requirement)
    (layouts : list Layout) (o : Layout) :
  generate_room_layout area room_type s reqs = Ok layouts →
  o ∈ layouts →
  ("Complete room setup" ∈ features o ↔ (3 ≤ length (furniture o))%nat)
  ∧ ((3 ≤ length (remove_dups (item_type <$> furniture o)))%nat →
     "Complete room setup" ∈ features o)
  ∧ (NoDup (req_type <$> reqs) →
     ("Complete room setup" ∈ features o
      ↔ (3 ≤ length (remove_dups (item_type <$> furniture o)))%nat))
  ∧ ("Budget-friendly selection" ∈ features o ↔ cost o < 2000)
  ∧ ("Premium quality pieces" ∈ features o ↔ cost o > 5000)
  ∧ ¬ ("Budget-friendly selection" ∈ features o
       ∧ "Premium quality pieces" ∈ features o)
  ∧ (2000 ≤ cost o ≤ 5000 →
     ("Budget-friendly selection" ∉ features o)
     ∧ ("Premium quality pieces" ∉ features o)).
Proof.
  destruct (generate_room_layout_Ok area room_type s reqs)
    as (filled & _ & Hsub & ->).
  intros [= <-] Ho.
  destruct (generate_layout_features_tags filled s) as (Hc & Hb & Hp).
  assert (features o = generate_layout_features filled s
          ∧ furniture o = furniture filled ∧ cost o = cost filled)
    as (-> & -> & ->).
  { repeat (apply elem_of_cons in Ho as [->|Ho]); [done..|].
    by apply elem_of_nil in Ho. }
  pose proof (remove_dups_length_le (item_type <$> furniture filled)) as Hle.
  rewrite length_fmap in Hle.
  split; [done|]. split; [intros; apply Hc; lia|].
  split.
  { intros Hnd. rewrite Hc.
    assert (NoDup (item_type <$> furniture filled)) as Hnd'
      by eauto using sublist_NoDup.
    apply NoDup_remove_dups_id in Hnd'.
    by rewrite Hnd', length_fmap. }
  split; [done|]. split; [done|]. split; [rewrite Hb, Hp; lia|].
  rewrite Hb, Hp. lia.
Qed.

Lemma generated_option_feature_tags_witness :
  ∃ layouts o,
    generate_room_layout (Float.mul (Float.of_Z 5) (Float.of_Z 4)) "Bedroom"
      "Modern" (get_furniture_requirements "Bedroom") = Ok layouts
    ∧ o ∈ layouts
    ∧ ("Complete room setup" ∈ features o ↔ (3 ≤ length (furniture o))%nat)
    ∧ ((3 ≤ length (remove_dups (item_type <$> furniture o)))%nat →
       "Complete room setup" ∈ features o)
    ∧ (NoDup (req_type <$> get_furniture_requirements "Bedroom") →
       ("Complete room setup" ∈ features o
        ↔ (3 ≤ length (remove_dups (item_type <$> furniture o)))%nat))
    ∧ ("Budget-friendly selection" ∈ features o ↔ cost o < 2000)
    ∧ ("Premium quality pieces" ∈ features o ↔ cost o > 5000)
    ∧ ¬ ("Budget-friendly selection" ∈ features o
         ∧ "Premium quality pieces" ∈ features o)
    ∧ (2000 ≤ cost o ≤ 5000 →
       ("Budget-friendly selection" ∉ features o)
       ∧ ("Premium quality pieces" ∉ features o)).
Proof.
  eexists _, _. split; [by vm_compute|]. split; [left|].
  eapply (generated_option_feature_tags
            (Float.mul (Float.of_Z 5) (Float.of_Z 4)) "Bedroom" "Modern"
            (get_furniture_requirements "Bedroom")).
  - by vm_compute.
  - left.
Defined.

(** The claim with distinct furniture types in place of furniture items
    fails: three requirements of the same type give three items, hence the
    tag, with a single type. *)
Lemma complete_setup_counts_items_not_types :
  ¬ (∀ (area : float) (room_type s : string) (reqs : list Requirement)
       (layouts : list Layout) (o : Layout),
       generate_room_layout area room_type s reqs = Ok layouts →
       o ∈ layouts →
       ("Complete room setup" ∈ features o
        ↔ (3 ≤ length (remove_dups (item_type <$> furniture o)))%nat)).
Proof.
  intros Hclaim.
  set (bed := {| req_type := "bed"; priority := 1; min_area := Float.lit 35 10 |}).
  eassert (generate_room_layout (Float.of_Z 20) "Bedroom" "Modern" [bed; bed; bed]
           = Ok (_ :: _)) as Hrun by (vm_compute; reflexivity).
  destruct (Hclaim _ _ _ _ _ _ Hrun (list_elem_of_here _ _)) as [Hlen _].
  vm_compute in Hlen.
  assert (3 ≤ 1)%nat; [|lia]. apply Hlen.
  do 3 apply list_elem_of_further. apply list_elem_of_here.
Qed.

(** ** The order of floats *)

Ltac compare_cases :=
  repeat match goal with
  | |- context [Pos.compare_cont Eq ?a ?b] =>
      change (Pos.compare_cont Eq a b) with (Pos.compare a b);
      destruct (Pos.compare_spec a b)
  | H : context [Pos.compare_cont Eq ?a ?b] |- _ =>
      change (Pos.compare_cont Eq a b) with (Pos.compare a b) in H;
      destruct (Pos.compare_spec a b)
  | |- context [Z.compare ?a ?b] => destruct (Z.compare_spec a b)
  | H : context [Z.compare ?a ?b] |- _ => destruct (Z.compare_spec a b)
  end.

(** Case analysis on the floats of the goal and on the comparisons of their
    exponents and mantissas. *)
Ltac float_order :=
  unfold Float.ltb, Float.eqb, Float.geb, Float.is_nan,
    SFeqb, SFltb, SFleb, SFcompare;
  repeat match goal with
  | x : spec_float |- _ => destruct x as [[]|[]| |[] ? ?]
  end;
  simpl; try done; intros; try done; auto;
  compare_cases; simpl in *; try done; auto; try lia.

Lemma ltb_asym (a b : float) : Float.ltb a b = true → Float.ltb b a = false.
Proof. float_order. Qed.

(** On floats that are not NaN, [<] is a strict weak order. *)
Lemma ltb_neg_trans (a b c : float) :
  Float.is_nan b = false →
  Float.ltb a c = true → Float.ltb a b = true ∨ Float.ltb b c = true.
Proof. float_order. Qed.

Lemma eqb_not_ltb (a b k : float) :
  Float.eqb a k = true → Float.eqb b k = true → Float.ltb b a = false.
Proof. float_order. Qed.

Lemma not_ltb_geb (a b : float) :
  Float.is_nan a = false → Float.is_nan b = false →
  Float.ltb a b = false → Float.geb a b = true.
Proof. float_order. Qed.

Lemma eqb_refl (a : float) : Float.is_nan a = false → Float.eqb a a = true.
Proof.
  unfold Float.eqb, Float.is_nan, SFeqb, SFcompare.
  destruct a as [[]|[]| |[] m e]; try done; intros _;
    rewrite Z.compare_refl;
    change (Pos.compare_cont Eq m m) with (Pos.compare m m);
    by rewrite Pos.compare_refl.
Qed.

Lemma ltb_irrefl (a : float) : Float.ltb a a = false.
Proof.
  destruct (Float.ltb a a) eqn:Hlt; [|done].
  pose proof (ltb_asym _ _ Hlt). congruence.
Qed.

Lemma not_ltb_eqb (a b : float) :
  Float.is_nan a = false → Float.is_nan b = false →
  Float.ltb a b = false → Float.ltb b a = false → Float.eqb a b = true.
Proof. float_order. Qed.

Lemma geb_not_ltb (a b : float) : Float.geb a b = true → Float.ltb a b = false.
Proof. float_order. Qed.

(** ** Sorting *)

Section sorting.
Context {A : Type} (key : A → float).

Lemma insert_by_Permutation x l : insert_by key x l ≡ₚ x :: l.
Proof.
  induction l as [|y l IH]; simpl; [done|].
  destruct (Float.ltb (key y) (key x)); [|done].
  by rewrite IH, Permutation_swap.
Qed.

Lemma sort_by_Permutation l : sort_by key l ≡ₚ l.
Proof.
  induction l as [|x l IH]; simpl; [done|].
  by rewrite insert_by_Permutation, IH.
Qed.

Lemma insert_by_sorted x l :
  Forall (λ y, Float.is_nan (key y) = false) l →
  StronglySorted (not_after key) l →
  StronglySorted (not_after key) (insert_by key x l).
Proof.
  intros Hnan Hsorted. induction l as [|y l IH]; simpl.
  - repeat constructor.
  - apply StronglySorted_cons in Hsorted as [Hy Hsorted].
    apply Forall_cons in Hnan as [Hynan Hnan].
    destruct (Float.ltb (key y) (key x)) eqn:Hyx.
    + apply StronglySorted_cons. split; [|by apply IH].
      rewrite insert_by_Permutation. apply Forall_cons. split; [|done].
      by apply ltb_asym.
    + apply StronglySorted_cons. split; [|by apply StronglySorted_cons].
      apply Forall_cons. split; [done|].
      eapply Forall_impl; [exact Hy|]. intros z Hz. unfold not_after in *.
      destruct (Float.ltb (key z) (key x)) eqn:Hzx; [|done].
      destruct (ltb_neg_trans _ (key y) _ Hynan Hzx); congruence.
Qed.

Lemma sort_by_sorted l :
  Forall (λ y, Float.is_nan (key y) = false) l →
  StronglySorted (not_after key) (sort_by key l).
Proof.
  induction l as [|x l IH]; simpl; intros Hnan; [constructor|].
  apply Forall_cons in Hnan as [_ Hnan].
  apply insert_by_sorted; [|by apply IH].
  by rewrite sort_by_Permutation.
Qed.

(** An insertion does not move the element past an element of the same
    class, so the elements of a class keep their order. *)
Lemma insert_by_filter (P : A → Prop) `{!∀ x, Decision (P x)} x l :
  (∀ y, P x → P y → Float.ltb (key y) (key x) = false) →
  filter P (insert_by key x l) = filter P (x :: l).
Proof.
  intros Hclass. induction l as [|y l IH]; simpl; [done|].
  destruct (Float.ltb (key y) (key x)) eqn:Hyx; [|done].
  rewrite (filter_cons _ y), IH, !(filter_cons _ x), (filter_cons _ y).
  destruct (decide (P x)) as [Hx|], (decide (P y)) as [Hy|]; try done.
  specialize (Hclass y Hx Hy). congruence.
Qed.

Lemma sort_by_stable (k : float) l :
  filter (λ x, Float.eqb (key x) k = true) (sort_by key l)
  = filter (λ x, Float.eqb (key x) k = true) l.
Proof.
  induction l as [|x l IH]; simpl; [done|].
  rewrite insert_by_filter by eauto using eqb_not_ltb.
  by rewrite !filter_cons, IH.
Qed.

Lemma StronglySorted_reverse (R : relation A) l :
  StronglySorted R l → StronglySorted (flip R) (reverse l).
Proof.
  induction 1 as [|x l Hsorted IH Hx]; [constructor|].
  rewrite reverse_cons. apply StronglySorted_app_2; [|done|repeat constructor].
  intros y ? Hy ->%list_elem_of_singleton.
  rewrite elem_of_reverse in Hy. rewrite Forall_forall in Hx.
  unfold flip. by apply Hx.
Qed.

(** [sorted(l, key=key, reverse=True)] is a permutation of [l], in
    descending order of the keys, and stable. *)
Lemma py_sorted_reverse_Permutation l : py_sorted key true l ≡ₚ l.
Proof.
  unfold py_sorted.
  by rewrite reverse_Permutation, sort_by_Permutation, reverse_Permutation.
Qed.

Lemma py_sorted_reverse_not_before l :
  Forall (λ y, Float.is_nan (key y) = false) l →
  StronglySorted (not_before key) (py_sorted key true l).
Proof.
  intros Hnan. unfold py_sorted.
  by apply (StronglySorted_reverse (not_after key)), sort_by_sorted, Forall_reverse.
Qed.

Lemma py_sorted_reverse_sorted l :
  Forall (λ y, Float.is_nan (key y) = false) l →
  StronglySorted (λ a b, Float.geb (key a) (key b) = true) (py_sorted key true l).
Proof.
  intros Hnan.
  pose proof (py_sorted_reverse_not_before l Hnan) as Hsorted.
  assert (Forall (λ y, Float.is_nan (key y) = false) (py_sorted key true l))
    as Hnan' by (by rewrite py_sorted_reverse_Permutation).
  revert Hsorted Hnan'. generalize (py_sorted key true l).
  intros s Hsorted. induction Hsorted as [|x s Hsorted IH Hx]; [constructor|].
  intros [Hxnan Hsnan]%Forall_cons. constructor; [by apply IH|].
  rewrite Forall_forall in Hx, Hsnan |- *. intros y Hy.
  apply not_ltb_geb; auto. by apply Hx.
Qed.

Lemma py_sorted_reverse_stable (k : float) l :
  filter (λ x, Float.eqb (key x) k = true) (py_sorted key true l)
  = filter (λ x, Float.eqb (key x) k = true) l.
Proof.
  unfold py_sorted.
  by rewrite filter_reverse, sort_by_stable, filter_reverse, reverse_involutive.
Qed.

(** Two descending lists without NaN key whose classes of equal keys are
    the same lists are equal: a stable descending sort has one result. *)
Lemma stable_descending_unique (s1 s2 : list A) :
  Forall (λ x, Float.is_nan (key x) = false) s1 →
  Forall (λ x, Float.is_nan (key x) = false) s2 →
  StronglySorted (not_before key) s1 →
  StronglySorted (not_before key) s2 →
  (∀ k, filter (λ x, Float.eqb (key x) k = true) s1
        = filter (λ x, Float.eqb (key x) k = true) s2) →
  s1 = s2.
Proof.
  intros Hnan1 Hnan2 Hs1. revert s2 Hnan2.
  induction Hs1 as [|x s1 Hs1 IH Hx]; intros s2 Hnan2 Hs2 Hclass.
  - destruct s2 as [|y s2]; [done|].
    apply Forall_cons in Hnan2 as [Hy _].
    specialize (Hclass (key y)). rewrite filter_nil, filter_cons_True in Hclass
      by by apply eqb_refl.
    done.
  - apply Forall_cons in Hnan1 as [Hxnan Hnan1].
    destruct s2 as [|y s2].
    { specialize (Hclass (key x)).
      rewrite filter_nil, filter_cons_True in Hclass by by apply eqb_refl.
      done. }
    apply Forall_cons in Hnan2 as [Hynan Hnan2].
    apply StronglySorted_cons in Hs2 as [Hy Hs2].
    rewrite Forall_forall in Hx, Hy.
    assert (x ∈ y :: s2) as Hxin.
    { eapply (list_elem_of_filter (λ z, Float.eqb (key z) (key x) = true)).
      rewrite <-Hclass, filter_cons_True by by apply eqb_refl. left. }
    assert (y ∈ x :: s1) as Hyin.
    { eapply (list_elem_of_filter (λ z, Float.eqb (key z) (key y) = true)).
      rewrite Hclass, filter_cons_True by by apply eqb_refl. left. }
    assert (Float.eqb (key x) (key y) = true) as Hxy.
    { apply not_ltb_eqb; [done..| |].
      - apply elem_of_cons in Hyin as [->|Hyin]; [by apply ltb_irrefl|].
        by apply Hx.
      - apply elem_of_cons in Hxin as [->|Hxin]; [by apply ltb_irrefl|].
        by apply Hy. }
    pose proof (Hclass (key y)) as Hhead.
    rewrite !filter_cons_True in Hhead by (done || by apply eqb_refl).
    injection Hhead as -> _. f_equal. apply IH; [done..|].
    intros k. specialize (Hclass k). rewrite !filter_cons in Hclass.
    destruct (decide (Float.eqb (key y) k = true)); [by injection Hclass|done].
Qed.

(** [sorted(l, key=key, reverse=True)] is the only stable arrangement of
    [l] in descending order. *)
Lemma py_sorted_reverse_unique l s :
  Forall (λ y, Float.is_nan (key y) = false) l →
  s ≡ₚ l →
  StronglySorted (λ a b, Float.geb (key a) (key b) = true) s →
  (∀ k, filter (λ x, Float.eqb (key x) k = true) s
        = filter (λ x, Float.eqb (key x) k = true) l) →
  s = py_sorted key true l.
Proof.
  intros Hnan Hperm Hsorted Hstable. apply stable_descending_unique.
  - by rewrite Hperm.
  - by rewrite py_sorted_reverse_Permutation.
  - clear Hperm Hstable. induction Hsorted as [|x s' Hs IH Hx]; constructor;
      [done|].
    eapply Forall_impl; [exact Hx|]. intros y. apply geb_not_ltb.
  - by apply py_sorted_reverse_not_before.
  - intros k. by rewrite py_sorted_reverse_stable.
Qed.

End sorting.

(** ** The occupancy grid *)

Lemma slice_bound_range n i : 0 ≤ n → 0 ≤ slice_bound n i ≤ n.
Proof. unfold slice_bound. case_bool_decide; lia. Qed.

Lemma in_slice_range n start stop i :
  0 ≤ n → in_slice n start stop i = true → 0 ≤ i < n.
Proof.
  intros Hn Hin%bool_decide_eq_true.
  pose proof (slice_bound_range n start Hn).
  pose proof (slice_bound_range n stop Hn). lia.
Qed.

Lemma in_block_range shp b r c :
  0 ≤ shp.1 → 0 ≤ shp.2 → in_block shp b r c = true →
  0 ≤ r < shp.1 ∧ 0 ≤ c < shp.2.
Proof.
  intros H1 H2 [Hr Hc]%andb_true_iff. eauto using in_slice_range.
Qed.

Lemma cell_set_block a b r c :
  cell (set_block a b) r c
  = (λ v, if in_block (shape a) b (Z.of_nat r) (Z.of_nat c) then true else v)
      <$> cell a r c.
Proof.
  unfold cell, set_block. simpl. rewrite list_lookup_imap.
  destruct (rows a !! r) as [row|]; simpl; [|done].
  rewrite list_lookup_imap. by destruct (row !! c).
Qed.

Lemma np_any_true a b :
  np_any a b = true
  ↔ ∃ r c, in_block (shape a) b (Z.of_nat r) (Z.of_nat c) = true
           ∧ cell a r c = Some true.
Proof.
  unfold np_any, cell. rewrite existsb_exists. split.
  - intros (v & Hin & Hv). unfold id in Hv. subst v.
    apply in_concat in Hin as (vs & Hvs%list_elem_of_In & Hin%list_elem_of_In).
    apply elem_of_lookup_imap in Hvs as (r & row & -> & Hrow).
    apply elem_of_lookup_imap in Hin as (c & v & Hv & Hc).
    symmetry in Hv. apply andb_true_iff in Hv as [Hb ->].
    exists r, c. rewrite Hrow. simpl. by rewrite Hc.
  - intros (r & c & Hb & Hcell).
    destruct (rows a !! r) as [row|] eqn:Hrow; simpl in Hcell; [|done].
    exists true. split; [|done]. apply in_concat.
    exists (imap (λ c v, in_block (shape a) b (Z.of_nat r) (Z.of_nat c) && v) row).
    split; apply list_elem_of_In.
    + apply (elem_of_lookup_imap _ (rows a)). by exists r, row.
    + apply (elem_of_lookup_imap _ row). exists c, true. by rewrite Hb.
Qed.

Lemma np_any_false a b :
  np_any a b = false
  ↔ ∀ r c, in_block (shape a) b (Z.of_nat r) (Z.of_nat c) = true →
           cell a r c ≠ Some true.
Proof.
  rewrite <-not_true_iff_false, np_any_true. split.
  - intros Hno r c Hb Hcell. apply Hno. eauto.
  - intros Hall (r & c & Hb & Hcell). by eapply Hall.
Qed.

Lemma wf_grid_cell a r c :
  wf_grid a → 0 ≤ r < (shape a).1 → 0 ≤ c < (shape a).2 →
  is_Some (cell a (Z.to_nat r) (Z.to_nat c)).
Proof.
  intros (_ & _ & Hrows & Hcols) Hr Hc. unfold cell.
  destruct (lookup_lt_is_Some_2 (rows a) (Z.to_nat r)) as [row Hrow]; [lia|].
  rewrite Hrow. simpl. apply lookup_lt_is_Some_2.
  rewrite Forall_forall in Hcols.
  rewrite (Hcols row) by eauto using list_elem_of_lookup_2. lia.
Qed.

Lemma np_zeros_Ok shp a :
  np_zeros shp = Ok a →
  wf_grid a ∧ shape a = shp ∧ ∀ r c, cell a r c ≠ Some true.
Proof.
  unfold np_zeros. destruct shp as [h w]. case_bool_decide; [done|].
  case_bool_decide; [done|].
  intros [= <-]. split; [|split; [done|]].
  - unfold wf_grid. simpl. rewrite length_replicate.
    repeat split; [lia..|]. apply Forall_replicate, length_replicate.
  - intros r c. unfold cell. simpl. intros Hcell.
    destruct (replicate _ _ !! r) as [row|] eqn:Hrow; simpl in Hcell; [|done].
    apply lookup_replicate in Hrow as [-> _].
    by apply lookup_replicate in Hcell as [? _].
Qed.

Lemma set_block_wf a b : wf_grid a → wf_grid (set_block a b).
Proof.
  intros (H1 & H2 & Hrows & Hcols). unfold wf_grid, set_block. simpl.
  rewrite length_imap. repeat split; [done..|].
  apply Forall_forall. intros row' (r & row & -> & Hrow)%elem_of_lookup_imap.
  rewrite length_imap. rewrite Forall_forall in Hcols.
  eauto using list_elem_of_lookup_2.
Qed.

Lemma first_some_Some {A B : Type} (f : A → option B) xs b :
  first_some f xs = Some b → ∃ x, x ∈ xs ∧ f x = Some b.
Proof.
  induction xs as [|x xs IH]; simpl; [done|].
  destruct (f x) as [b'|] eqn:Hx.
  - intros [= ->]. exists x. split; [left|done].
  - intros (x' & ? & ?)%IH. exists x'. split; [by right|done].
Qed.

(** The position found is the corner of a block with no occupied cell. *)
Lemma find_furniture_position_free grid item_length item_width grid_size x y :
  find_furniture_position grid item_length item_width grid_size = Some (x, y) →
  np_any grid (block_at x y item_length item_width) = false.
Proof.
  unfold find_furniture_position. destruct (shape grid) as [h w].
  intros (y' & _ & (x' & _ & Hfree)%first_some_Some)%first_some_Some.
  destruct (np_any grid (block_at x' y' item_length item_width)) eqn:Hany;
    simpl in Hfree; [done|]. by injection Hfree as -> ->.
Qed.

(** ** The placement loop *)

(** What one iteration does. *)
Lemma place_item_ghost_Ok grid_size grid trace item grid' trace' :
  place_item_ghost grid_size (grid, trace) item = Ok (grid', trace') →
  ∃ item_length item_width,
    grid_units (dim_length (dimensions item)) grid_size = Ok item_length
    ∧ grid_units (dim_width (dimensions item)) grid_size = Ok item_width
    ∧ ((find_furniture_position grid item_length item_width grid_size = None
        ∧ grid' = grid ∧ trace' = trace)
       ∨ ∃ x y px py,
           find_furniture_position grid item_length item_width grid_size = Some (x, y)
           ∧ scale x grid_size = Ok px ∧ scale y grid_size = Ok py
           ∧ grid' = set_block grid (block_at x y item_length item_width)
           ∧ trace' = trace ++ [({| placed := item; position := (px, py) |},
                                 block_at x y item_length item_width)]).
Proof.
  unfold place_item_ghost.
  intros (il & Hil & (iw & Hiw & Hrest)%bind_Ok)%bind_Ok.
  exists il, iw. split; [done|]. split; [done|].
  destruct (find_furniture_position grid il iw grid_size) as [[x y]|].
  - apply bind_Ok in Hrest as (px & Hpx & (py & Hpy & [= <- <-])%bind_Ok).
    right. by exists x, y, px, py.
  - injection Hrest as <- <-. by left.
Qed.

(** Dropping the ghost list gives the loop of the source. *)
Lemma place_item_erase grid_size grid trace item :
  place_item grid_size (grid, trace.*1) item
  = (λ st, (st.1, st.2.*1)) <$> place_item_ghost grid_size (grid, trace) item.
Proof.
  unfold place_item, place_item_ghost.
  destruct (grid_units (dim_length (dimensions item)) grid_size) as [il|]; [|done].
  destruct (grid_units (dim_width (dimensions item)) grid_size) as [iw|]; [|done].
  rewrite !bind_Ok_l.
  destruct (find_furniture_position grid il iw grid_size) as [[x y]|]; [|done].
  destruct (scale x grid_size) as [px|]; [|done].
  destruct (scale y grid_size) as [py|]; [|done].
  rewrite !bind_Ok_l. simpl. by rewrite fmap_app.
Qed.

Lemma for_each_place_item_erase grid_size items grid trace :
  for_each (place_item grid_size) items (grid, trace.*1)
  = (λ st, (st.1, st.2.*1))
      <$> for_each (place_item_ghost grid_size) items (grid, trace).
Proof.
  revert grid trace. induction items as [|item items IH]; intros grid trace.
  - done.
  - rewrite !for_each_cons, place_item_erase.
    destruct (place_item_ghost grid_size (grid, trace) item) as [[g t]|]; [|done].
    simpl. apply IH.
Qed.

Lemma position_furniture_erase furniture room_length room_width :
  position_furniture furniture room_length room_width
  = (λ st, st.2.*1) <$> position_furniture_ghost furniture room_length room_width.
Proof.
  unfold position_furniture, position_furniture_ghost.
  destruct (grid_units room_length (Float.lit 5 10)) as [gl|]; [|done].
  destruct (grid_units room_width (Float.lit 5 10)) as [gw|]; [|done].
  rewrite !bind_Ok_l.
  destruct (np_zeros (gw, gl)) as [grid|]; [|done]. rewrite !bind_Ok_l.
  rewrite (for_each_place_item_erase _ _ grid []).
  by destruct (for_each _ _ _) as [[g t]|].
Qed.

(** One iteration keeps the invariant. *)
Lemma place_item_ghost_inv grid_size shp st item st' :
  placement_inv grid_size shp st →
  place_item_ghost grid_size st item = Ok st' →
  placement_inv grid_size shp st'.
Proof.
  destruct st as [grid trace], st' as [grid' trace'].
  intros (Hwf & Hshape & Hcells & Hdisj & Hrec)
    (il & iw & Hil & Hiw & [(_ & -> & ->)|Hplaced])%place_item_ghost_Ok;
    [done|].
  destruct Hplaced as (x & y & px & py & Hfind & Hpx & Hpy & -> & ->).
  unfold placement_inv. simpl in *. set (b := block_at x y il iw).
  apply find_furniture_position_free in Hfind. fold b in Hfind.
  rewrite np_any_false, Hshape in Hfind.
  assert (0 ≤ shp.1 ∧ 0 ≤ shp.2) as [Hh Hw]
    by (rewrite <-Hshape; by destruct Hwf as (? & ? & _)).
  split; [by apply set_block_wf|]. split; [done|]. split; [|split].
  - intros r c. rewrite cell_set_block, Hshape. split.
    + destruct (cell grid r c) as [v|] eqn:Hv; simpl; [|done].
      destruct (in_block shp b (Z.of_nat r) (Z.of_nat c)) eqn:Hb.
      * intros _. eexists (_, b). split; [|done].
        apply elem_of_app. right. left.
      * intros [= ->]. apply Hcells in Hv as (entry & Hin & Hentry).
        exists entry. split; [|done]. apply elem_of_app. by left.
    + intros (entry & [Hin|Hin%list_elem_of_singleton]%elem_of_app & Hentry).
      * assert (cell grid r c = Some true) as -> by (apply Hcells; eauto).
        simpl. by destruct (in_block shp b _ _).
      * subst entry. simpl in Hentry. rewrite Hentry.
        destruct (in_block_range shp b _ _ Hh Hw Hentry) as [Hr Hc].
        destruct (wf_grid_cell grid (Z.of_nat r) (Z.of_nat c)) as [v Hv];
          [done|by rewrite Hshape..|].
        rewrite !Nat2Z.id in Hv. by rewrite Hv.
  - assert (∀ e, e ∈ trace → disjoint_blocks shp e.2 b) as Hnew.
    { intros e He r c [Hr Hc].
      destruct (in_block_range shp b r c Hh Hw Hc) as [Hr0 Hc0].
      apply (Hfind (Z.to_nat r) (Z.to_nat c)); [by rewrite !Z2Nat.id by lia|].
      apply Hcells. exists e. by rewrite !Z2Nat.id by lia. }
    intros i j e1 e2 Hij H1 H2.
    apply lookup_app_Some in H1 as [H1|[Hi H1]];
      apply lookup_app_Some in H2 as [H2|[Hj H2]].
    + by eapply Hdisj.
    + apply list_lookup_singleton_Some in H2 as [_ <-]. simpl.
      eauto using list_elem_of_lookup_2.
    + apply list_lookup_singleton_Some in H1 as [_ <-]. simpl.
      intros r c [? ?]. eapply Hnew; eauto using list_elem_of_lookup_2.
    + apply list_lookup_singleton_Some in H1 as [? _].
      apply list_lookup_singleton_Some in H2 as [? _]. lia.
  - apply Forall_app. split; [done|]. apply Forall_singleton.
    by exists x, y, il, iw.
Qed.

(** The loop only appends to the ghost list, and in the order of the items. *)
Lemma for_each_place_item_ghost_appends grid_size items grid trace grid' trace' :
  for_each (place_item_ghost grid_size) items (grid, trace) = Ok (grid', trace') →
  ∃ new, trace' = trace ++ new ∧ placed <$> new.*1 `sublist_of` items.
Proof.
  revert grid trace. induction items as [|item items IH]; intros grid trace.
  - intros [= <- <-]. exists []. by rewrite app_nil_r.
  - rewrite for_each_cons. intros ([g t] & Hstep & Hrest)%bind_Ok.
    apply IH in Hrest as (new & -> & Hsub).
    apply place_item_ghost_Ok in Hstep
      as (il & iw & _ & _ & [(_ & _ & ->)|(x & y & px & py & _ & _ & _ & _ & ->)]).
    + exists new. split; [done|]. by apply sublist_cons.
    + eexists (_ :: new). rewrite <-app_assoc. split; [done|].
      rewrite !fmap_cons. by apply sublist_skip.
Qed.

Lemma position_furniture_ghost_Ok furniture room_length room_width grid trace :
  position_furniture_ghost furniture room_length room_width = Ok (grid, trace) →
  ∃ gl gw grid0,
    grid_units room_length half = Ok gl
    ∧ grid_units room_width half = Ok gw
    ∧ np_zeros (gw, gl) = Ok grid0
    ∧ for_each (place_item_ghost half) (py_sorted footprint true furniture)
        (grid0, []) = Ok (grid, trace).
Proof.
  unfold position_furniture_ghost. fold half.
  intros (gl & Hgl & (gw & Hgw & (grid0 & Hzeros & Hloop)%bind_Ok)%bind_Ok)%bind_Ok.
  by exists gl, gw, grid0.
Qed.

(** The invariant holds after the loop, whatever the list of items and
    their order. *)
Lemma placement_loop_inv items shp grid0 grid trace :
  np_zeros shp = Ok grid0 →
  for_each (place_item_ghost half) items (grid0, []) = Ok (grid, trace) →
  placement_inv half shp (grid, trace).
Proof.
  intros (Hwf & Hshape & Hfree)%np_zeros_Ok Hloop.
  eapply for_each_inv; [|intros t x t' _; apply place_item_ghost_inv|exact Hloop].
  split; [done|]. split; [done|]. simpl. split; [|split].
  - intros r c. split; [by intros ?%Hfree|].
    by intros (? & ?%elem_of_nil & _).
  - by intros i j e1 e2 _ ?.
  - constructor.
Qed.

Lemma position_furniture_ghost_inv furniture room_length room_width grid trace :
  position_furniture_ghost furniture room_length room_width = Ok (grid, trace) →
  placement_inv half (shape grid) (grid, trace).
Proof.
  intros (gl & gw & grid0 & _ & _ & Hzeros & Hloop)%position_furniture_ghost_Ok.
  pose proof (placement_loop_inv _ _ _ _ _ Hzeros Hloop) as Hinv.
  by destruct Hinv as (? & <- & ?).
Qed.

(** C1.  When [position_furniture] returns, the items it has placed are
    the items of the ghost list, each recorded with the block marked for
    it; the occupied cells of the final grid are exactly the cells of these
    blocks, and the blocks of two distinct placed items share no cell. *)
Theorem placed_blocks_disjoint
    (furniture : list FurnitureItem) (room_length room_width : float)
    (out : list PositionedItem) :
  position_furniture furniture room_length room_width = Ok out →
  ∃ grid trace,
    position_furniture_ghost furniture room_length room_width = Ok (grid, trace)
    ∧ out = trace.*1
    ∧ Forall (records half) trace
    ∧ (∀ r c, cell grid r c = Some true
              ↔ ∃ entry, entry ∈ trace
                  ∧ in_block (shape grid) entry.2 (Z.of_nat r) (Z.of_nat c) = true)
    ∧ ∀ i j e1 e2, i ≠ j → trace !! i = Some e1 → trace !! j = Some e2 →
        ∀ r c, ¬ (in_block (shape grid) e1.2 r c = true
                  ∧ in_block (shape grid) e2.2 r c = true).
Proof.
  rewrite position_furniture_erase.
  destruct (position_furniture_ghost furniture room_length room_width)
    as [[grid trace]|] eqn:Hghost; [|done].
  intros [= <-]. exists grid, trace.
  destruct (position_furniture_ghost_inv _ _ _ _ _ Hghost)
    as (_ & _ & Hcells & Hdisj & Hrec).
  done.
Qed.

Lemma placed_blocks_disjoint_witness :
  ∃ out,
    position_furniture sample_furniture (Float.of_Z 5) (Float.of_Z 4) = Ok out
    ∧ ∃ grid trace,
        position_furniture_ghost sample_furniture (Float.of_Z 5) (Float.of_Z 4)
          = Ok (grid, trace)
        ∧ out = trace.*1
        ∧ Forall (records half) trace
        ∧ (∀ r c, cell grid r c = Some true
                  ↔ ∃ entry, entry ∈ trace
                      ∧ in_block (shape grid) entry.2 (Z.of_nat r) (Z.of_nat c) = true)
        ∧ ∀ i j e1 e2, i ≠ j → trace !! i = Some e1 → trace !! j = Some e2 →
            ∀ r c, ¬ (in_block (shape grid) e1.2 r c = true
                      ∧ in_block (shape grid) e2.2 r c = true).
Proof.
  eexists. split; [by vm_compute|].
  apply placed_blocks_disjoint. by vm_compute.
Defined.

(** ** Placement order *)



(** The footprint area of an item made by [generate_furniture_item] is
    never NaN: the hypothesis of the theorem above holds for every list of
    generated items. *)
Lemma generated_footprint_not_nan (requirement : Requirement) (s : string) item :
  generate_furniture_item requirement s = Ok item →
  Float.is_nan (footprint item) = false.
Proof.
  destruct (generate_furniture_item_Ok requirement s) as (p & -> & _).
  intros [= <-]. unfold footprint. cbn [dimensions].
  assert (Forall (λ dm, Float.is_nan (Float.mul (dim_length dm) (dim_width dm)) = false)
            ({| dim_length := Float.lit 10 10; dim_width := Float.lit 10 10 |}
             :: dimensions_table.*2)) as Hall by compute_done.
  rewrite Forall_forall in Hall. apply Hall.
  unfold get_furniture_dimensions.
  destruct (dict_get_cases dimensions_table (req_type requirement)
              {| dim_length := Float.lit 10 10; dim_width := Float.lit 10 10 |}
              NoDup_dimensions) as [Hin|[_ ->]]; [|left].
  right. by apply (list_elem_of_fmap_2 snd) in Hin.
Qed.

(** A sofa and a coffee table in a 5 by 4 room: the sofa, of larger area, is
    placed first, at the origin, on a block of 1 row and 4 columns, and the
    coffee table in the next free cell of the first row, at x = 2.0. *)
Example sofa_and_coffee_table :
  position_furniture_ghost [sample_item "coffee_table"; sample_item "sofa"]
    (Float.of_Z 5) (Float.of_Z 4)
  = (λ grid, (grid,
       [({| placed := sample_item "sofa"; position := (zero, zero) |},
         block_at 0 0 4 1);
        ({| placed := sample_item "coffee_table";
            position := (Float.of_Z 2, zero) |},
         block_at 4 0 1 1)]))
    <$> (grid ← np_zeros (8, 10);
         Ok (set_block (set_block grid (block_at 0 0 4 1)) (block_at 4 0 1 1))).
Proof. by vm_compute. Qed.

(** ** Items smaller than a grid cell *)

Lemma digits2_pos_bound (m : positive) : Z.pos m < 2 ^ Z.pos (digits2_pos m).
Proof.
  induction m as [m IH|m IH|]; simpl; [| |done].
  - rewrite Pos2Z.inj_succ, Z.pow_succ_r by lia. lia.
  - rewrite Pos2Z.inj_succ, Z.pow_succ_r by lia. lia.
Qed.

Lemma shiftl_small (m : positive) (k : Z) :
  Z.pos m < 2 ^ k → 0 ≤ k → Z.shiftl (Z.pos m) (- k) = 0.
Proof.
  intros Hm Hk. rewrite Z.shiftl_opp_r, Z.shiftr_div_pow2 by done.
  apply Z.div_small. lia.
Qed.

Lemma half_eq : half = S754_finite false 4503599627370496 (-53).
Proof. by vm_compute. Qed.

(** A double that is at least 0.0 and less than 0.5 is less than one grid
    cell: [int(x / 0.5)] is 0.  The quotient by 0.5 is exact; it is read off
    the definition of the division, for normal and for subnormal [x]. *)
Lemma grid_units_below_half (x : float) :
  valid_binary Float.prec Float.emax x = true →
  Float.ltb x half = true →
  Float.geb x zero = true →
  grid_units x half = Ok 0.
Proof.
  rewrite half_eq. unfold grid_units, Float.div. intros Hvalid Hlt Hge.
  destruct x as [s|s| |s m e].
  - by destruct s.
  - destruct s; [vm_compute in Hge|vm_compute in Hlt]; discriminate.
  - vm_compute in Hlt. discriminate.
  - destruct s; [vm_compute in Hge; discriminate|]. clear Hge.
  rewrite bind_Ok_l.
  unfold valid_binary, bounded, canonical_mantissa in Hvalid.
  apply andb_true_iff in Hvalid as [Hcanon%Z.eqb_eq Hemax%Z.leb_le].
  unfold fexp, emin, Float.prec, Float.emax in Hcanon, Hemax.
  assert (Z.pos 4503599627370496 = 2 ^ 52) as Hc by reflexivity.
  assert (digits2_pos 4503599627370496 = 53%positive) as Hdc by reflexivity.
  revert Hc Hdc Hlt. generalize 4503599627370496%positive. intros c Hc Hdc Hlt.
  assert (e < -53 ∨ e = -53 ∧ Z.pos m < Z.pos c) as He.
  { unfold Float.ltb, SFltb, SFcompare in Hlt.
    destruct (Z.compare_spec e (-53)) as [Heq|Hl|Hg];
      [right|left; exact Hl|discriminate Hlt].
    split; [exact Heq|].
    change (Pos.compare_cont Eq m c) with (Pos.compare m c) in Hlt.
    destruct (Pos.compare_spec m c) as [?|Hm|?];
      [discriminate Hlt|exact Hm|discriminate Hlt]. }
  clear Hlt.
  cbv [SFdiv SFdiv_core_binary xorb Zdigits2 fexp emin Float.prec Float.emax].
  rewrite Hdc.
  set (d := Z.pos (digits2_pos m)) in *.
  replace (((d + e - (53 + -53) - 53) `max` (3 - 1024 - 53)) `min` (e - -53))
    with e by lia.
  replace (e - -53 - e) with 53 by lia.
  assert (Z.div_eucl (Z.pos m ≪ 53) (Z.pos c) = (Z.pos m~0, 0)) as ->.
  { assert (Z.pos m ≪ 53 = Z.pos m~0 * Z.pos c) as ->
      by (rewrite Z.shiftl_mul_pow2, Hc by lia; lia).
    pose proof (Z.div_eucl_eq (Z.pos m~0 * Z.pos c) (Z.pos c)) as Heq.
    pose proof (Z.mod_pos_bound (Z.pos m~0 * Z.pos c) (Z.pos c)) as Hmod.
    unfold Z.modulo in Hmod.
    destruct (Z.div_eucl (Z.pos m~0 * Z.pos c) (Z.pos c)) as [q r].
    assert (r = 0 ∧ q = Z.pos m~0) as [-> ->]; [nia|done]. }
  assert (new_location (Z.pos c) 0 = loc_Exact) as ->.
  { unfold new_location, new_location_even, new_location_odd.
    by destruct (Z.even (Z.pos c)). }
  cbv [binary_round_aux shr_fexp Zdigits2 fexp emin shr_record_of_loc].
  change (Z.pos (digits2_pos m~0)) with (Z.pos (Pos.succ (digits2_pos m))).
  rewrite Pos2Z.inj_succ. fold d.
  assert (0 < d) as Hd by (unfold d; lia).
  pose proof (digits2_pos_bound m) as Hdig. fold d in Hdig.
  assert (∀ k, 0 ≤ k → Z.pos m < 2 ^ k → Z.pos m ≪ (- k) = 0) as Hsmall
    by (intros; by apply shiftl_small).
  assert ((Z.succ d + e - 53) `max` (3 - 1024 - 53) - e = 1 ∧ d = 53
          ∨ (Z.succ d + e - 53) `max` (3 - 1024 - 53) - e = 0 ∧ e = -1074 ∧ d < 53)
    as [[-> Hd53]|(-> & -> & Hd53)] by (clear Hdig Hsmall; lia).
  + cbv [shr SpecFloat.iter_pos shr_1 shr_m loc_of_shr_record round_nearest_even orb].
    fold d. replace ((d + (e + 1) - 53) `max` (3 - 1024 - 53) - (e + 1)) with 0
      by (clear Hdig Hsmall; lia).
    destruct (Z.leb_spec (e + 1) (1024 - 53)); [|clear Hdig Hsmall; lia].
    unfold Float.to_int, cond_Zopp. f_equal.
    replace (e + 1) with (- (- (e + 1))) by lia.
    apply Hsmall; [clear Hdig Hsmall; lia|].
    destruct He as [He|[-> Hm]]; [|by rewrite Hc in Hm].
    eapply Z.lt_le_trans; [exact Hdig|].
    apply Z.pow_le_mono_r; clear Hdig Hsmall; lia.
  + cbv [shr SpecFloat.iter_pos shr_1 shr_m loc_of_shr_record round_nearest_even orb].
    change (Z.pos (digits2_pos m~0)) with (Z.pos (Pos.succ (digits2_pos m))).
    rewrite Pos2Z.inj_succ. fold d.
    replace ((Z.succ d + -1074 - 53) `max` (3 - 1024 - 53) - -1074) with 0
      by (clear Hdig Hsmall; lia).
    unfold Float.to_int, cond_Zopp. f_equal.
    apply (shiftl_small (m~0) 1074); [|done].
    change (Z.pos m~0) with (2 * Z.pos m).
    assert (2 ^ d ≤ 2 ^ 52) by (apply Z.pow_le_mono_r; clear Hdig Hsmall; lia).
    assert (2 * 2 ^ 52 ≤ 2 ^ 1074) by (by vm_compute).
    clear Hsmall. lia.
Qed.


Lemma py_range_pos n : 0 < n → ∃ rest, py_range n = 0 :: rest.
Proof.
  intros Hn. unfold py_range.
  destruct (Z.to_nat n) as [|k] eqn:Hk; [lia|]. by eexists.
Qed.

(** First fit: when the block at the origin fits in the grid and has no
    occupied cell, the origin is the position found. *)
Lemma find_furniture_position_origin grid item_length item_width grid_size :
  item_length ≤ (shape grid).2 → item_width ≤ (shape grid).1 →
  np_any grid (block_at 0 0 item_length item_width) = false →
  find_furniture_position grid item_length item_width grid_size = Some (0, 0).
Proof.
  unfold find_furniture_position. destruct (shape grid) as [h w]. simpl.
  intros Hl Hw Hfree.
  destruct (py_range_pos (h - item_width + 1)) as [ys ->]; [lia|].
  destruct (py_range_pos (w - item_length + 1)) as [xs ->]; [lia|].
  simpl. by rewrite Hfree.
Qed.

(** A block with no column or no row selects no cell. *)
Lemma empty_block shp x y item_length item_width r c :
  item_length = 0 ∨ item_width = 0 →
  in_block shp (block_at x y item_length item_width) r c = false.
Proof.
  intros Hzero. unfold in_block, block_at, in_slice. simpl.
  apply andb_false_iff.
  destruct Hzero as [-> | ->]; [right|left];
    apply bool_decide_eq_false; rewrite Z.add_0_r; lia.
Qed.

Lemma np_any_empty_block grid x y item_length item_width :
  item_length = 0 ∨ item_width = 0 →
  np_any grid (block_at x y item_length item_width) = false.
Proof.
  intros Hzero. apply np_any_false. intros r c.
  by rewrite empty_block.
Qed.

(** Marking a block that selects no cell changes nothing. *)
Lemma set_block_empty grid b :
  (∀ r c, in_block (shape grid) b r c = false) → set_block grid b = grid.
Proof.
  intros Hempty. destruct grid as [shp rws]. unfold set_block. simpl in *.
  f_equal. apply list_eq. intros r. rewrite list_lookup_imap.
  destruct (rws !! r) as [row|]; simpl; [|done]. f_equal.
  apply list_eq. intros c. rewrite list_lookup_imap.
  destruct (row !! c) as [v|]; simpl; [|done]. by rewrite Hempty.
Qed.

Lemma place_item_ghost_shape grid_size grid trace item grid' trace' :
  place_item_ghost grid_size (grid, trace) item = Ok (grid', trace') →
  shape grid' = shape grid.
Proof.
  intros (il & iw & _ & _ & [(_ & -> & _)|(x & y & px & py & _ & _ & _ & -> & _)])
    %place_item_ghost_Ok; done.
Qed.

(** An item with no column or no row that fits in the grid is recorded at
    the origin when the loop reaches it. *)
Lemma for_each_place_item_ghost_degenerate
    grid_size origin items grid trace grid' trace' item item_length item_width :
  for_each (place_item_ghost grid_size) items (grid, trace) = Ok (grid', trace') →
  scale 0 grid_size = Ok origin →
  item ∈ items →
  grid_units (dim_length (dimensions item)) grid_size = Ok item_length →
  grid_units (dim_width (dimensions item)) grid_size = Ok item_width →
  item_length = 0 ∨ item_width = 0 →
  item_length ≤ (shape grid).2 → item_width ≤ (shape grid).1 →
  ({| placed := item; position := (origin, origin) |},
   block_at 0 0 item_length item_width) ∈ trace'.
Proof.
  intros Hloop Horigin Hitem Hil Hiw Hzero. revert grid trace Hloop.
  induction items as [|item' items IH]; intros grid trace;
    [by apply elem_of_nil in Hitem|].
  rewrite for_each_cons. intros ([g t] & Hstep & Hrest)%bind_Ok Hl Hw.
  apply elem_of_cons in Hitem as [<-|Hitem].
  - apply for_each_place_item_ghost_appends in Hrest as (new & -> & _).
    apply elem_of_app. left.
    unfold place_item_ghost in Hstep.
    rewrite Hil, Hiw, !bind_Ok_l in Hstep.
    rewrite find_furniture_position_origin in Hstep
      by auto using np_any_empty_block.
    rewrite Horigin, !bind_Ok_l in Hstep. injection Hstep as <- <-.
    apply elem_of_app. right. left.
  - pose proof (place_item_ghost_shape _ _ _ _ _ _ Hstep) as Hshape.
    eapply (IH Hitem g t); [done|by rewrite Hshape..].
Qed.

(** An item with no column or no row that fits in the grid is placed at
    the origin, and its block selects no cell. *)
Lemma zero_units_item_placed_at_origin
    (furniture : list FurnitureItem) (room_length room_width : float)
    (out : list PositionedItem) (item : FurnitureItem)
    (grid_length grid_width item_length item_width : Z) :
  position_furniture furniture room_length room_width = Ok out →
  grid_units room_length half = Ok grid_length →
  grid_units room_width half = Ok grid_width →
  item ∈ furniture →
  grid_units (dim_length (dimensions item)) half = Ok item_length →
  grid_units (dim_width (dimensions item)) half = Ok item_width →
  item_length = 0 ∨ item_width = 0 →
  item_length ≤ grid_length → item_width ≤ grid_width →
  {| placed := item; position := (zero, zero) |} ∈ out
  ∧ (∃ grid trace,
       position_furniture_ghost furniture room_length room_width = Ok (grid, trace)
       ∧ shape grid = (grid_width, grid_length)
       ∧ ({| placed := item; position := (zero, zero) |},
          block_at 0 0 item_length item_width) ∈ trace)
  ∧ (∀ r c, in_block (grid_width, grid_length)
              (block_at 0 0 item_length item_width) r c = false)
  ∧ (∀ grid, set_block grid (block_at 0 0 item_length item_width) = grid).
Proof.
  rewrite position_furniture_erase.
  destruct (position_furniture_ghost furniture room_length room_width)
    as [[grid trace]|] eqn:Hghost; [|done].
  intros [= <-] Hgl Hgw Hitem Hil Hiw Hzero Hl Hw.
  apply position_furniture_ghost_Ok in Hghost
    as (gl & gw & grid0 & Hgl' & Hgw' & Hzeros & Hloop).
  assert (gl = grid_length ∧ gw = grid_width) as [-> ->]
    by (split; congruence).
  pose proof (np_zeros_Ok _ _ Hzeros) as (_ & Hshape0 & _).
  assert (({| placed := item; position := (zero, zero) |},
           block_at 0 0 item_length item_width) ∈ trace) as Hin.
  { eapply for_each_place_item_ghost_degenerate;
      [exact Hloop|by vm_compute| |done..|by rewrite Hshape0|by rewrite Hshape0].
    by rewrite py_sorted_reverse_Permutation. }
  split; [by apply (list_elem_of_fmap_2 fst) in Hin|]. split.
  - exists grid, trace. split; [done|]. split; [|done].
    assert (shape grid = shape grid0) as ->; [|done].
    change (shape (grid, trace).1 = shape grid0).
    eapply (for_each_inv (λ st, shape st.1 = shape grid0)); [..|exact Hloop].
    + done.
    + intros [g t] x [g' t'] _ Hs Hstep. simpl in *.
      by rewrite (place_item_ghost_shape _ _ _ _ _ _ Hstep).
  - split; [intros r c; by apply empty_block|].
    intros g. apply set_block_empty. intros r c. by apply empty_block.
Qed.

(** C7 as amended.  An item whose length or width is a double that is at
    least 0.0 and less than the grid size 0.5 has a grid-cell count of 0 in
    that dimension.  When its other dimension does not exceed the grid, it is
    placed at position (0.0, 0.0) whenever [position_furniture] returns,
    whether or not the cell at the origin is occupied; its block selects no
    cell and marking it leaves the grid as it is. *)
Theorem degenerate_item_placed_at_origin
    (furniture : list FurnitureItem) (room_length room_width : float)
    (out : list PositionedItem) (item : FurnitureItem)
    (grid_length grid_width item_length item_width : Z) :
  position_furniture furniture room_length room_width = Ok out →
  grid_units room_length half = Ok grid_length →
  grid_units room_width half = Ok grid_width →
  item ∈ furniture →
  grid_units (dim_length (dimensions item)) half = Ok item_length →
  grid_units (dim_width (dimensions item)) half = Ok item_width →
  (valid_binary Float.prec Float.emax (dim_length (dimensions item)) = true
   ∧ Float.geb (dim_length (dimensions item)) zero = true
   ∧ Float.ltb (dim_length (dimensions item)) half = true)
  ∨ (valid_binary Float.prec Float.emax (dim_width (dimensions item)) = true
     ∧ Float.geb (dim_width (dimensions item)) zero = true
     ∧ Float.ltb (dim_width (dimensions item)) half = true) →
  item_length ≤ grid_length → item_width ≤ grid_width →
  (item_length = 0 ∨ item_width = 0)
  ∧ {| placed := item; position := (zero, zero) |} ∈ out
  ∧ (∃ grid trace,
       position_furniture_ghost furniture room_length room_width = Ok (grid, trace)
       ∧ shape grid = (grid_width, grid_length)
       ∧ ({| placed := item; position := (zero, zero) |},
          block_at 0 0 item_length item_width) ∈ trace)
  ∧ (∀ r c, in_block (grid_width, grid_length)
              (block_at 0 0 item_length item_width) r c = false)
  ∧ (∀ grid, set_block grid (block_at 0 0 item_length item_width) = grid).
Proof.
  intros Hout Hgl Hgw Hitem Hil Hiw Hshort Hl Hw.
  assert (item_length = 0 ∨ item_width = 0) as Hzero.
  { destruct Hshort as [(Hvalid & Hge & Hlt)|(Hvalid & Hge & Hlt)];
      pose proof (grid_units_below_half _ Hvalid Hlt Hge) as Hunits;
      [left|right]; congruence. }
  split; [exact Hzero|].
  by eapply zero_units_item_placed_at_origin.
Qed.

Lemma degenerate_item_placed_at_origin_witness :
  ∃ out,
    position_furniture sample_furniture (Float.of_Z 5) (Float.of_Z 4) = Ok out
    ∧ grid_units (Float.of_Z 5) half = Ok 10
    ∧ grid_units (Float.of_Z 4) half = Ok 8
    ∧ sample_item "bookshelf" ∈ sample_furniture
    ∧ grid_units (dim_length (dimensions (sample_item "bookshelf"))) half = Ok 1
    ∧ grid_units (dim_width (dimensions (sample_item "bookshelf"))) half = Ok 0
    ∧ valid_binary Float.prec Float.emax
        (dim_width (dimensions (sample_item "bookshelf"))) = true
    ∧ Float.geb (dim_width (dimensions (sample_item "bookshelf"))) zero = true
    ∧ Float.ltb (dim_width (dimensions (sample_item "bookshelf"))) half = true
    ∧ (1 = 0 ∨ 0 = 0)
    ∧ {| placed := sample_item "bookshelf"; position := (zero, zero) |} ∈ out
    ∧ (∃ grid trace,
         position_furniture_ghost sample_furniture (Float.of_Z 5) (Float.of_Z 4)
           = Ok (grid, trace)
         ∧ shape grid = (8, 10)
         ∧ ({| placed := sample_item "bookshelf"; position := (zero, zero) |},
            block_at 0 0 1 0) ∈ trace)
    ∧ (∀ r c, in_block (8, 10) (block_at 0 0 1 0) r c = false)
    ∧ (∀ grid, set_block grid (block_at 0 0 1 0) = grid).
Proof.
  eexists. split; [by vm_compute|].
  split; [by vm_compute|]. split; [by vm_compute|].
  split; [do 2 right; left|].
  split; [by vm_compute|]. split; [by vm_compute|].
  split; [by vm_compute|]. split; [by vm_compute|]. split; [by vm_compute|].
  eapply (degenerate_item_placed_at_origin sample_furniture
            (Float.of_Z 5) (Float.of_Z 4) _ (sample_item "bookshelf") 10 8 1 0).
  - by vm_compute.
  - by vm_compute.
  - by vm_compute.
  - do 2 right. left.
  - by vm_compute.
  - by vm_compute.
  - right. split; [by vm_compute|]. split; by vm_compute.
  - lia.
  - lia.
Defined.

(** The claim without the condition on the other dimension fails: in a 5
    by 4 room a single item 0.4 long and 10.0 wide has no column, and is
    dropped although the grid is all free when it is attempted. *)
Lemma degenerate_item_too_wide_is_dropped :
  ¬ (∀ (item : FurnitureItem) (room_length room_width : float)
       (out : list PositionedItem),
       position_furniture [item] room_length room_width = Ok out →
       (valid_binary Float.prec Float.emax (dim_length (dimensions item)) = true
        ∧ Float.geb (dim_length (dimensions item)) zero = true
        ∧ Float.ltb (dim_length (dimensions item)) half = true)
       ∨ (valid_binary Float.prec Float.emax (dim_width (dimensions item)) = true
          ∧ Float.geb (dim_width (dimensions item)) zero = true
          ∧ Float.ltb (dim_width (dimensions item)) half = true) →
       out = [{| placed := item; position := (zero, zero) |}]).
Proof.
  intros Hclaim.
  specialize (Hclaim
    {| item_type := "rug"; price := 300; style := "Modern";
       dimensions := {| dim_length := Float.lit 4 10;
                        dim_width := Float.of_Z 10 |} |}
    (Float.of_Z 5) (Float.of_Z 4) []).
  discriminate Hclaim; [by vm_compute|left].
  split; [by vm_compute|]. split; by vm_compute.
Qed.

(** ** Placement over a store *)

Section store.
Import Store.

Lemma get_dict_Ok h v d :
  get_dict h v = Ok d → ∃ l, v = VRef l ∧ h !! l = Some (ODict d).
Proof.
  destruct v as [| | | |l]; try done. simpl.
  destruct (h !! l) as [[d'|]|] eqn:Hl; try done.
  intros [= ->]. by exists l.
Qed.

Lemma get_dict_agree h h' v d :
  (∀ l, l ∈ dom h → h' !! l = h !! l) →
  get_dict h v = Ok d → get_dict h' v = Ok d.
Proof.
  intros Hagree (l & -> & Hl)%get_dict_Ok. simpl.
  rewrite Hagree, Hl; [done|]. apply elem_of_dom. by eexists.
Qed.

Lemma footprint_Ok h v k : footprint h v = Ok k → ∃ d, get_dict h v = Ok d.
Proof.
  unfold footprint, item_dimension.
  intros (? & (d & Hd & _)%bind_Ok & _)%bind_Ok. by exists d.
Qed.

Lemma list_append_Ok h lst v h' :
  list_append h lst v = Ok h' →
  ∃ vs, h !! lst = Some (OList vs) ∧ h' = <[lst := OList (vs ++ [v])]> h.
Proof.
  unfold list_append, get_list.
  destruct (h !! lst) as [[|vs]|]; try done. intros [= <-]. by exists vs.
Qed.

(** The keys are computed for the elements of the list, in order. *)
Lemma keyed_Ok h vs acc keyed :
  for_each (λ acc v, k ← footprint h v; Ok (acc ++ [(k, v)])) vs acc = Ok keyed →
  ∃ new, keyed = acc ++ new ∧ new.*2 = vs
         ∧ Forall (λ v, ∃ d, get_dict h v = Ok d) vs.
Proof.
  revert acc. induction vs as [|v vs IH]; intros acc.
  - intros [= <-]. exists []. by rewrite app_nil_r.
  - rewrite for_each_cons.
    intros (acc' & (k & Hk & [= <-])%bind_Ok & Hrest)%bind_Ok.
    apply IH in Hrest as (new & -> & <- & Hall).
    exists ((k, v) :: new). rewrite <-app_assoc. split; [done|].
    split; [done|]. constructor; eauto using footprint_Ok.
Qed.

(** The list the loop runs over holds the elements of the input list, and
    each of them is a dict of the store. *)
Lemma sorted_by_footprint_Ok h furniture sorted_furniture :
  sorted_by_footprint h furniture = Ok sorted_furniture →
  ∃ items, get_list h furniture = Ok items
           ∧ sorted_furniture ≡ₚ items
           ∧ Forall (λ v, ∃ d, get_dict h v = Ok d) items.
Proof.
  unfold sorted_by_footprint.
  intros (items & Hitems & (keyed & Hkeyed & [= <-])%bind_Ok)%bind_Ok.
  apply keyed_Ok in Hkeyed as (new & -> & <- & Hall).
  exists new.*2. split; [done|]. split; [|done].
  by rewrite py_sorted_reverse_Permutation.
Qed.

(** One iteration keeps the objects of the initial store as they are. *)
Lemma place_item_store_inv grid_size h items out st item st' :
  out ∉ dom h →
  item ∈ items →
  (∃ d, get_dict h item = Ok d) →
  store_inv h items out st →
  place_item grid_size out st item = Ok st' →
  store_inv h items out st'.
Proof.
  destruct st as [hc grid], st' as [hc' grid'].
  intros Hout Hitem [d Hd] [Hagree (vs & Hvs & Hcopies)]. simpl in *.
  unfold place_item.
  intros (len & _ & (il & _ & (wid & _ & (iw & _ & Hrest)%bind_Ok)
    %bind_Ok)%bind_Ok)%bind_Ok.
  destruct (find_furniture_position grid il iw grid_size) as [[x y]|];
    [|injection Hrest as <- <-; split; eauto].
  rewrite (get_dict_agree h hc item d Hagree Hd), bind_Ok_l in Hrest.
  unfold alloc in Hrest. set (new := fresh (dom hc)) in Hrest.
  apply bind_Ok in Hrest as (px & _ & (py & _ & Happend)%bind_Ok).
  assert (new ∉ dom hc) as Hnew by apply is_fresh.
  assert (new ≠ out) as Hneq.
  { intros ->. apply Hnew, elem_of_dom. by eexists. }
  assert (new ∉ dom h) as Hnewh.
  { intros Hin. apply Hnew, elem_of_dom. rewrite Hagree by done.
    by apply elem_of_dom. }
  apply bind_Ok in Happend as (h2 & (vs' & Hvs' & ->)%list_append_Ok & [= <- <-]).
  rewrite !lookup_insert_ne, Hvs in Hvs' by done. injection Hvs' as <-.
  split; simpl.
  - intros l Hl.
    assert (l ≠ out ∧ l ≠ new) as [? ?] by (split; by intros ->).
    rewrite !lookup_insert_ne by done. by apply Hagree.
  - exists (vs ++ [VRef new]). rewrite lookup_insert_eq. split; [done|].
    apply Forall_app. split.
    + eapply Forall_impl; [exact Hcopies|].
      intros v (l & d' & item' & px' & py' & -> & Hl & Hlo & Hlook & ? & ?).
      exists l, d', item', px', py'. repeat split; try done.
      assert (l ≠ new) by (intros ->; apply Hnew, elem_of_dom; by eexists).
      by rewrite !lookup_insert_ne by done.
    + apply Forall_singleton. exists new, d, item, px, py.
      repeat split; try done.
      rewrite lookup_insert_ne by done. by rewrite !lookup_insert_eq.
Qed.

End store.

(** C10.  When the store model of [position_furniture], called on a list
    of the store, returns, every object of the store it was given, and so
    the input list, its items and their dimension dicts, is as it was; the list returned is a new object,
    and each of its elements is a new dict, the copy of an item of the input
    list with the key ['position'] added. *)
Theorem position_furniture_leaves_input_unchanged
    (h : Store.store) (furniture : Store.loc) (room_length room_width : float)
    (h' : Store.store) (out : Store.loc) :
  furniture ∈ dom h →
  Store.position_furniture h furniture room_length room_width = Ok (h', out) →
  (∀ l, l ∈ dom h → h' !! l = h !! l)
  ∧ (out ∉ dom h)
  ∧ ∃ items positioned,
      Store.get_list h furniture = Ok items
      ∧ Store.get_list h' furniture = Ok items
      ∧ Store.get_list h' out = Ok positioned
      ∧ Forall (copy_with_position h h' items out) positioned.
Proof.
  intros Hfurniture. unfold Store.position_furniture, Store.alloc.
  set (new := fresh (dom h)).
  assert (new ∉ dom h) as Hnew by apply is_fresh.
  intros (gl & _ & (gw & _ & (grid & _ & (sorted_furniture & Hsorted
    & ([hf gf] & Hloop & [= <- <-])%bind_Ok)%bind_Ok)%bind_Ok)%bind_Ok)%bind_Ok.
  apply sorted_by_footprint_Ok in Hsorted as (items & Hitems & Hperm & Hdicts).
  assert (∀ l, l ∈ dom h → <[new := Store.OList []]> h !! l = h !! l) as Hagree.
  { intros l Hl. rewrite lookup_insert_ne; [done|congruence]. }
  assert (Store.get_list h furniture = Ok items) as Hitems0.
  { unfold Store.get_list in *.
    rewrite lookup_insert_ne in Hitems; [done|]. by intros ->. }
  assert (Forall (λ v, ∃ d, Store.get_dict h v = Ok d) items) as Hdicts0.
  { eapply Forall_impl; [exact Hdicts|]. intros v [d Hd].
    apply get_dict_Ok in Hd as (l & -> & Hl). exists d. simpl.
    destruct (decide (l = new)) as [->|Hne];
      [by rewrite lookup_insert_eq in Hl|].
    rewrite lookup_insert_ne in Hl by done. by rewrite Hl. }
  assert (store_inv h items new (hf, gf)) as [Hframe (vs & Hvs & Hcopies)].
  { eapply for_each_inv; [|clear Hloop|exact Hloop].
    - split; [done|]. exists []. simpl. by rewrite lookup_insert_eq.
    - intros t x t' Hx Hinv Hstep. rewrite Hperm in Hx.
      eapply place_item_store_inv; eauto. rewrite Forall_forall in Hdicts0.
      eauto. }
  simpl in *. split; [done|]. split; [done|].
  exists items, vs. unfold Store.get_list in *. rewrite Hvs. split; [done|].
  split; [|done].
  destruct (h !! furniture) as [o|] eqn:Hf; [|done].
  rewrite Hframe, Hf; [done|]. apply elem_of_dom. by eexists.
Qed.

Lemma position_furniture_leaves_input_unchanged_witness :
  1%positive ∈ dom sample_store
  ∧ ∃ h' out,
      Store.position_furniture sample_store 1 (Float.of_Z 5) (Float.of_Z 4)
        = Ok (h', out)
      ∧ (∀ l, l ∈ dom sample_store → h' !! l = sample_store !! l)
      ∧ (out ∉ dom sample_store)
      ∧ ∃ items positioned,
          Store.get_list sample_store 1 = Ok items
          ∧ Store.get_list h' 1 = Ok items
          ∧ Store.get_list h' out = Ok positioned
          ∧ Forall (copy_with_position sample_store h' items out) positioned.
Proof.
  assert (1%positive ∈ dom sample_store) as Hdom
    by (apply elem_of_dom; eexists; by vm_compute).
  split; [exact Hdom|].
  eexists _, _. split; [by vm_compute|].
  eapply (position_furniture_leaves_input_unchanged sample_store 1
            (Float.of_Z 5) (Float.of_Z 4) _ _ Hdom).
  by vm_compute.
Defined.

(** ** The store model and the model over records *)

Lemma get_dict_preserved h h' v d :
  dicts_preserved h h' → Store.get_dict h v = Ok d → Store.get_dict h' v = Ok d.
Proof.
  intros Hpres (l & -> & Hl)%get_dict_Ok. simpl. by rewrite (Hpres _ _ Hl).
Qed.

Lemma read_dimensions_preserved h h' v dm :
  dicts_preserved h h' → read_dimensions h v = Some dm → read_dimensions h' v = Some dm.
Proof.
  intros Hpres. unfold read_dimensions.
  destruct (Store.get_dict h v) as [dd|] eqn:Hdd; [|done].
  by rewrite (get_dict_preserved _ _ _ _ Hpres Hdd).
Qed.

Lemma read_item_preserved h h' v item :
  dicts_preserved h h' → read_item h v = Some item → read_item h' v = Some item.
Proof.
  intros Hpres. unfold read_item.
  destruct (Store.get_dict h v) as [d|] eqn:Hd; [|done].
  rewrite (get_dict_preserved _ _ _ _ Hpres Hd).
  destruct (d !! "type") as [[]|], (d !! "price") as [[]|],
    (d !! "style") as [[]|], (d !! "dimensions") as [dims|]; try done.
  destruct (read_dimensions h dims) as [dm|] eqn:Hdm; [|done].
  by rewrite (read_dimensions_preserved _ _ _ _ Hpres Hdm).
Qed.

Lemma read_positioned_preserved h h' v p :
  dicts_preserved h h' → read_positioned h v = Some p → read_positioned h' v = Some p.
Proof.
  intros Hpres. unfold read_positioned.
  destruct (Store.get_dict h v) as [d|] eqn:Hd; [|done].
  rewrite (get_dict_preserved _ _ _ _ Hpres Hd).
  destruct (d !! "position") as [[]|]; try done.
  destruct (read_item h v) as [item|] eqn:Hitem; [|done].
  by rewrite (read_item_preserved _ _ _ _ Hpres Hitem).
Qed.

(** Reading the dimensions of an item the way the loop does. *)
Lemma read_item_dimension h v item :
  read_item h v = Some item →
  Store.item_dimension h v "length" = Ok (dim_length (dimensions item))
  ∧ Store.item_dimension h v "width" = Ok (dim_width (dimensions item)).
Proof.
  unfold read_item, read_dimensions.
  destruct (Store.get_dict h v) as [d|] eqn:Hd; [|done].
  destruct (d !! "type") as [[]|], (d !! "price") as [[]|],
    (d !! "style") as [[]|], (d !! "dimensions") as [dims|] eqn:Hdims; try done.
  destruct (Store.get_dict h dims) as [dd|] eqn:Hdd; [|done].
  destruct (dd !! "length") as [[]|] eqn:Hl, (dd !! "width") as [[]|] eqn:Hw;
    try done.
  simpl. intros [= <-]. unfold Store.item_dimension, Store.subscript.
  by rewrite Hd, !bind_Ok_l, Hdims, !bind_Ok_l, Hdd, !bind_Ok_l, Hl, Hw.
Qed.

Lemma read_item_footprint h v item :
  read_item h v = Some item → Store.footprint h v = Ok (footprint item).
Proof.
  intros [Hl Hw]%read_item_dimension. unfold Store.footprint.
  by rewrite Hl, Hw.
Qed.

(** Sorting related lists with keys that agree gives related lists. *)
Lemma insert_by_Forall2 {A B : Type} (R : A → B → Prop)
    (key : A → float) (key' : B → float) x x' l l' :
  (∀ a b, R a b → key a = key' b) →
  R x x' → Forall2 R l l' →
  Forall2 R (insert_by key x l) (insert_by key' x' l').
Proof.
  intros Hkey Hx Hl. induction Hl as [|y y' l l' Hy Hl IH]; simpl.
  - by repeat constructor.
  - rewrite (Hkey _ _ Hx), (Hkey _ _ Hy).
    destruct (Float.ltb (key' y') (key' x')); by repeat constructor.
Qed.

Lemma sort_by_Forall2 {A B : Type} (R : A → B → Prop)
    (key : A → float) (key' : B → float) l l' :
  (∀ a b, R a b → key a = key' b) →
  Forall2 R l l' → Forall2 R (sort_by key l) (sort_by key' l').
Proof.
  intros Hkey Hl. induction Hl; simpl; [constructor|].
  by apply insert_by_Forall2.
Qed.

Lemma py_sorted_Forall2 {A B : Type} (R : A → B → Prop)
    (key : A → float) (key' : B → float) rev l l' :
  (∀ a b, R a b → key a = key' b) →
  Forall2 R l l' → Forall2 R (py_sorted key rev l) (py_sorted key' rev l').
Proof.
  intros Hkey Hl. unfold py_sorted. destruct rev.
  - by apply Forall2_reverse, sort_by_Forall2, Forall2_reverse.
  - by apply sort_by_Forall2.
Qed.

Lemma keyed_refines h vs items acc :
  Forall2 (λ v item, read_item h v = Some item) vs items →
  ∃ new,
    for_each (λ acc v, k ← Store.footprint h v; Ok (acc ++ [(k, v)])) vs acc
    = Ok (acc ++ new)
    ∧ Forall2 (λ kv item, kv.1 = footprint item ∧ read_item h kv.2 = Some item)
        new items.
Proof.
  intros Hall. revert acc. induction Hall as [|v item vs items Hv Hall IH];
    intros acc.
  - exists []. by rewrite app_nil_r.
  - rewrite for_each_cons, (read_item_footprint _ _ _ Hv), !bind_Ok_l.
    destruct (IH (acc ++ [(footprint item, v)])) as (new & -> & Hnew).
    exists ((footprint item, v) :: new). rewrite <-app_assoc. split; [done|].
    by constructor.
Qed.

Lemma sorted_by_footprint_refines h furniture vs items :
  Store.get_list h furniture = Ok vs →
  Forall2 (λ v item, read_item h v = Some item) vs items →
  ∃ sorted_furniture,
    Store.sorted_by_footprint h furniture = Ok sorted_furniture
    ∧ Forall2 (λ v item, read_item h v = Some item) sorted_furniture
        (py_sorted footprint true items).
Proof.
  intros Hvs Hall. unfold Store.sorted_by_footprint. rewrite Hvs, bind_Ok_l.
  destruct (keyed_refines h vs items [] Hall) as (new & -> & Hnew).
  rewrite bind_Ok_l. eexists. split; [done|]. simpl.
  apply Forall2_fmap_l.
  eapply Forall2_impl;
    [apply (py_sorted_Forall2 _ fst footprint true _ _ (λ a b H, proj1 H) Hnew)|].
  by intros kv item [_ ?].
Qed.

Lemma read_item_Some h v item :
  read_item h v = Some item
  ↔ ∃ d dims,
      Store.get_dict h v = Ok d
      ∧ d !! "type" = Some (Store.VStr (item_type item))
      ∧ d !! "price" = Some (Store.VInt (price item))
      ∧ d !! "style" = Some (Store.VStr (style item))
      ∧ d !! "dimensions" = Some dims
      ∧ read_dimensions h dims = Some (dimensions item).
Proof.
  unfold read_item. split.
  - destruct (Store.get_dict h v) as [d|] eqn:Hd; [|done].
    destruct (d !! "type") as [[]|] eqn:Ht, (d !! "price") as [[]|] eqn:Hp,
      (d !! "style") as [[]|] eqn:Hs, (d !! "dimensions") as [dims|] eqn:Hdims;
      try done.
    destruct (read_dimensions h dims) as [dm|] eqn:Hdm; [|done].
    simpl. intros [= <-]. by exists d, dims.
  - intros (d & dims & -> & -> & -> & -> & -> & ->). by destruct item as [? ? ? []].
Qed.

(** One iteration of the store loop does what the iteration over records
    does. *)
Lemma place_item_refines grid_size h out hc grid positioned v item :
  store_sim h out (hc, grid) (grid, positioned) →
  read_item h v = Some item →
  match place_item grid_size (grid, positioned) item with
  | Ok st' =>
      ∃ st, Store.place_item grid_size out (hc, grid) v = Ok st
            ∧ store_sim h out st st'
  | Raise e => Store.place_item grid_size out (hc, grid) v = Raise e
  end.
Proof.
  intros (_ & Hpres & ws & Hws & Hread) Hitem. simpl in *.
  pose proof (read_item_preserved _ _ _ _ Hpres Hitem) as Hitemc.
  destruct (read_item_dimension _ _ _ Hitemc) as [Hlen Hwid].
  unfold place_item, Store.place_item. rewrite Hlen, bind_Ok_l.
  destruct (grid_units (dim_length (dimensions item)) grid_size) as [il|]; [|done].
  rewrite Hwid, !bind_Ok_l.
  destruct (grid_units (dim_width (dimensions item)) grid_size) as [iw|]; [|done].
  rewrite !bind_Ok_l.
  destruct (find_furniture_position grid il iw grid_size) as [[x y]|].
  2:{ eexists. split; [done|]. split; [done|]. split; [done|]. by exists ws. }
  pose proof Hitemc as (d & dims & Hd & Ht & Hp & Hs & Hdims & Hdm)%read_item_Some.
  rewrite Hd, bind_Ok_l. unfold Store.alloc. set (new := fresh (dom hc)).
  destruct (scale x grid_size) as [px|]; [|done].
  destruct (scale y grid_size) as [py|]; [|done].
  rewrite !bind_Ok_l.
  assert (new ∉ dom hc) as Hnew by apply is_fresh.
  assert (new ≠ out) as Hneq.
  { intros ->. apply Hnew, elem_of_dom. by eexists. }
  unfold Store.list_append, Store.get_list.
  rewrite !lookup_insert_ne, Hws, !bind_Ok_l by done.
  set (hc' := <[out := _]> _).
  assert (dicts_preserved hc hc') as Hpres'.
  { intros l d' Hl. unfold hc'.
    assert (l ≠ out) by (intros ->; congruence).
    assert (l ≠ new) by (intros ->; apply Hnew, elem_of_dom; by eexists).
    by rewrite !lookup_insert_ne. }
  eexists. split; [done|]. split; [done|]. split.
  { intros l d' Hl. by apply Hpres', Hpres. }
  exists (ws ++ [Store.VRef new]). split; [by apply lookup_insert_eq|].
  simpl. apply Forall2_app.
  - eapply Forall2_impl; [exact Hread|]. intros w p.
    by apply read_positioned_preserved.
  - constructor; [|constructor].
    assert (Store.get_dict hc' (Store.VRef new)
            = Ok (<["position" := Store.VTuple px py]> d)) as Hnewd.
    { simpl. unfold hc'. rewrite lookup_insert_ne by done.
      by rewrite lookup_insert_eq. }
    unfold read_positioned. rewrite Hnewd, lookup_insert_eq.
    assert (read_item hc' (Store.VRef new) = Some item) as ->; [|done].
    apply read_item_Some. exists (<["position" := Store.VTuple px py]> d), dims.
    rewrite !lookup_insert_ne by done.
    eauto 10 using read_dimensions_preserved.
Qed.

Lemma for_each_place_item_refines grid_size h out vs items hc grid positioned :
  Forall2 (λ v item, read_item h v = Some item) vs items →
  store_sim h out (hc, grid) (grid, positioned) →
  match for_each (place_item grid_size) items (grid, positioned) with
  | Ok st' =>
      ∃ st, for_each (Store.place_item grid_size out) vs (hc, grid) = Ok st
            ∧ store_sim h out st st'
  | Raise e => for_each (Store.place_item grid_size out) vs (hc, grid) = Raise e
  end.
Proof.
  intros Hall. revert hc grid positioned.
  induction Hall as [|v item vs items Hv Hall IH]; intros hc grid positioned Hsim.
  - simpl. eauto.
  - rewrite !for_each_cons.
    pose proof (place_item_refines grid_size _ _ _ _ _ _ _ Hsim Hv) as Hstep.
    destruct (place_item grid_size (grid, positioned) item) as [[g' p']|];
      [|by rewrite Hstep].
    destruct Hstep as ([hc' g''] & -> & Hsim'). rewrite !bind_Ok_l.
    pose proof Hsim' as (Hg & _). simpl in Hg. subst g''. by apply IH.
Qed.

(** The store model refines the model over records: on a list of the store
    whose elements read as the items [items], it raises what
    [position_furniture items] raises, and otherwise returns a list that
    reads as the result of [position_furniture items]. *)
Theorem store_position_furniture_refines
    (h : Store.store) (furniture : Store.loc) (vs : list Store.value)
    (items : list FurnitureItem) (room_length room_width : float) :
  Store.get_list h furniture = Ok vs →
  Forall2 (λ v item, read_item h v = Some item) vs items →
  match position_furniture items room_length room_width with
  | Ok positioned =>
      ∃ h' out ws,
        Store.position_furniture h furniture room_length room_width = Ok (h', out)
        ∧ Store.get_list h' out = Ok ws
        ∧ Forall2 (λ w p, read_positioned h' w = Some p) ws positioned
  | Raise e =>
      Store.position_furniture h furniture room_length room_width = Raise e
  end.
Proof.
  intros Hvs Hall. unfold position_furniture, Store.position_furniture, Store.alloc.
  set (new := fresh (dom h)).
  assert (new ∉ dom h) as Hnew by apply is_fresh.
  assert (dicts_preserved h (<[new := Store.OList []]> h)) as Hpres.
  { intros l d Hl. rewrite lookup_insert_ne; [done|].
    intros <-. apply Hnew, elem_of_dom. by eexists. }
  destruct (grid_units room_length (Float.lit 5 10)) as [gl|]; [|done].
  destruct (grid_units room_width (Float.lit 5 10)) as [gw|]; [|done].
  rewrite !bind_Ok_l.
  destruct (np_zeros (gw, gl)) as [grid|]; [|done]. rewrite !bind_Ok_l.
  assert (Store.get_list (<[new := Store.OList []]> h) furniture = Ok vs) as Hvs'.
  { unfold Store.get_list in *. rewrite lookup_insert_ne; [done|].
    intros <-. destruct (h !! new) eqn:Hl; [|done].
    apply Hnew, elem_of_dom. by eexists. }
  destruct (sorted_by_footprint_refines _ _ vs items Hvs')
    as (sorted_furniture & -> & Hsorted).
  { eapply Forall2_impl; [exact Hall|]. intros v item.
    by apply read_item_preserved. }
  rewrite bind_Ok_l.
  pose proof (for_each_place_item_refines (Float.lit 5 10)
                (<[new := Store.OList []]> h) new _ _
                (<[new := Store.OList []]> h) grid [] Hsorted) as Hloop.
  destruct (for_each (place_item (Float.lit 5 10)) _ (grid, []))
    as [[g positioned]|].
  - destruct Hloop as ([hf gf] & -> & _ & _ & ws & Hws & Hread).
    { split; [done|]. split; [by intros ? ? ?|]. exists []. simpl.
      by rewrite lookup_insert_eq. }
    simpl in *. exists hf, new, ws. unfold Store.get_list. by rewrite Hws.
  - rewrite Hloop; [done|].
    split; [done|]. split; [by intros ? ? ?|]. exists []. simpl.
    by rewrite lookup_insert_eq.
Qed.

(** * Further properties *)

(** ** The catalogue and the prices *)

Lemma requirements_cases (room_type : string) :
  (room_type ∉ room_types) ∧ get_furniture_requirements room_type = []
  ∨ (room_type, get_furniture_requirements room_type) ∈ map_to_list requirements.
Proof.
  unfold get_furniture_requirements, dict_get.
  destruct (requirements !! room_type) as [reqs|] eqn:E; simpl.
  - right. by apply elem_of_map_to_list.
  - left. split; [|done]. intros Hin.
    assert (is_Some (requirements !! room_type)) as [? ?]; [|congruence].
    clear E. unfold room_types in Hin.
    rewrite !elem_of_cons, elem_of_nil in Hin.
    destruct Hin as [->|[->|[->|[->|[->|[]]]]]]; vm_compute; eauto.
Qed.

Lemma requirements_table_checked :
  Forall (λ kv : string * list Requirement,
    kv.1 ∈ room_types
    ∧ (3 ≤ length kv.2 ≤ 4)%nat
    ∧ NoDup (req_type <$> kv.2)
    ∧ StronglySorted (λ a b, priority a ≤ priority b) kv.2
    ∧ Forall (λ r, req_type r ∈ base_prices_table.*1
                   ∧ req_type r ∈ dimensions_table.*1
                   ∧ Float.ltb zero (min_area r) = true) kv.2
    ∧ total_cap kv.2 ≤ 2600)
    (map_to_list requirements).
Proof.
  compute_done.
Qed.

(** X1.  The requirement table.  A room type that is not one of the five
    of the table (the comparison is case-sensitive) has no requirement.  A
    room type has at most four requirements, of pairwise distinct types, in
    non-decreasing priority, each with a positive minimal area and with an
    entry for its type in the price table and in the dimension table, so
    that the default price and the default dimensions are never used for
    it. *)
Theorem furniture_requirements_catalogue (room_type : string) :
  let reqs := get_furniture_requirements room_type in
  (reqs = [] ↔ room_type ∉ room_types)
  ∧ (length reqs ≤ 4)%nat
  ∧ NoDup (req_type <$> reqs)
  ∧ StronglySorted (λ a b, priority a ≤ priority b) reqs
  ∧ Forall (λ r, req_type r ∈ base_prices_table.*1
                 ∧ req_type r ∈ dimensions_table.*1
                 ∧ Float.ltb zero (min_area r) = true) reqs.
Proof.
  cbv zeta.
  destruct (requirements_cases room_type) as [[Hout ->]|Hin].
  - split; [done|]. split; [simpl; lia|]. repeat split; constructor.
  - pose proof requirements_table_checked as H. rewrite Forall_forall in H.
    destruct (H _ Hin) as (Hrt & Hlen & Hnd & Hsorted & Hall & _). simpl in *.
    split; [|by intuition lia].
    split; [|done]. intros E. rewrite E in Hlen. simpl in Hlen. lia.
Qed.

Lemma all_prices_in_band :
  Forall (λ b, Forall (λ m, price_in_band b m = true) all_multipliers) all_base_prices.
Proof. compute_done. Qed.

Lemma price_in_band_lookup (t s : string) :
  price_in_band (dict_get base_prices t 300) (dict_get style_multipliers s one) = true.
Proof.
  pose proof all_prices_in_band as H.
  rewrite Forall_forall in H. specialize (H _ (base_price_known t)).
  rewrite Forall_forall in H. apply H, multiplier_known.
Qed.

Lemma generate_furniture_item_band (requirement : Requirement) (s : string) :
  ∃ p, generate_furniture_item requirement s
       = Ok {| item_type := req_type requirement; price := p; style := s;
               dimensions := get_furniture_dimensions (req_type requirement) |}
     ∧ dict_get base_prices (req_type requirement) 300 ≤ p ≤ price_cap requirement
     ∧ (dict_get style_multipliers s one = one
        → p = dict_get base_prices (req_type requirement) 300).
Proof.
  destruct (lookup_price_ok (req_type requirement) s)
    as (b & p & Hb & -> & Hp & Hfl & Hpos).
  pose proof (price_in_band_lookup (req_type requirement) s) as Hband.
  unfold price_in_band in Hband. rewrite Hp in Hband.
  apply bool_decide_eq_true in Hband as [Hband Hone].
  exists p. split; [|done].
  unfold generate_furniture_item. fold one.
  rewrite Hb, bind_Ok_l, Hp. done.
Qed.

Lemma unlisted_style_multiplier (s : string) :
  s ∉ ["Modern"; "Traditional"; "Scandinavian"; "Industrial"] →
  dict_get style_multipliers s one = one.
Proof.
  intros Hs. unfold style_multipliers.
  destruct (dict_get_cases style_multipliers_table s one NoDup_style_multipliers)
    as [Hin|[_ ->]]; [|done].
  unfold style_multipliers_table in Hin at 2.
  rewrite !elem_of_cons, elem_of_nil in Hin.
  rewrite !not_elem_of_cons in Hs.
  destruct Hin as [H|[H|[H|[H|[H|[]]]]]]; 
    injection H as H1 H2; try (by intuition); rewrite H2; by vm_compute.
Qed.

(** X2.  [generate_furniture_item] never raises.  The price is at least
    the base price and at most 1.3 times the base price, rounded down; it
    is the base price for the Minimalist style and for every style the
    multiplier table does not list. *)
Theorem furniture_price_within_style_band (requirement : Requirement) (s : string) :
  let base_price := dict_get base_prices (req_type requirement) 300 in
  ∃ item,
    generate_furniture_item requirement s = Ok item
    ∧ base_price ≤ price item ≤ (13 * base_price) `div` 10
    ∧ (s ∉ ["Modern"; "Traditional"; "Scandinavian"; "Industrial"] →
       price item = base_price).
Proof.
  cbv zeta. destruct (generate_furniture_item_band requirement s)
    as (p & Hitem & Hband & Hone).
  eexists. split; [exact Hitem|]. simpl. split; [exact Hband|].
  intros Hs. by apply Hone, unlisted_style_multiplier.
Qed.

(** ** Selection *)

Lemma add_required_items (s : string) l a item :
  ∃ l' a' chosen sel,
    add_required s (l, a) item = Ok (l', a')
    ∧ furniture l' = furniture l ++ sel
    ∧ cost l' = cost l + total_price sel
    ∧ chosen `sublist_of` [item]
    ∧ Forall2 (λ r it, generate_furniture_item r s = Ok it) chosen sel
    ∧ (Float.geb a (min_area item) = false → l' = l ∧ a' = a).
Proof.
  unfold add_required. destruct (Float.geb a (min_area item)).
  - destruct (generate_furniture_item_Ok item s) as (p & E & _).
    rewrite E, bind_Ok_l. eexists _, _, [item], [_]. split; [done|]. simpl.
    split; [done|]. split; [unfold total_price; simpl; lia|].
    split; [done|]. split; [|done]. by repeat constructor.
  - exists l, a, [], []. rewrite app_nil_r. split; [done|]. split; [done|].
    split; [unfold total_price; simpl; lia|]. split; [by apply sublist_cons|].
    split; [constructor|done].
Qed.

Lemma select_items (s : string) reqs l a :
  ∃ l' a' chosen sel,
    for_each (add_required s) reqs (l, a) = Ok (l', a')
    ∧ furniture l' = furniture l ++ sel
    ∧ cost l' = cost l + total_price sel
    ∧ chosen `sublist_of` reqs
    ∧ Forall2 (λ r it, generate_furniture_item r s = Ok it) chosen sel
    ∧ (Forall (λ r, Float.geb a (min_area r) = false) reqs → sel = []).
Proof.
  revert l a. induction reqs as [|item reqs IH]; intros l a.
  - exists l, a, [], []. rewrite app_nil_r. simpl. split; [done|].
    split; [done|]. split; [unfold total_price; simpl; lia|].
    split; [constructor|]. split; [constructor|done].
  - rewrite for_each_cons.
    destruct (add_required_items s l a item)
      as (l1 & a1 & ch1 & sel1 & -> & Hf1 & Hc1 & Hs1 & Hg1 & Hno1).
    rewrite bind_Ok_l.
    destruct (IH l1 a1) as (l' & a' & ch & sel & -> & Hf & Hc & Hsub & Hg & Hno).
    exists l', a', (ch1 ++ ch), (sel1 ++ sel). split; [done|].
    rewrite Hf, Hf1, Hc, Hc1, total_price_app, <-app_assoc.
    split; [done|]. split; [lia|].
    split; [by apply (sublist_app _ [_])|].
    split; [by apply Forall2_app|].
    intros [Hitem Hall]%Forall_cons.
    destruct (Hno1 Hitem) as [-> ->].
    apply (f_equal length) in Hf1. rewrite length_app in Hf1.
    rewrite (Hno Hall). destruct sel1; [done|]. simpl in Hf1. lia.
Qed.

Lemma generate_option_items (area : float) (s : string) reqs :
  ∃ chosen filled,
    chosen `sublist_of` reqs
    ∧ Forall2 (λ r it, generate_furniture_item r s = Ok it) chosen (furniture filled)
    ∧ cost filled = total_price (furniture filled)
    ∧ (Forall (λ r, Float.geb (Float.mul area (Float.lit 7 10)) (min_area r) = false)
         reqs → furniture filled = [])
    ∧ ∀ room_type layouts i,
        generate_option area room_type s reqs layouts i
        = Ok (layouts ++ [finished (i + 1) s room_type filled]).
Proof.
  set (init i := {| layout_id := i; furniture := []; cost := 0;
                    description := ""; features := [] |}).
  destruct (select_items s reqs (init 0) (Float.mul area (Float.lit 7 10)))
    as (l & a & chosen & sel & Hrun & Hf & Hc & Hsub & Hgen & Hno).
  simpl in Hf, Hc. exists chosen, l. rewrite Hf, Hc.
  split; [done|]. split; [done|]. split; [done|]. split; [done|].
  intros room_type layouts i. unfold generate_option.
  apply (for_each_add_required_with_id _ _ _ _ _ _ (i + 1)) in Hrun.
  change (with_id (i + 1) (init 0)) with (init (i + 1)) in Hrun.
  subst init. simpl in Hrun. rewrite Hrun. done.
Qed.

Lemma generate_room_layout_items (area : float) (s : string) reqs :
  ∃ chosen filled,
    chosen `sublist_of` reqs
    ∧ Forall2 (λ r it, generate_furniture_item r s = Ok it) chosen (furniture filled)
    ∧ cost filled = total_price (furniture filled)
    ∧ (Forall (λ r, Float.geb (Float.mul area (Float.lit 7 10)) (min_area r) = false)
         reqs → furniture filled = [])
    ∧ ∀ room_type,
        generate_room_layout area room_type s reqs
        = Ok [finished 1 s room_type filled; finished 2 s room_type filled;
              finished 3 s room_type filled].
Proof.
  destruct (generate_option_items area s reqs)
    as (chosen & filled & Hsub & Hgen & Hcost & Hno & Hopt).
  exists chosen, filled. do 4 (split; [done|]).
  intros room_type. unfold generate_room_layout.
  change (py_range 3) with [0; 1; 2].
  rewrite for_each_cons, Hopt, bind_Ok_l.
  rewrite for_each_cons, Hopt, bind_Ok_l.
  rewrite for_each_cons, Hopt, bind_Ok_l.
  reflexivity.
Qed.

(** X3.  The furniture of every option [generate_room_layout] returns is
    made of the items [generate_furniture_item] returns for a sub-sequence
    of the requirement list, in the order of the list and one item per
    requirement chosen.  Every item has the requested style and the
    dimensions of its type, and no option has more items than there are
    requirements. *)
Theorem options_hold_generated_items_in_order
    (area : float) (room_type s : string) (reqs : list Requirement) :
  ∃ layouts chosen,
    generate_room_layout area room_type s reqs = Ok layouts
    ∧ chosen `sublist_of` reqs
    ∧ Forall (λ o,
        Forall2 (λ r it, generate_furniture_item r s = Ok it) chosen (furniture o)
        ∧ item_type <$> furniture o = req_type <$> chosen
        ∧ Forall (λ it, style it = s
                        ∧ dimensions it = get_furniture_dimensions (item_type it))
            (furniture o)
        ∧ (length (furniture o) ≤ length reqs)%nat) layouts.
Proof.
  destruct (generate_room_layout_items area s reqs)
    as (chosen & filled & Hsub & Hgen & _ & _ & Hrun).
  eexists _, chosen. split; [exact (Hrun room_type)|]. split; [done|].
  assert (item_type <$> furniture filled = req_type <$> chosen
          ∧ Forall (λ it, style it = s
                          ∧ dimensions it = get_furniture_dimensions (item_type it))
              (furniture filled)) as [Htypes Hitems].
  { clear Hsub.
    induction Hgen as [|r it ch fs Hit Hgen [IH1 IH2]]; [by split; constructor|].
    destruct (generate_furniture_item_Ok r s) as (p & E & _).
    rewrite E in Hit. injection Hit as <-. rewrite !fmap_cons.
    split; [by f_equal|]. by constructor. }
  assert (length (furniture filled) ≤ length reqs)%nat as Hlen.
  { rewrite <-(Forall2_length _ _ _ Hgen). by apply sublist_length. }
  by repeat constructor.
Qed.

(** ** Cost bounds *)

Lemma price_cap_nonneg (r : Requirement) : 0 ≤ price_cap r.
Proof.
  destruct (generate_furniture_item_band r "") as (p & _ & Hband & _).
  destruct (generate_furniture_item_Ok r "") as (p' & _ & _ & Hpos).
  pose proof (base_price_known (req_type r)) as Hin.
  unfold price_cap. apply Z.div_pos; [|lia].
  assert (0 ≤ dict_get base_prices (req_type r) 300); [|lia].
  revert Hin. generalize (dict_get base_prices (req_type r) 300). intros b Hin.
  assert (Forall (λ b, 0 ≤ b) all_base_prices) as Hall by compute_done.
  rewrite Forall_forall in Hall. by apply Hall.
Qed.

Lemma total_cap_sublist chosen reqs :
  chosen `sublist_of` reqs → 0 ≤ total_cap chosen ≤ total_cap reqs.
Proof.
  unfold total_cap.
  induction 1 as [|r l1 l2 Hsub IH|r l1 l2 Hsub IH];
    rewrite ?fmap_cons; cbn [foldr fmap list_fmap];
    [lia|pose proof (price_cap_nonneg r); lia..].
Qed.

Lemma total_price_cap (s : string) chosen sel :
  Forall2 (λ r it, generate_furniture_item r s = Ok it) chosen sel →
  0 ≤ total_price sel ≤ total_cap chosen.
Proof.
  unfold total_price, total_cap.
  induction 1 as [|r it ch fs Hit Hgen IH]; [simpl; lia|].
  destruct (generate_furniture_item_band r s) as (p & E & Hband & _).
  destruct (generate_furniture_item_Ok r s) as (p' & E' & _ & Hpos).
  rewrite E in Hit, E'. injection Hit as <-. injection E' as <-.
  rewrite !fmap_cons. cbn [foldr price]. lia.
Qed.

Lemma requirements_total_cap (room_type : string) :
  total_cap (get_furniture_requirements room_type) ≤ 2600.
Proof.
  destruct (requirements_cases room_type) as [[_ ->]|Hin]; [by vm_compute|].
  pose proof requirements_table_checked as H. rewrite Forall_forall in H.
  destruct (H _ Hin) as (_ & _ & _ & _ & _ & Hcap). exact Hcap.
Qed.

Lemma filter_by_budget_nil_out_of_range layouts min_budget max_budget :
  Forall (λ o, ¬ (min_budget ≤ cost o ≤ max_budget)) layouts →
  filter_by_budget layouts (min_budget, max_budget) = [].
Proof.
  unfold filter_by_budget. induction 1 as [|o l Ho Hall IH]; [done|].
  rewrite filter_cons_False by done. exact IH.
Qed.

(** X4.  For the requirements of any room type, whatever the style and
    the area, every option costs between 0 and 2600 (the three kitchen
    items at 1.3 times their base prices).  So no option is tagged
    "Premium quality pieces", and a budget whose lower bound is above 2600
    keeps no option. *)
Theorem catalogue_option_cost_at_most_2600 (area : float) (room_type s : string) :
  ∃ layouts,
    generate_room_layout area room_type s (get_furniture_requirements room_type)
    = Ok layouts
    ∧ Forall (λ o, 0 ≤ cost o ≤ 2600 ∧ ("Premium quality pieces" ∉ features o)) layouts
    ∧ ∀ min_budget max_budget,
        2600 < min_budget → filter_by_budget layouts (min_budget, max_budget) = [].
Proof.
  destruct (generate_room_layout_items area s
              (get_furniture_requirements room_type))
    as (chosen & filled & Hsub & Hgen & Hcost & _ & Hrun).
  eexists. split; [exact (Hrun room_type)|].
  pose proof (total_price_cap _ _ _ Hgen) as Hp.
  pose proof (total_cap_sublist _ _ Hsub) as Hc.
  pose proof (requirements_total_cap room_type) as Hr.
  assert (0 ≤ cost filled ≤ 2600) as Hb by lia.
  destruct (generate_layout_features_tags filled s) as (_ & _ & Hprem).
  assert ("Premium quality pieces" ∉ generate_layout_features filled s) as Hno.
  { rewrite Hprem. lia. }
  split; [by repeat apply Forall_cons_2; try apply Forall_nil_2|].
  intros min_budget max_budget Hmin. apply filter_by_budget_nil_out_of_range.
  repeat apply Forall_cons_2; try apply Forall_nil_2; simpl; lia.
Qed.

(** X5.  When 70% of the area is below the minimal area of every
    requirement (an empty requirement list, as for an unknown room type, is
    such a case), [generate_room_layout] still returns three options: they
    have no furniture, cost 0, carry the tag "Budget-friendly selection" and
    not "Complete room setup". *)
Theorem no_requirement_fits_gives_empty_options
    (area : float) (room_type s : string) (reqs : list Requirement) :
  Forall (λ r, Float.geb (Float.mul area (Float.lit 7 10)) (min_area r) = false) reqs →
  ∃ layouts,
    generate_room_layout area room_type s reqs = Ok layouts
    ∧ length layouts = 3%nat
    ∧ Forall (λ o, furniture o = [] ∧ cost o = 0
                   ∧ "Budget-friendly selection" ∈ features o
                   ∧ ("Complete room setup" ∉ features o)) layouts.
Proof.
  intros Hno.
  destruct (generate_room_layout_items area s reqs)
    as (chosen & filled & _ & _ & Hcost & Hempty & Hrun).
  specialize (Hempty Hno). rewrite Hempty in Hcost.
  eexists. split; [exact (Hrun room_type)|]. split; [done|].
  destruct (generate_layout_features_tags filled s) as (Hcomplete & Hbudget & _).
  rewrite Hempty in Hcomplete.
  assert ("Budget-friendly selection" ∈ generate_layout_features filled s) as H1.
  { rewrite Hbudget, Hcost. by vm_compute. }
  assert ("Complete room setup" ∉ generate_layout_features filled s) as H2.
  { rewrite Hcomplete. simpl. lia. }
  by repeat apply Forall_cons_2; try apply Forall_nil_2.
Qed.

Lemma no_requirement_fits_gives_empty_options_witness :
  ∃ layouts,
    generate_room_layout (Float.mul (Float.of_Z 1) (Float.of_Z 1)) "Kitchen" "Modern"
      (get_furniture_requirements "Kitchen") = Ok layouts
    ∧ length layouts = 3%nat
    ∧ Forall (λ o, furniture o = [] ∧ cost o = 0
                   ∧ "Budget-friendly selection" ∈ features o
                   ∧ ("Complete room setup" ∉ features o)) layouts.
Proof.
  apply (no_requirement_fits_gives_empty_options
           (Float.mul (Float.of_Z 1) (Float.of_Z 1)) "Kitchen" "Modern"
           (get_furniture_requirements "Kitchen")).
  compute_done.
Defined.

(** X6.  The three options of a run have the same cost, so the budget
    filter keeps the three of them or none. *)
Theorem filter_by_budget_keeps_all_options_or_none
    (area : float) (room_type s : string) (reqs : list Requirement)
    (budget : Z * Z) :
  ∃ layouts,
    generate_room_layout area room_type s reqs = Ok layouts
    ∧ (filter_by_budget layouts budget = layouts
       ∨ filter_by_budget layouts budget = []).
Proof.
  destruct (generate_room_layout_Ok area room_type s reqs)
    as (filled & _ & _ & Hrun).
  eexists. split; [exact Hrun|].
  destruct budget as [min_budget max_budget]. unfold filter_by_budget.
  destruct (decide (min_budget ≤ cost filled ∧ cost filled ≤ max_budget)) as [Hin|Hout].
  - left. by rewrite !filter_cons_True.
  - right. by rewrite !filter_cons_False.
Qed.

(** X7.  Filtering twice is filtering once by the intersection of the two
    ranges; the two filters commute, and filtering again by the same range
    changes nothing. *)
Theorem filter_by_budget_twice (layouts : list Layout) (a b c d : Z) :
  filter_by_budget (filter_by_budget layouts (a, b)) (c, d)
  = filter_by_budget layouts (Z.max a c, Z.min b d)
  ∧ filter_by_budget (filter_by_budget layouts (a, b)) (c, d)
    = filter_by_budget (filter_by_budget layouts (c, d)) (a, b)
  ∧ filter_by_budget (filter_by_budget layouts (a, b)) (a, b)
    = filter_by_budget layouts (a, b).
Proof.
  unfold filter_by_budget. rewrite !list_filter_filter.
  repeat split; apply list_filter_iff; intros o; lia.
Qed.

(** X8.  A budget whose upper bound is below its lower bound keeps no
    option; the filter does not raise. *)
Theorem filter_by_budget_inverted_range
    (layouts : list Layout) (min_budget max_budget : Z) :
  max_budget < min_budget →
  filter_by_budget layouts (min_budget, max_budget) = [].
Proof.
  intros Hinv. apply filter_by_budget_nil_out_of_range.
  apply Forall_forall. intros o _. lia.
Qed.

Lemma filter_by_budget_inverted_range_witness :
  2000 < 5000
  ∧ filter_by_budget
      [{| layout_id := 1; furniture := []; cost := 3000; description := "";
          features := [] |}] (5000, 2000) = [].
Proof.
  split; [lia|]. apply (filter_by_budget_inverted_range _ 5000 2000). lia.
Defined.

(** ** Features and description *)

Lemma style_features_shape :
  Forall (λ fs, NoDup fs ∧ (2 ≤ length fs ≤ 3)%nat) all_style_features.
Proof. compute_done. Qed.

(** X9.  The feature list is the feature list of the style (the two
    generic features for a style that is not in the table) followed by at
    most two tags, taken in this order from "Complete room setup",
    "Budget-friendly selection" and "Premium quality pieces"; it has between
    2 and 5 entries and no entry twice. *)
Theorem layout_features_are_style_features_then_tags (layout : Layout) (s : string) :
  ∃ tags,
    generate_layout_features layout s
    = dict_get style_features s ["Balanced design"; "Functional layout"] ++ tags
    ∧ tags `sublist_of` ["Complete room setup"; "Budget-friendly selection";
                         "Premium quality pieces"]
    ∧ (length tags ≤ 2)%nat
    ∧ NoDup (generate_layout_features layout s)
    ∧ (2 ≤ length (generate_layout_features layout s) ≤ 5)%nat.
Proof.
  pose proof style_features_have_no_tag as Hno.
  pose proof style_features_shape as Hshape.
  rewrite Forall_forall in Hno, Hshape.
  destruct (Hno _ (style_features_known s)) as (Hn1 & Hn2 & Hn3).
  destruct (Hshape _ (style_features_known s)) as (Hnd & Hlen).
  assert (∃ tags,
    generate_layout_features layout s
    = dict_get style_features s ["Balanced design"; "Functional layout"] ++ tags
    ∧ tags `sublist_of` ["Complete room setup"; "Budget-friendly selection";
                         "Premium quality pieces"]
    ∧ (length tags ≤ 2)%nat ∧ NoDup tags) as (tags & E & Hsub & Hl & Hndt).
  { unfold generate_layout_features. cbv zeta. rewrite app_nil_l.
    repeat case_bool_decide; rewrite <-?app_assoc; cbn [app];
      (eexists; split; [reflexivity || (symmetry; apply app_nil_r)|]);
      (split;
       [repeat first [apply sublist_nil_l | apply sublist_skip | apply sublist_cons]|]);
      (split; [simpl; lia|compute_done]). }
  exists tags. rewrite E.
  generalize dependent (dict_get style_features s ["Balanced design"; "Functional layout"]).
  intros fs Hn1 Hn2 Hn3 Hnd Hlen _.
  split; [done|]. split; [done|]. split; [done|].
  split; [|rewrite length_app; lia].
  apply NoDup_app. split; [done|]. split; [|done].
  intros x Hx Hxt. apply (elem_of_sublist _ _ _ Hxt) in Hsub. clear Hxt.
  rewrite !elem_of_cons, elem_of_nil in Hsub.
  destruct Hsub as [->|[->|[->|[]]]]; tauto.
Qed.

Lemma lower_ascii_idemp (c : ascii) : lower_ascii (lower_ascii c) = lower_ascii c.
Proof. by destruct c as [[] [] [] [] [] [] [] []]. Qed.

Lemma lower_idemp (s : string) : lower (lower s) = lower s.
Proof. induction s as [|c s IH]; simpl; [done|]. by rewrite lower_ascii_idemp, IH. Qed.

Lemma generate_layout_description_lower (layout : Layout) (s rt1 rt2 : string) :
  lower rt1 = lower rt2 →
  generate_layout_description layout s rt1 = generate_layout_description layout s rt2.
Proof. unfold generate_layout_description. cbv zeta. by intros ->. Qed.

(** X10.  [generate_room_layout] uses the room type in the description
    only, and lowered: two room types that differ by the case of their
    letters give the same options. *)
Theorem room_type_matters_up_to_letter_case
    (area : float) (rt1 rt2 s : string) (reqs : list Requirement) :
  lower rt1 = lower rt2 →
  generate_room_layout area rt1 s reqs = generate_room_layout area rt2 s reqs.
Proof.
  intros Hlow.
  destruct (generate_room_layout_items area s reqs)
    as (chosen & filled & _ & _ & _ & _ & Hrun).
  rewrite !Hrun. unfold finished.
  by rewrite (generate_layout_description_lower filled s rt1 rt2 Hlow).
Qed.

Lemma room_type_matters_up_to_letter_case_witness :
  generate_room_layout (Float.mul (Float.of_Z 5) (Float.of_Z 4)) "Bedroom" "Modern"
    (get_furniture_requirements "Bedroom")
  = generate_room_layout (Float.mul (Float.of_Z 5) (Float.of_Z 4)) "BEDROOM" "Modern"
      (get_furniture_requirements "Bedroom").
Proof.
  apply (room_type_matters_up_to_letter_case _ "Bedroom" "BEDROOM"). reflexivity.
Defined.

(** X11.  The description and the features stored in a returned option
    are those of the option as it is returned: they are computed from its
    final furniture and cost, and the description reads the room type
    lowered. *)
Theorem option_text_describes_the_option_itself
    (area : float) (room_type s : string) (reqs : list Requirement) :
  ∃ layouts,
    generate_room_layout area room_type s reqs = Ok layouts
    ∧ Forall (λ o,
        description o = generate_layout_description o s room_type
        ∧ features o = generate_layout_features o s
        ∧ description o = generate_layout_description o s (lower room_type)) layouts.
Proof.
  destruct (generate_room_layout_items area s reqs)
    as (chosen & filled & _ & _ & _ & _ & Hrun).
  eexists. split; [exact (Hrun room_type)|].
  assert (generate_layout_description filled s room_type
          = generate_layout_description filled s (lower room_type)) as E.
  { apply generate_layout_description_lower. by rewrite lower_idemp. }
  repeat apply Forall_cons_2; try apply Forall_nil_2; by split.
Qed.

(** ** First fit *)

Lemma elem_of_py_range n x : x ∈ py_range n ↔ 0 ≤ x < n.
Proof.
  unfold py_range. rewrite list_elem_of_fmap. split.
  - intros (k & -> & Hk%elem_of_seq). lia.
  - intros Hx. exists (Z.to_nat x). split; [lia|]. apply elem_of_seq. lia.
Qed.

Lemma first_some_seq {B : Type} (f : Z → option B) (s k : nat) :
  match first_some f (Z.of_nat <$> seq s k) with
  | Some b =>
      ∃ i, (s ≤ i < s + k)%nat ∧ f (Z.of_nat i) = Some b
           ∧ ∀ j, (s ≤ j < i)%nat → f (Z.of_nat j) = None
  | None => ∀ j, (s ≤ j < s + k)%nat → f (Z.of_nat j) = None
  end.
Proof.
  revert s. induction k as [|k IH]; intros s; cbn [seq fmap list_fmap first_some].
  { intros j Hj. lia. }
  destruct (f (Z.of_nat s)) as [b|] eqn:Hs.
  - exists s. split; [lia|]. split; [done|]. intros j Hj. lia.
  - specialize (IH (S s)).
    destruct (first_some f (Z.of_nat <$> seq (S s) k)) as [b|].
    + destruct IH as (i & Hi & Hf & Hbefore). exists i. split; [lia|].
      split; [done|]. intros j Hj.
      destruct (decide (j = s)) as [->|]; [done|]. apply Hbefore. lia.
    + intros j Hj. destruct (decide (j = s)) as [->|]; [done|]. apply IH. lia.
Qed.

(** A search over [range(n)] returns at the first index where the body
    returns. *)
Lemma first_some_py_range {B : Type} (f : Z → option B) (n : Z) :
  match first_some f (py_range n) with
  | Some b => ∃ x, 0 ≤ x < n ∧ f x = Some b ∧ ∀ x', 0 ≤ x' < x → f x' = None
  | None => ∀ x', 0 ≤ x' < n → f x' = None
  end.
Proof.
  unfold py_range. pose proof (first_some_seq f 0 (Z.to_nat n)) as H.
  destruct (first_some f (Z.of_nat <$> seq 0 (Z.to_nat n))) as [b|].
  - destruct H as (i & Hi & Hf & Hbefore). exists (Z.of_nat i).
    split; [lia|]. split; [done|]. intros x' Hx'.
    rewrite <-(Z2Nat.id x') by lia. apply Hbefore. lia.
  - intros x' Hx'. rewrite <-(Z2Nat.id x') by lia. apply H. lia.
Qed.

(** X12.  [find_furniture_position] is a first fit in row-major order.
    The position it returns is in range ([0 <= x <= grid_width -
    item_length], [0 <= y <= grid_height - item_width]), its block has no
    occupied cell, and the block of every position of the range that comes
    before it (a smaller [y], or the same [y] and a smaller [x]) has an
    occupied cell.  It returns [None] only when the block of every position
    of the range has an occupied cell. *)
Theorem find_furniture_position_first_fit
    (occupancy_grid : ndarray) (item_length item_width : Z) (grid_size : float) :
  let grid_height := (shape occupancy_grid).1 in
  let grid_width := (shape occupancy_grid).2 in
  let occupied x y :=
    np_any occupancy_grid (block_at x y item_length item_width) in
  match find_furniture_position occupancy_grid item_length item_width grid_size with
  | Some (x, y) =>
      0 ≤ x ≤ grid_width - item_length
      ∧ 0 ≤ y ≤ grid_height - item_width
      ∧ occupied x y = false
      ∧ ∀ x' y', 0 ≤ x' ≤ grid_width - item_length →
                 0 ≤ y' ≤ grid_height - item_width →
                 y' < y ∨ (y' = y ∧ x' < x) →
                 occupied x' y' = true
  | None =>
      ∀ x' y', 0 ≤ x' ≤ grid_width - item_length →
               0 ≤ y' ≤ grid_height - item_width →
               occupied x' y' = true
  end.
Proof.
  cbv zeta. unfold find_furniture_position.
  destruct (shape occupancy_grid) as [h w]. cbn [fst snd].
  set (row y := first_some (λ x,
    if negb (np_any occupancy_grid (block_at x y item_length item_width))
    then Some (x, y) else None) (py_range (w - item_length + 1))).
  assert (∀ y, match row y with
    | Some (x, y') =>
        y' = y ∧ 0 ≤ x ≤ w - item_length
        ∧ np_any occupancy_grid (block_at x y item_length item_width) = false
        ∧ ∀ x', 0 ≤ x' < x →
            np_any occupancy_grid (block_at x' y item_length item_width) = true
    | None => ∀ x', 0 ≤ x' ≤ w - item_length →
            np_any occupancy_grid (block_at x' y item_length item_width) = true
    end) as Hrow.
  { intros y. unfold row.
    pose proof (first_some_py_range (λ x,
      if negb (np_any occupancy_grid (block_at x y item_length item_width))
      then Some (x, y) else None) (w - item_length + 1)) as H.
    destruct (first_some _ (py_range (w - item_length + 1))) as [[x y']|].
    - destruct H as (x0 & Hx0 & Hf & Hbefore).
      destruct (np_any occupancy_grid (block_at x0 y item_length item_width)) eqn:E;
        [done|]. injection Hf as <- <-.
      split; [done|]. split; [lia|]. split; [done|]. intros x' Hx'.
      specialize (Hbefore x' Hx').
      by destruct (np_any occupancy_grid (block_at x' y item_length item_width)).
    - intros x' Hx'. specialize (H x'). 
      destruct (np_any occupancy_grid (block_at x' y item_length item_width));
        [done|]. discriminate H. lia. }
  pose proof (first_some_py_range row (h - item_width + 1)) as H.
  fold row.
  destruct (first_some row (py_range (h - item_width + 1))) as [[x y]|].
  - destruct H as (y0 & Hy0 & Hf & Hbefore).
    pose proof (Hrow y0) as Hy. rewrite Hf in Hy.
    destruct Hy as (-> & Hx & Hfree & Hleft).
    split; [done|]. split; [lia|]. split; [done|].
    intros x' y' Hx' Hy' [Hlt|[-> Hlt]].
    + pose proof (Hrow y') as Hy. rewrite Hbefore in Hy by lia. by apply Hy.
    + apply Hleft. lia.
  - intros x' y' Hx' Hy'.
    pose proof (Hrow y') as Hy. rewrite H in Hy by lia. by apply Hy.
Qed.

Lemma find_furniture_position_range grid item_length item_width grid_size x y :
  find_furniture_position grid item_length item_width grid_size = Some (x, y) →
  0 ≤ x ≤ (shape grid).2 - item_length ∧ 0 ≤ y ≤ (shape grid).1 - item_width.
Proof.
  unfold find_furniture_position. destruct (shape grid) as [h w]. cbn [fst snd].
  intros (y' & Hy%elem_of_py_range
          & (x' & Hx%elem_of_py_range & Hfree)%first_some_Some)%first_some_Some.
  destruct (np_any grid (block_at x' y' item_length item_width));
    simpl in Hfree; [done|]. injection Hfree as -> ->. lia.
Qed.

(** ** Placement within the grid *)

(** What is known of a placed item, in grid units, for a grid of
    [grid_length] columns and [grid_width] rows. *)

Lemma placed_within_loop grid_length grid_width items grid0 st :
  shape grid0 = (grid_width, grid_length) →
  for_each (place_item_ghost half) items (grid0, []) = Ok st →
  shape st.1 = (grid_width, grid_length)
  ∧ Forall (λ p, ∃ x y item_length item_width,
      grid_units (dim_length (dimensions (placed p))) half = Ok item_length
      ∧ grid_units (dim_width (dimensions (placed p))) half = Ok item_width
      ∧ scale x half = Ok (position p).1
      ∧ scale y half = Ok (position p).2
      ∧ 0 ≤ x ∧ x + item_length ≤ grid_length
      ∧ 0 ≤ y ∧ y + item_width ≤ grid_width) st.2.*1.
Proof.
  intros Hshape Hloop. set (Q := λ p : PositionedItem, ∃ _ _ _ _, _).
  apply (for_each_inv
           (λ t : ndarray * list (PositionedItem * Block),
              shape t.1 = (grid_width, grid_length) ∧ Forall Q t.2.*1)
           _ _ _ _) with (3 := Hloop).
  - split; [exact Hshape|]. constructor.
  - intros [g t] item [g' t'] _ [Hs Hall] Hstep. cbn [fst snd] in *.
    apply place_item_ghost_Ok in Hstep
      as (il & iw & Hil & Hiw & [(_ & -> & ->)|Hplaced]); [done|].
    destruct Hplaced as (x & y & px & py & Hfind & Hpx & Hpy & -> & ->).
    split; [done|]. rewrite fmap_app. apply Forall_app. split; [done|].
    apply Forall_singleton. unfold Q. cbn [fst placed position snd].
    apply find_furniture_position_range in Hfind. rewrite Hs in Hfind.
    cbn [fst snd] in Hfind.
    exists x, y, il, iw. repeat split; try done; lia.
Qed.

(** X13.  Every item [position_furniture] places lies within the grid:
    its position is a grid position [(x, y)] scaled by the grid size, with
    [0 <= x], [x + item_length <= grid_length], [0 <= y] and
    [y + item_width <= grid_width].  An item with more cells than the grid
    in a direction is therefore never placed. *)
Theorem placed_items_lie_within_the_grid
    (furniture : list FurnitureItem) (room_length room_width : float)
    (out : list PositionedItem) (grid_length grid_width : Z) :
  position_furniture furniture room_length room_width = Ok out →
  grid_units room_length half = Ok grid_length →
  grid_units room_width half = Ok grid_width →
  Forall (λ p, ∃ x y item_length item_width,
    grid_units (dim_length (dimensions (placed p))) half = Ok item_length
    ∧ grid_units (dim_width (dimensions (placed p))) half = Ok item_width
    ∧ scale x half = Ok (position p).1
    ∧ scale y half = Ok (position p).2
    ∧ 0 ≤ x ∧ x + item_length ≤ grid_length
    ∧ 0 ≤ y ∧ y + item_width ≤ grid_width) out.
Proof.
  rewrite position_furniture_erase. intros Hrun Hgl Hgw.
  destruct (position_furniture_ghost furniture room_length room_width)
    as [[grid trace]|] eqn:Hghost; [|done].
  injection Hrun as <-.
  apply position_furniture_ghost_Ok in Hghost
    as (gl & gw & grid0 & Hgl' & Hgw' & Hzeros & Hloop).
  rewrite Hgl in Hgl'. rewrite Hgw in Hgw'.
  injection Hgl' as <-. injection Hgw' as <-.
  apply np_zeros_Ok in Hzeros as (_ & Hshape & _).
  by destruct (placed_within_loop _ _ _ _ _ Hshape Hloop) as [_ Hall].
Qed.

Lemma placed_items_lie_within_the_grid_witness :
  ∃ out,
    position_furniture sample_furniture (Float.of_Z 5) (Float.of_Z 4) = Ok out
    ∧ grid_units (Float.of_Z 5) half = Ok 10
    ∧ grid_units (Float.of_Z 4) half = Ok 8
    ∧ Forall (λ p, ∃ x y item_length item_width,
        grid_units (dim_length (dimensions (placed p))) half = Ok item_length
        ∧ grid_units (dim_width (dimensions (placed p))) half = Ok item_width
        ∧ scale x half = Ok (position p).1
        ∧ scale y half = Ok (position p).2
        ∧ 0 ≤ x ∧ x + item_length ≤ 10
        ∧ 0 ≤ y ∧ y + item_width ≤ 8) out.
Proof.
  eexists. split; [by vm_compute|]. split; [by vm_compute|]. split; [by vm_compute|].
  apply (placed_items_lie_within_the_grid sample_furniture
           (Float.of_Z 5) (Float.of_Z 4)); by vm_compute.
Defined.

(** ** Rounding

    What is needed of the rounding of [SpecFloat]: the two shifts of
    [binary_round_aux] spelled out, a bound under which the result is
    finite and one above which it is an infinity. *)

Lemma digits2_pos_lower (m : positive) : 2 ^ (Z.pos (digits2_pos m) - 1) ≤ Z.pos m.
Proof.
  induction m as [m IH|m IH|]; simpl; [| |done].
  - rewrite Pos2Z.inj_succ. replace (Z.succ (Z.pos (digits2_pos m)) - 1)
      with (Z.succ (Z.pos (digits2_pos m) - 1)) by lia.
    rewrite Z.pow_succ_r by lia. lia.
  - rewrite Pos2Z.inj_succ. replace (Z.succ (Z.pos (digits2_pos m)) - 1)
      with (Z.succ (Z.pos (digits2_pos m) - 1)) by lia.
    rewrite Z.pow_succ_r by lia. lia.
Qed.

Lemma digits2_pos_iter_xO (m k : positive) :
  Z.pos (digits2_pos (Pos.iter xO m k)) = Z.pos (digits2_pos m) + Z.pos k.
Proof.
  induction k as [|k IH] using Pos.peano_ind.
  - simpl. lia.
  - rewrite Pos.iter_succ. simpl. lia.
Qed.

Lemma fexp_eq (k : Z) : fexp Float.prec Float.emax k = Z.max (k - 53) (-1074).
Proof. reflexivity. Qed.

Lemma Zdigits2_bounds (m : Z) :
  0 < m → 0 < Zdigits2 m ∧ 2 ^ (Zdigits2 m - 1) ≤ m < 2 ^ Zdigits2 m.
Proof.
  destruct m as [|p|p]; [lia| |lia]. intros _. cbn [Zdigits2].
  split; [lia|]. split; [apply digits2_pos_lower|apply digits2_pos_bound].
Qed.

Lemma Zdigits2_nonneg (m : Z) : 0 ≤ Zdigits2 m.
Proof. destruct m; cbn [Zdigits2]; lia. Qed.

Lemma Zdigits2_le (m k : Z) : 0 ≤ k → 0 ≤ m < 2 ^ k → Zdigits2 m ≤ k.
Proof.
  intros Hk [Hm Hlt]. destruct (Z.eq_dec m 0) as [->|Hne]; [done|].
  destruct (Zdigits2_bounds m) as (Hd & Hlow & _); [lia|].
  destruct (Z.le_gt_cases (Zdigits2 m) k) as [|Hgt]; [done|].
  assert (2 ^ k ≤ 2 ^ (Zdigits2 m - 1)) by (apply Z.pow_le_mono_r; lia). lia.
Qed.

Lemma Zdigits2_ge (m k : Z) : 2 ^ (k - 1) ≤ m → 1 ≤ k → k ≤ Zdigits2 m.
Proof.
  intros Hlow Hk.
  assert (0 < 2 ^ (k - 1)) by (apply Z.pow_pos_nonneg; lia).
  destruct (Zdigits2_bounds m) as (Hd & _ & Hup); [lia|].
  destruct (Z.le_gt_cases k (Zdigits2 m)) as [|Hgt]; [done|].
  assert (2 ^ Zdigits2 m ≤ 2 ^ (k - 1)) by (apply Z.pow_le_mono_r; lia). lia.
Qed.

Lemma shr_1_spec (mrs : shr_record) :
  0 ≤ shr_m mrs → shr_m (shr_1 mrs) = shr_m mrs / 2.
Proof.
  destruct mrs as [m r s]. cbn [shr_m]. intros Hm.
  destruct m as [|[p|p|]|]; cbn [shr_1 shr_m]; [done| | |done|lia].
  - rewrite (Pos2Z.inj_xI p), Z.mul_comm, Z.div_add_l by lia.
    change (1 / 2) with 0. lia.
  - rewrite (Pos2Z.inj_xO p), Z.mul_comm, Z.div_mul by lia. done.
Qed.

Lemma iter_shr_1 (n : positive) (mrs : shr_record) :
  0 ≤ shr_m mrs →
  shr_m (SpecFloat.iter_pos shr_1 n mrs) = shr_m mrs / 2 ^ Z.pos n.
Proof.
  revert mrs. induction n as [n IH|n IH|]; intros mrs Hm; cbn [SpecFloat.iter_pos].
  - pose proof (shr_1_spec mrs Hm) as H1.
    assert (0 ≤ shr_m (shr_1 mrs)) as Hm1 by (rewrite H1; by apply Z.div_pos).
    pose proof (IH _ Hm1) as H2.
    assert (0 < 2 ^ Z.pos n) as Hp by (by apply Z.pow_pos_nonneg).
    assert (0 ≤ shr_m (SpecFloat.iter_pos shr_1 n (shr_1 mrs))) as Hm2.
    { rewrite H2. by apply Z.div_pos. }
    rewrite (IH _ Hm2), H2, H1.
    rewrite (Pos2Z.inj_xI n).
    replace (2 * Z.pos n + 1) with (1 + Z.pos n + Z.pos n) by lia.
    rewrite !Z.pow_add_r, Z.pow_1_r by lia.
    rewrite !Z.div_div by lia. f_equal. lia.
  - pose proof (IH _ Hm) as H2.
    assert (0 < 2 ^ Z.pos n) as Hp by (by apply Z.pow_pos_nonneg).
    assert (0 ≤ shr_m (SpecFloat.iter_pos shr_1 n mrs)) as Hm2.
    { rewrite H2. by apply Z.div_pos. }
    rewrite (IH _ Hm2), H2.
    rewrite (Pos2Z.inj_xO n).
    replace (2 * Z.pos n) with (Z.pos n + Z.pos n) by lia.
    rewrite !Z.pow_add_r by lia.
    rewrite !Z.div_div by lia. f_equal.
  - by rewrite shr_1_spec.
Qed.

(** [shr] divides the mantissa by [2^n] and adds [n] to the exponent, for
    a positive [n]; it does nothing otherwise. *)
Lemma shr_spec (mrs : shr_record) (e n : Z) :
  0 ≤ shr_m mrs →
  shr_m (shr mrs e n).1 = shr_m mrs / 2 ^ Z.max n 0
  ∧ (shr mrs e n).2 = e + Z.max n 0.
Proof.
  intros Hm. destruct n as [|p|p]; cbn [shr fst snd].
  - rewrite Z.div_1_r. split; [done|lia].
  - rewrite iter_shr_1 by done. by rewrite Z.max_l by lia.
  - rewrite Z.max_r by lia. rewrite Z.div_1_r. split; [done|lia].
Qed.

Lemma shr_fexp_spec (m e : Z) (l : location) :
  0 ≤ m →
  let n := Z.max (Z.max (Zdigits2 m + e - 53) (-1074) - e) 0 in
  shr_m (shr_fexp Float.prec Float.emax m e l).1 = m / 2 ^ n
  ∧ (shr_fexp Float.prec Float.emax m e l).2 = e + n.
Proof.
  intros Hm n. unfold shr_fexp. rewrite fexp_eq.
  assert (shr_m (shr_record_of_loc m l) = m) as Hrec.
  { by destruct l as [|[]]. }
  pose proof (shr_spec (shr_record_of_loc m l) e
                (Z.max (Zdigits2 m + e - 53) (-1074) - e)) as H.
  rewrite Hrec in H. by apply H.
Qed.

Lemma round_nearest_even_bounds (m : Z) (l : location) :
  m ≤ round_nearest_even m l ≤ m + 1.
Proof.
  destruct l as [|[]]; cbn [round_nearest_even]; [lia| |lia|lia].
  destruct (Z.even m); lia.
Qed.

(** The two shifts and the rounding between them, spelled out. *)
Lemma binary_round_aux_cases (sx : bool) (mx ex : Z) (lx : location) :
  0 ≤ mx →
  ∃ m1 mr : Z,
    let n1 := Z.max (Z.max (Zdigits2 mx + ex - 53) (-1074) - ex) 0 in
    let e1 := ex + n1 in
    let n2 := Z.max (Z.max (Zdigits2 mr + e1 - 53) (-1074) - e1) 0 in
    let e2 := e1 + n2 in
    m1 = mx / 2 ^ n1
    ∧ m1 ≤ mr ≤ m1 + 1
    ∧ binary_round_aux Float.prec Float.emax sx mx ex lx
      = match mr / 2 ^ n2 with
        | 0 => S754_zero sx
        | Z.pos m => if e2 <=? 971 then S754_finite sx m e2 else S754_infinity sx
        | Z.neg _ => S754_nan
        end.
Proof.
  intros Hm.
  destruct (shr_fexp_spec mx ex lx Hm) as [H1m H1e].
  unfold binary_round_aux.
  destruct (shr_fexp Float.prec Float.emax mx ex lx) as [mrs1 e1] eqn:Hshr1.
  cbn [fst snd] in H1m, H1e.
  set (mr := round_nearest_even (shr_m mrs1) (loc_of_shr_record mrs1)).
  assert (0 ≤ shr_m mrs1) as Hm1.
  { rewrite H1m. apply Z.div_pos; [done|]. apply Z.pow_pos_nonneg; lia. }
  pose proof (round_nearest_even_bounds (shr_m mrs1) (loc_of_shr_record mrs1)) as Hr.
  fold mr in Hr.
  assert (0 ≤ mr) as Hmr by lia.
  destruct (shr_fexp_spec mr e1 loc_Exact Hmr) as [H2m H2e].
  destruct (shr_fexp Float.prec Float.emax mr e1 loc_Exact) as [mrs2 e2] eqn:Hshr2.
  cbn [fst snd] in H2m, H2e.
  exists (shr_m mrs1), mr. cbv zeta. rewrite <-H1e, <-H2e, <-H2m.
  split; [done|]. split; [done|]. reflexivity.
Qed.

Lemma pow2_split (a b : Z) : 0 ≤ a → 0 ≤ b → 2 ^ (a + b) = 2 ^ a * 2 ^ b.
Proof. intros. by rewrite Z.pow_add_r. Qed.

(** A mantissa that is aligned on the format and below the largest double
    plus half an ulp rounds to a finite float. *)
Lemma binary_round_aux_finite (sx : bool) (mx ex : Z) (lx : location) :
  0 ≤ mx → ex ≤ 971 →
  ex ≤ Z.max (Zdigits2 mx + ex - 53) (-1074) →
  mx < (2 ^ 53 - 1) * 2 ^ (971 - ex) →
  Float.isfinite (binary_round_aux Float.prec Float.emax sx mx ex lx) = true.
Proof.
  intros Hmx Hex Haligned Hbound.
  destruct (binary_round_aux_cases sx mx ex lx Hmx) as (m1 & mr & Hm1 & Hr & ->).
  cbv zeta in *.
  set (e1 := ex + Z.max (Z.max (Zdigits2 mx + ex - 53) (-1074) - ex) 0) in *.
  assert (0 < 2 ^ (971 - ex)) as Hpow by (apply Z.pow_pos_nonneg; lia).
  assert (Zdigits2 mx ≤ 1024 - ex) as Hdigits.
  { apply Zdigits2_le; [lia|]. split; [done|].
    replace (1024 - ex) with (53 + (971 - ex)) by lia.
    rewrite pow2_split by lia. nia. }
  assert (e1 - ex = Z.max (Zdigits2 mx + ex - 53) (-1074) - ex) as Hn1 by lia.
  assert (0 < 2 ^ (e1 - ex)) as Hpow1 by (apply Z.pow_pos_nonneg; lia).
  replace (Z.max (Z.max (Zdigits2 mx + ex - 53) (-1074) - ex) 0)
    with (e1 - ex) in Hm1 by lia.
  assert (m1 < 2 ^ 53) as Hm1_53.
  { rewrite Hm1. apply Z.div_lt_upper_bound; [done|].
    destruct (Z.eq_dec mx 0) as [->|Hne]; [lia|].
    destruct (Zdigits2_bounds mx) as (Hd & _ & Hup); [lia|].
    assert (2 ^ Zdigits2 mx ≤ 2 ^ (e1 - ex + 53)) as Hle
      by (apply Z.pow_le_mono_r; lia).
    rewrite pow2_split in Hle by lia. lia. }
  assert (e1 = 971 → m1 < 2 ^ 53 - 1) as Hm1_971.
  { intros He1. rewrite Hm1. apply Z.div_lt_upper_bound; [done|].
    rewrite He1. lia. }
  assert (0 ≤ m1) as Hm1_0.
  { rewrite Hm1. by apply Z.div_pos. }
  assert (Zdigits2 mr ≤ 54) as Hdr.
  { apply Zdigits2_le; [lia|]. change (2 ^ 54) with (2 * 2 ^ 53). lia. }
  assert (e1 = 971 → Zdigits2 mr ≤ 53) as Hdr_971.
  { intros He1. apply Zdigits2_le; [lia|]. specialize (Hm1_971 He1). lia. }
  set (n2 := Z.max (Z.max (Zdigits2 mr + e1 - 53) (-1074) - e1) 0).
  assert (0 < 2 ^ n2) as Hpow2 by (apply Z.pow_pos_nonneg; lia).
  assert (0 ≤ mr / 2 ^ n2) as Hpos by (apply Z.div_pos; lia).
  destruct (mr / 2 ^ n2) as [|m2|m2]; [done| |lia].
  destruct (Z.leb_spec (e1 + n2) 971) as [|Hgt]; [done|].
  exfalso. destruct (Z.eq_dec e1 971) as [He1|He1].
  - specialize (Hdr_971 He1). lia.
  - lia.
Qed.

(** A mantissa whose leading bit is at or above [2^1024] rounds to an
    infinity. *)
Lemma shifted_mantissa_pos (m : Z) :
  0 < m → 0 < m / 2 ^ Z.max (Zdigits2 m - 53) 0.
Proof.
  intros Hm. destruct (Zdigits2_bounds m Hm) as (Hd & Hlow & _).
  destruct (Z.le_gt_cases (Zdigits2 m) 53) as [Hle|Hgt].
  - rewrite Z.max_r by lia. by rewrite Z.div_1_r.
  - rewrite Z.max_l by lia.
    assert (0 < 2 ^ (Zdigits2 m - 53)) by (apply Z.pow_pos_nonneg; lia).
    apply Z.lt_le_trans with (2 ^ 52); [done|].
    apply Z.div_le_lower_bound; [done|].
    rewrite <-pow2_split by lia.
    by replace (Zdigits2 m - 53 + 52) with (Zdigits2 m - 1) by lia.
Qed.

Lemma binary_round_aux_overflow (sx : bool) (mx ex : Z) (lx : location) :
  0 < mx → 1025 ≤ Zdigits2 mx + ex →
  binary_round_aux Float.prec Float.emax sx mx ex lx = S754_infinity sx.
Proof.
  intros Hmx Hbig.
  destruct (binary_round_aux_cases sx mx ex lx) as (m1 & mr & Hm1 & Hr & ->);
    [lia|].
  cbv zeta in *.
  set (n1 := Z.max (Z.max (Zdigits2 mx + ex - 53) (-1074) - ex) 0) in *.
  assert (n1 = Z.max (Zdigits2 mx - 53) 0) as Hn1 by lia.
  pose proof (shifted_mantissa_pos mx Hmx) as Hm1_pos.
  rewrite <-Hn1, <-Hm1 in Hm1_pos.
  assert (0 < mr) as Hmr by lia.
  pose proof (Zdigits2_nonneg mx). pose proof (Zdigits2_nonneg mr).
  set (n2 := Z.max (Z.max (Zdigits2 mr + (ex + n1) - 53) (-1074) - (ex + n1)) 0).
  assert (n2 = Z.max (Zdigits2 mr - 53) 0) as Hn2 by lia.
  pose proof (shifted_mantissa_pos mr Hmr) as Hm2_pos.
  rewrite <-Hn2 in Hm2_pos.
  destruct (mr / 2 ^ n2) as [|m2|m2]; [lia| |lia].
  destruct (Z.leb_spec (ex + n1 + n2) 971) as [|Hgt]; [lia|done].
Qed.

Lemma Pos_iter_xO (m k : positive) : Z.pos (Pos.iter xO m k) = Z.pos m * 2 ^ Z.pos k.
Proof.
  induction k as [|k IH] using Pos.peano_ind.
  - simpl. lia.
  - rewrite Pos.iter_succ, Pos2Z.inj_succ, Z.pow_succ_r by lia.
    rewrite (Pos2Z.inj_xO (Pos.iter xO m k)), IH. lia.
Qed.

Lemma shl_align_spec (m : positive) (e e' : Z) :
  let d := Z.max (e - e') 0 in
  Z.pos (shl_align m e e').1 = Z.pos m * 2 ^ d
  ∧ (shl_align m e e').2 = e - d
  ∧ Z.pos (digits2_pos (shl_align m e e').1) = Z.pos (digits2_pos m) + d.
Proof.
  cbv zeta. unfold shl_align. destruct (e' - e) as [|d|d] eqn:Hd; cbn [fst snd].
  - rewrite Z.max_r by lia. lia.
  - rewrite Z.max_r by lia. lia.
  - change (PosDef.Pos.iter xO m d) with (Pos.iter xO m d).
    rewrite Pos_iter_xO, digits2_pos_iter_xO.
    replace (Z.max (e - e') 0) with (Z.pos d) by lia. lia.
Qed.

Lemma binary_round_finite (sx : bool) (mx : positive) (ex : Z) :
  ex ≤ 971 → Z.pos mx < (2 ^ 53 - 1) * 2 ^ (971 - ex) →
  Float.isfinite (binary_round Float.prec Float.emax sx mx ex) = true.
Proof.
  intros Hex Hbound. unfold binary_round. rewrite fexp_eq.
  set (e' := Z.max (Z.pos (digits2_pos mx) + ex - 53) (-1074)).
  destruct (shl_align_spec mx ex e') as (Hm & He & Hd).
  destruct (shl_align mx ex e') as [mz ez]. cbn [fst snd] in Hm, He, Hd.
  set (d := Z.max (ex - e') 0) in *.
  assert (0 < 2 ^ d) by (apply Z.pow_pos_nonneg; lia).
  assert (0 < 2 ^ (971 - ex)) by (apply Z.pow_pos_nonneg; lia).
  apply binary_round_aux_finite; [lia|lia| |].
  - cbn [Zdigits2]. rewrite Hd. lia.
  - rewrite Hm, He. replace (971 - (ex - d)) with (971 - ex + d) by lia.
    rewrite pow2_split by lia. nia.
Qed.

(** [float(z)] overflows only beyond the largest double. *)
Lemma of_Z_finite (z : Z) :
  Z.abs z < (2 ^ 53 - 1) * 2 ^ 971 → Float.isfinite (Float.of_Z z) = true.
Proof.
  intros Hz. unfold Float.of_Z, binary_normalize.
  destruct z as [|m|m]; [done| |]; apply binary_round_finite; try done; lia.
Qed.

Lemma of_int_Ok (z : Z) :
  Z.abs z < (2 ^ 53 - 1) * 2 ^ 971 → ∃ f, Float.of_int z = Ok f.
Proof.
  intros Hz%of_Z_finite. unfold Float.of_int.
  destruct (Float.of_Z z); try discriminate Hz; by eexists.
Qed.

Lemma int64_fits_double : 2 ^ 63 ≤ (2 ^ 53 - 1) * 2 ^ 971.
Proof. apply Z.leb_le. by vm_compute. Qed.

Lemma scale_Ok (k : Z) (grid_size : float) :
  Z.abs k < 2 ^ 63 → ∃ p, scale k grid_size = Ok p.
Proof.
  intros Hk. pose proof int64_fits_double.
  destruct (of_int_Ok k) as [f Hf]; [lia|].
  unfold scale. rewrite Hf, bind_Ok_l. by eexists.
Qed.

(** ** A room that converts to grid units has finite axis limits *)

Lemma div_half_overflow (s : bool) (m : positive) (e : Z) :
  1024 ≤ Z.pos (digits2_pos m) + e →
  SFdiv Float.prec Float.emax (S754_finite s m e) half = S754_infinity (xorb s false).
Proof.
  intros Hbig. rewrite half_eq. unfold SFdiv, SFdiv_core_binary.
  rewrite fexp_eq.
  change (Zdigits2 (Z.pos 4503599627370496)) with 53.
  change (Zdigits2 (Z.pos m)) with (Z.pos (digits2_pos m)).
  set (d := Z.pos (digits2_pos m)) in *.
  set (e' := IntDef.Z.min (Z.max (d + e - (53 + -53) - 53) (-1074)) (e - -53)).
  assert (e' = Z.min (d + e - 53) (e + 53)) as He'.
  { unfold e'. change IntDef.Z.min with Z.min. lia. }
  set (m' := match e - -53 - e' with
             | 0 => Z.pos m
             | Z.pos _ => IntDef.Z.shiftl (Z.pos m) (e - -53 - e')
             | Z.neg _ => 0
             end).
  assert (m' = Z.pos m * 2 ^ (e + 53 - e')) as Hm'.
  { unfold m'. replace (e - -53 - e') with (e + 53 - e') by lia.
    destruct (e + 53 - e') as [|k|k] eqn:Hk; [lia| |lia].
    change IntDef.Z.shiftl with Z.shiftl. by rewrite Z.shiftl_mul_pow2. }
  pose proof (digits2_pos_lower m) as Hlow. fold d in Hlow.
  assert (0 < d) as Hd by (unfold d; lia).
  assert (0 < 2 ^ (e + 53 - e')) as Hpow by (apply Z.pow_pos_nonneg; lia).
  assert (2 ^ (d + (e + 53 - e') - 53) * 2 ^ 52 ≤ m') as Hm'_low.
  { rewrite <-pow2_split by lia.
    replace (d + (e + 53 - e') - 53 + 52) with (d - 1 + (e + 53 - e')) by lia.
    rewrite pow2_split, Hm' by lia. nia. }
  assert (0 < 2 ^ (d + (e + 53 - e') - 53)) as Hpowq
    by (apply Z.pow_pos_nonneg; lia).
  change (IntDef.Z.div_eucl m' (Z.pos 4503599627370496))
    with (Z.div_eucl m' (2 ^ 52)).
  pose proof (Z.div_le_lower_bound m' (2 ^ 52) (2 ^ (d + (e + 53 - e') - 53)))
    as Hq.
  unfold Z.div in Hq.
  destruct (Z.div_eucl m' (2 ^ 52)) as [q r].
  assert (2 ^ (d + (e + 53 - e') - 53) ≤ q) as Hq_low by (apply Hq; lia).
  apply binary_round_aux_overflow; [lia|].
  assert (d + (e + 53 - e') - 52 ≤ Zdigits2 q); [|lia].
  apply Zdigits2_ge; [|lia].
  by replace (d + (e + 53 - e') - 52 - 1) with (d + (e + 53 - e') - 53) by lia.
Qed.

Lemma add_half_finite (s : bool) (m : positive) (e : Z) :
  Z.pos (digits2_pos m) + e ≤ 1023 →
  Float.isfinite (Float.add (S754_finite s m e) half) = true.
Proof.
  intros Hsmall. rewrite half_eq. unfold Float.add, SFadd.
  change (IntDef.Z.min e (-53)) with (Z.min e (-53)).
  set (ez := Z.min e (-53)).
  destruct (shl_align_spec m e ez) as (Hm & _ & _).
  destruct (shl_align_spec 4503599627370496 (-53) ez) as (Hc & _ & _).
  set (a := Z.pos (shl_align m e ez).1) in *.
  set (c := Z.pos (shl_align 4503599627370496 (-53) ez).1) in *.
  replace (Z.max (e - ez) 0) with (e - ez) in Hm by lia.
  replace (Z.max (-53 - ez) 0) with (-53 - ez) in Hc by lia.
  change (Z.pos 4503599627370496) with (2 ^ 52) in Hc.
  pose proof (digits2_pos_bound m) as Hup.
  assert (0 < 2 ^ (-53 - ez)) as Hpow by (apply Z.pow_pos_nonneg; lia).
  assert (0 < 2 ^ (e - ez)) as Hpow' by (apply Z.pow_pos_nonneg; lia).
  assert (a < 2 ^ 1076 * 2 ^ (-53 - ez)) as Ha.
  { rewrite <-pow2_split by lia.
    replace (1076 + (-53 - ez)) with (1023 - e + (e - ez)) by lia.
    rewrite pow2_split, Hm by lia.
    assert (2 ^ Z.pos (digits2_pos m) ≤ 2 ^ (1023 - e))
      by (apply Z.pow_le_mono_r; lia).
    nia. }
  assert ((2 ^ 53 - 1) * 2 ^ (971 - ez) = (2 ^ 53 - 1) * 2 ^ 1024 * 2 ^ (-53 - ez))
    as Hbound.
  { replace (971 - ez) with (1024 + (-53 - ez)) by lia.
    rewrite pow2_split by lia. lia. }
  assert (2 ^ 1076 + 2 ^ 52 ≤ (2 ^ 53 - 1) * 2 ^ 1024) as Hconst
    by (apply Z.leb_le; vm_compute; reflexivity).
  assert (Z.abs (cond_Zopp s a + cond_Zopp false c) < (2 ^ 53 - 1) * 2 ^ (971 - ez))
    as Hsum.
  { rewrite Hbound. cbn [cond_Zopp]. rewrite Hc.
    generalize dependent (2 ^ (-53 - ez)). intros P HP HPpos Ha.
    generalize dependent (2 ^ 1076). generalize ((2 ^ 53 - 1) * 2 ^ 1024).
    change (2 ^ 52) with 4503599627370496. intros B A HA HAB.
    destruct s; cbn [cond_Zopp]; nia. }
  clearbody a c. unfold binary_normalize.
  destruct (cond_Zopp s a + cond_Zopp false c) as [|p|p]; [done| |];
    apply binary_round_finite; lia.
Qed.

Lemma to_int_Ok_finite (q : float) (z : Z) :
  Float.to_int q = Ok z → Float.isfinite q = true.
Proof. by destruct q. Qed.

(** If [int(x / 0.5)] returns, [x + 0.5] is finite. *)
Lemma grid_units_add_half_finite (x : float) (grid_x : Z) :
  grid_units x half = Ok grid_x → Float.isfinite (Float.add x half) = true.
Proof.
  unfold grid_units, Float.div. pose proof half_eq as Hhalf.
  destruct half as [| | |sh mh eh] eqn:Hh; try discriminate Hhalf.
  rewrite bind_Ok_l. intros Hint%to_int_Ok_finite. rewrite <-Hh in *.
  destruct x as [s|s| |s m e].
  - by rewrite half_eq.
  - rewrite half_eq in Hint. by destruct s.
  - done.
  - destruct (Z.le_gt_cases (Z.pos (digits2_pos m) + e) 1023) as [Hle|Hgt].
    + by apply add_half_finite.
    + rewrite div_half_overflow in Hint by lia. done.
Qed.

(** ** No exception on well-formed input *)

(** The array that [np.zeros] returns has a shape that fits an [int64]. *)
Lemma np_zeros_Ok_bounds (h w : Z) (a : ndarray) :
  np_zeros (h, w) = Ok a → 0 ≤ h < 2 ^ 63 ∧ 0 ≤ w < 2 ^ 63.
Proof.
  unfold np_zeros, NPY_MAX_INTP, itemsize. case_bool_decide; [done|].
  case_bool_decide; [done|]. intros _. nia.
Qed.

Lemma set_block_shape grid b : shape (set_block grid b) = shape grid.
Proof. done. Qed.

(** One iteration of the loop, when the item converts to grid units. *)
Lemma place_item_Ok_cases grid positioned item item_length item_width :
  grid_units (dim_length (dimensions item)) half = Ok item_length →
  grid_units (dim_width (dimensions item)) half = Ok item_width →
  (find_furniture_position grid item_length item_width half = None
   ∧ place_item half (grid, positioned) item = Ok (grid, positioned))
  ∨ ∃ x y,
      find_furniture_position grid item_length item_width half = Some (x, y)
      ∧ ∀ px py, scale x half = Ok px → scale y half = Ok py →
          place_item half (grid, positioned) item
          = Ok (set_block grid (block_at x y item_length item_width),
                positioned ++ [{| placed := item; position := (px, py) |}]).
Proof.
  intros Hil Hiw. unfold place_item. rewrite Hil, bind_Ok_l, Hiw, bind_Ok_l.
  destruct (find_furniture_position grid item_length item_width half)
    as [[x y]|]; [right|by left].
  exists x, y. split; [done|]. intros px py -> ->. by rewrite !bind_Ok_l.
Qed.

Lemma for_each_place_item_returns grid_length grid_width items grid positioned :
  shape grid = (grid_width, grid_length) →
  grid_length < 2 ^ 63 → grid_width < 2 ^ 63 →
  Forall (λ item, ∃ item_length item_width,
    grid_units (dim_length (dimensions item)) half = Ok item_length
    ∧ grid_units (dim_width (dimensions item)) half = Ok item_width
    ∧ 0 ≤ item_length ∧ 0 ≤ item_width) items →
  ∃ st, for_each (place_item half) items (grid, positioned) = Ok st.
Proof.
  intros Hshape Hgl Hgw Hitems. revert grid positioned Hshape.
  induction Hitems as [|item items (il & iw & Hil & Hiw & Hil0 & Hiw0) _ IH];
    intros grid positioned Hshape.
  - by eexists.
  - rewrite for_each_cons.
    destruct (place_item_Ok_cases grid positioned item il iw Hil Hiw)
      as [[Hfind ->]|(x & y & Hfind & Hstep)].
    + rewrite bind_Ok_l. by apply IH.
    + apply find_furniture_position_range in Hfind. rewrite Hshape in Hfind.
      cbn [fst snd] in Hfind.
      destruct (scale_Ok x half) as [px Hpx]; [lia|].
      destruct (scale_Ok y half) as [py Hpy]; [lia|].
      rewrite (Hstep px py Hpx Hpy), bind_Ok_l. apply IH.
      by rewrite set_block_shape.
Qed.

(** X14.  [position_furniture] returns, without raising, when the room
    and the items convert to grid units, [np.zeros] returns the grid (its
    shape is not negative and not too big, and the memory suffices) and no
    item has a negative number of cells. *)
Theorem position_furniture_returns_on_well_formed_input
    (furniture : list FurnitureItem) (room_length room_width : float)
    (grid_length grid_width : Z) (occupancy_grid : ndarray) :
  grid_units room_length half = Ok grid_length →
  grid_units room_width half = Ok grid_width →
  np_zeros (grid_width, grid_length) = Ok occupancy_grid →
  Forall (λ item, ∃ item_length item_width,
    grid_units (dim_length (dimensions item)) half = Ok item_length
    ∧ grid_units (dim_width (dimensions item)) half = Ok item_width
    ∧ 0 ≤ item_length ∧ 0 ≤ item_width) furniture →
  ∃ out, position_furniture furniture room_length room_width = Ok out.
Proof.
  intros Hgl Hgw Hzeros Hitems. unfold position_furniture. fold half.
  rewrite Hgl, bind_Ok_l, Hgw, bind_Ok_l, Hzeros, bind_Ok_l.
  pose proof (np_zeros_Ok_bounds _ _ _ Hzeros) as [Hw Hl].
  apply np_zeros_Ok in Hzeros as (_ & Hshape & _).
  destruct (for_each_place_item_returns grid_length grid_width
              (py_sorted footprint true furniture) occupancy_grid [])
    as [[g out] ->]; [done|lia|lia| |by eexists].
  rewrite py_sorted_reverse_Permutation. exact Hitems.
Qed.

Lemma position_furniture_returns_on_well_formed_input_witness :
  ∃ out, position_furniture sample_furniture (Float.of_Z 5) (Float.of_Z 4) = Ok out.
Proof.
  apply (position_furniture_returns_on_well_formed_input sample_furniture
           (Float.of_Z 5) (Float.of_Z 4) 10 8
           {| shape := (8, 10);
              rows := replicate 8 (replicate 10 false) |});
    [by vm_compute|by vm_compute|by vm_compute|].
  repeat apply Forall_cons_2; try apply Forall_nil_2.
  - exists 1, 1. by vm_compute.
  - exists 4, 1. by vm_compute.
  - exists 1, 0. by vm_compute.
  - exists 4, 3. by vm_compute.
Defined.

(** ** Ill-formed items *)

Lemma for_each_Raise {S A : Type} (body : S → A → result S) xs x s :
  x ∈ xs → (∀ t, ∃ e, body t x = Raise e) → ∃ e, for_each body xs s = Raise e.
Proof.
  intros Hin Hx. revert s. induction xs as [|x' xs IH]; intros s.
  - by apply elem_of_nil in Hin.
  - rewrite for_each_cons. destruct (body s x') as [s'|e] eqn:Hstep.
    + rewrite bind_Ok_l. apply elem_of_cons in Hin as [->|Hin]; [|by apply IH].
      destruct (Hx s) as [e He]. congruence.
    + by exists e.
Qed.

Lemma grid_units_not_finite (d : float) :
  Float.is_nan d = true ∨ (∃ s, d = S754_infinity s) →
  ∃ e, grid_units d half = Raise e.
Proof.
  intros [Hnan|[s ->]].
  - destruct d; try discriminate Hnan. by eexists.
  - destruct s; by eexists.
Qed.

(** X15.  An item with a NaN or an infinite length or width is not
    dropped: whatever the room and the other items, [position_furniture]
    raises. *)
Theorem non_finite_dimension_makes_position_furniture_raise
    (furniture : list FurnitureItem) (room_length room_width : float)
    (item : FurnitureItem) :
  item ∈ furniture →
  (Float.is_nan (dim_length (dimensions item)) = true
   ∨ ∃ s, dim_length (dimensions item) = S754_infinity s)
  ∨ (Float.is_nan (dim_width (dimensions item)) = true
     ∨ ∃ s, dim_width (dimensions item) = S754_infinity s) →
  ∃ e, position_furniture furniture room_length room_width = Raise e.
Proof.
  intros Hin Hbad. unfold position_furniture. fold half.
  destruct (grid_units room_length half) as [gl|e]; [|by exists e].
  destruct (grid_units room_width half) as [gw|e]; [|by exists e].
  rewrite !bind_Ok_l.
  destruct (np_zeros (gw, gl)) as [grid0|e]; [|by exists e].
  rewrite bind_Ok_l.
  destruct (for_each_Raise (place_item half) (py_sorted footprint true furniture)
              item (grid0, [])) as [e ->]; [| |by exists e].
  - by rewrite py_sorted_reverse_Permutation.
  - intros [g t]. unfold place_item.
    destruct Hbad as [Hbad|Hbad].
    + destruct (grid_units_not_finite _ Hbad) as [e ->]. by exists e.
    + destruct (grid_units (dim_length (dimensions item)) half) as [il|e];
        [|by exists e].
      destruct (grid_units_not_finite _ Hbad) as [e ->]. by exists e.
Qed.

Lemma non_finite_dimension_makes_position_furniture_raise_witness :
  ∃ e,
    position_furniture
      [sample_item "sofa";
       {| item_type := "desk"; price := 400; style := "Minimalist";
          dimensions := {| dim_length := S754_nan; dim_width := Float.lit 6 10 |} |}]
      (Float.of_Z 5) (Float.of_Z 4) = Raise e.
Proof.
  eapply (non_finite_dimension_makes_position_furniture_raise _ _ _
            {| item_type := "desk"; price := 400; style := "Minimalist";
               dimensions := {| dim_length := S754_nan; dim_width := Float.lit 6 10 |} |}).
  - apply list_elem_of_further, list_elem_of_here.
  - left. left. reflexivity.
Defined.

(** ** Ill-formed rooms *)

Lemma grid_units_nan (d : float) :
  Float.is_nan d = true → grid_units d half = Raise ValueError.
Proof. intros Hnan. destruct d; try discriminate Hnan. reflexivity. Qed.

Lemma grid_units_infinity (s : bool) :
  grid_units (S754_infinity s) half = Raise OverflowError.
Proof. by destruct s. Qed.

(** X24.  The room is converted to grid units before any item is looked
    at, the length before the width.  A NaN length or width raises
    [ValueError] and an infinite one [OverflowError], as [int] does; a
    length or a width that converts to a negative number of cells raises
    [ValueError], as [np.zeros] does for a negative dimension; all this
    whatever the furniture list, the empty list included. *)
Theorem ill_formed_room_makes_position_furniture_raise
    (furniture : list FurnitureItem) (room_length room_width : float) :
  (Float.is_nan room_length = true →
   position_furniture furniture room_length room_width = Raise ValueError)
  ∧ ((∃ s, room_length = S754_infinity s) →
     position_furniture furniture room_length room_width = Raise OverflowError)
  ∧ ∀ grid_length,
      grid_units room_length half = Ok grid_length →
      (Float.is_nan room_width = true →
       position_furniture furniture room_length room_width = Raise ValueError)
      ∧ ((∃ s, room_width = S754_infinity s) →
         position_furniture furniture room_length room_width = Raise OverflowError)
      ∧ ∀ grid_width,
          grid_units room_width half = Ok grid_width →
          grid_length < 0 ∨ grid_width < 0 →
          position_furniture furniture room_length room_width = Raise ValueError.
Proof.
  unfold position_furniture. fold half. split; [|split].
  - intros Hnan. by rewrite (grid_units_nan _ Hnan).
  - intros [s ->]. by rewrite grid_units_infinity.
  - intros grid_length ->. rewrite bind_Ok_l. split; [|split].
    + intros Hnan. by rewrite (grid_units_nan _ Hnan).
    + intros [s ->]. by rewrite grid_units_infinity.
    + intros grid_width -> Hneg. rewrite bind_Ok_l. unfold np_zeros.
      rewrite bool_decide_eq_true_2 by lia. reflexivity.
Qed.

(** ** The largest item *)

Lemma scale_zero : scale 0 half = Ok zero.
Proof. by vm_compute. Qed.

Lemma np_zeros_free shp grid0 b : np_zeros shp = Ok grid0 → np_any grid0 b = false.
Proof.
  intros (_ & _ & Hfree)%np_zeros_Ok. apply np_any_false. intros r c _. apply Hfree.
Qed.

Lemma ltb_not_nan (a b : float) :
  Float.ltb a b = true → Float.is_nan a = false ∧ Float.is_nan b = false.
Proof. float_order. Qed.

(** The head of the sorted list is the item whose key is strictly the
    largest. *)
Lemma py_sorted_reverse_head {A : Type} (key : A → float) l first others :
  l ≡ₚ first :: others →
  Forall (λ x, Float.ltb (key x) (key first) = true) others →
  ∃ rest, py_sorted key true l = first :: rest.
Proof.
  intros Hperm Hsmaller.
  destruct others as [|x others].
  { apply Permutation_singleton_r in Hperm as ->. by exists []. }
  assert (Forall (λ y, Float.is_nan (key y) = false) l) as Hnan.
  { rewrite Hperm. apply Forall_cons_1 in Hsmaller as Hx.
    destruct Hx as [Hx%ltb_not_nan _]. apply Forall_cons_2; [apply Hx|].
    eapply Forall_impl; [exact Hsmaller|].
    intros y Hy%ltb_not_nan. apply Hy. }
  pose proof (py_sorted_reverse_not_before key l Hnan) as Hsorted.
  pose proof (py_sorted_reverse_Permutation key l) as Hp.
  apply (λ H, Permutation_trans H Hperm) in Hp.
  destruct (py_sorted key true l) as [|h rest].
  { by apply Permutation_nil_cons in Hp. }
  assert (h ∈ first :: x :: others) as Hh by (rewrite <-Hp; left).
  assert (first ∈ h :: rest) as Hf by (rewrite Hp; left).
  apply elem_of_cons in Hh as [->|Hh]; [by exists rest|].
  apply elem_of_cons in Hf as [->|Hf]; [by exists rest|].
  rewrite Forall_forall in Hsmaller. specialize (Hsmaller h Hh).
  apply StronglySorted_inv in Hsorted as [_ Hhead].
  rewrite Forall_forall in Hhead. specialize (Hhead first Hf).
  unfold not_before in Hhead. congruence.
Qed.

(** X16.  The item whose footprint is strictly the largest is placed
    first, at the origin, whenever it has no more cells than the grid in
    each direction; it is the first element of the result. *)
Theorem largest_item_is_placed_at_the_origin
    (furniture others : list FurnitureItem) (first : FurnitureItem)
    (room_length room_width : float) (out : list PositionedItem)
    (grid_length grid_width item_length item_width : Z) :
  furniture ≡ₚ first :: others →
  Forall (λ x, Float.ltb (footprint x) (footprint first) = true) others →
  position_furniture furniture room_length room_width = Ok out →
  grid_units room_length half = Ok grid_length →
  grid_units room_width half = Ok grid_width →
  grid_units (dim_length (dimensions first)) half = Ok item_length →
  grid_units (dim_width (dimensions first)) half = Ok item_width →
  item_length ≤ grid_length → item_width ≤ grid_width →
  ∃ rest, out = {| placed := first; position := (zero, zero) |} :: rest.
Proof.
  intros Hperm Hsmaller Hrun Hgl Hgw Hil Hiw Hl Hw.
  destruct (py_sorted_reverse_head footprint furniture first others Hperm Hsmaller)
    as [rest Hsorted].
  rewrite position_furniture_erase in Hrun.
  destruct (position_furniture_ghost furniture room_length room_width)
    as [[grid trace]|] eqn:Hghost; [|done].
  injection Hrun as <-.
  apply position_furniture_ghost_Ok in Hghost
    as (gl & gw & grid0 & Hgl' & Hgw' & Hzeros & Hloop).
  rewrite Hgl in Hgl'. rewrite Hgw in Hgw'.
  injection Hgl' as <-. injection Hgw' as <-.
  rewrite Hsorted, for_each_cons in Hloop.
  apply bind_Ok in Hloop as ([g1 t1] & Hstep & Hloop).
  apply place_item_ghost_Ok in Hstep
    as (il & iw & Hil' & Hiw' & Hcases).
  rewrite Hil in Hil'. rewrite Hiw in Hiw'.
  injection Hil' as <-. injection Hiw' as <-.
  pose proof (np_zeros_Ok _ _ Hzeros) as (_ & Hshape & _).
  assert (find_furniture_position grid0 item_length item_width half = Some (0, 0))
    as Hfind.
  { apply find_furniture_position_origin; rewrite ?Hshape; cbn [fst snd];
      [done|done|]. by eapply np_zeros_free. }
  rewrite Hfind in Hcases.
  destruct Hcases as [(Hnone & _)|(x & y & px & py & [= <- <-] & Hpx & Hpy & -> & ->)];
    [discriminate Hnone|].
  rewrite scale_zero in Hpx, Hpy. injection Hpx as <-. injection Hpy as <-.
  apply for_each_place_item_ghost_appends in Hloop as (new & -> & _).
  exists new.*1. by rewrite fmap_app.
Qed.

Lemma largest_item_is_placed_at_the_origin_witness :
  ∃ out rest,
    position_furniture [sample_item "coffee_table"; sample_item "bed"]
      (Float.of_Z 5) (Float.of_Z 4) = Ok out
    ∧ out = {| placed := sample_item "bed"; position := (zero, zero) |} :: rest.
Proof.
  assert (∃ out, position_furniture [sample_item "coffee_table"; sample_item "bed"]
                   (Float.of_Z 5) (Float.of_Z 4) = Ok out) as [out Hout]
    by (eexists; by vm_compute).
  destruct (largest_item_is_placed_at_the_origin
              [sample_item "coffee_table"; sample_item "bed"]
              [sample_item "coffee_table"] (sample_item "bed")
              (Float.of_Z 5) (Float.of_Z 4) out 10 8 4 3) as [rest Hrest].
  - apply Permutation_swap.
  - apply Forall_singleton. by vm_compute.
  - exact Hout.
  - by vm_compute.
  - by vm_compute.
  - by vm_compute.
  - by vm_compute.
  - lia.
  - lia.
  - exists out, rest. split; [exact Hout|exact Hrest].
Defined.

(** ** The order of the input *)

Lemma Permutation_all_equal {A : Type} (l l' : list A) :
  l ≡ₚ l' → (∀ x y, x ∈ l → y ∈ l → x = y) → l = l'.
Proof.
  intros Hperm. induction Hperm as [|x l l' Hperm IH|x y l|l l' l'' H1 IH1 H2 IH2];
    intros Heq.
  - done.
  - f_equal. apply IH. intros a b Ha Hb. apply Heq; by right.
  - rewrite (Heq x y); [done|right; by left|by left].
  - rewrite (IH1 Heq) in Heq |- *. by apply IH2.
Qed.

Lemma eqb_trans_l (a b k : float) :
  Float.eqb a k = true → Float.eqb b k = true → Float.eqb a b = true.
Proof. float_order. Qed.

(** Two inputs that are permutations of each other are sorted to the same
    list, when items with equal keys are equal items. *)
Lemma py_sorted_reverse_Permutation_eq {A : Type} (key : A → float) l l' :
  l ≡ₚ l' →
  Forall (λ x, Float.is_nan (key x) = false) l →
  (∀ x y, x ∈ l → y ∈ l → Float.eqb (key x) (key y) = true → x = y) →
  py_sorted key true l' = py_sorted key true l.
Proof.
  intros Hperm Hnan Heq. apply py_sorted_reverse_unique.
  - exact Hnan.
  - etrans; [apply py_sorted_reverse_Permutation|]. by symmetry.
  - apply py_sorted_reverse_sorted.
    rewrite <-Hperm. exact Hnan.
  - intros k. rewrite py_sorted_reverse_stable. symmetry.
    apply Permutation_all_equal; [by apply filter_Permutation|].
    intros x y [Hx Hxl]%list_elem_of_filter [Hy Hyl]%list_elem_of_filter.
    apply Heq; [done|done|]. by eapply eqb_trans_l.
Qed.

(** X17.  When no footprint is NaN and two items with equal footprints
    are equal items, the result of [position_furniture] does not depend on
    the order of the input list. *)
Theorem placement_does_not_depend_on_input_order
    (furniture furniture' : list FurnitureItem) (room_length room_width : float) :
  furniture ≡ₚ furniture' →
  Forall (λ x, Float.is_nan (footprint x) = false) furniture →
  (∀ x y, x ∈ furniture → y ∈ furniture →
          Float.eqb (footprint x) (footprint y) = true → x = y) →
  position_furniture furniture' room_length room_width
  = position_furniture furniture room_length room_width.
Proof.
  intros Hperm Hnan Heq. unfold position_furniture.
  by rewrite (py_sorted_reverse_Permutation_eq footprint _ _ Hperm Hnan Heq).
Qed.

(** ** Placing the placed items again *)

Lemma Forall_sublist {A : Type} (P : A → Prop) l1 l2 :
  l1 `sublist_of` l2 → Forall P l2 → Forall P l1.
Proof.
  rewrite !Forall_forall. intros Hsub Hall x Hx.
  by apply Hall, (elem_of_sublist _ _ _ Hx).
Qed.

Lemma StronglySorted_sublist {A : Type} (R : relation A) l1 l2 :
  l1 `sublist_of` l2 → StronglySorted R l2 → StronglySorted R l1.
Proof.
  induction 1 as [|x l1 l2 Hsub IH|x l1 l2 Hsub IH]; intros Hsorted.
  - constructor.
  - apply StronglySorted_inv in Hsorted as [Hs Hall]. constructor; [by apply IH|].
    by apply (Forall_sublist _ _ _ Hsub).
  - apply StronglySorted_inv in Hsorted as [Hs _]. by apply IH.
Qed.

(** A sorted list is left as it is by the sort. *)
Lemma py_sorted_reverse_sorted_id {A : Type} (key : A → float) l :
  Forall (λ x, Float.is_nan (key x) = false) l →
  StronglySorted (λ a b, Float.geb (key a) (key b) = true) l →
  py_sorted key true l = l.
Proof.
  intros Hnan Hsorted. symmetry. by apply py_sorted_reverse_unique.
Qed.

(** The loop over the items it has placed does what the loop over all the
    items did: an item that is not placed leaves the state as it is. *)
Lemma for_each_place_item_ghost_replay grid_size items grid trace grid' trace' :
  for_each (place_item_ghost grid_size) items (grid, trace) = Ok (grid', trace') →
  ∃ new,
    trace' = trace ++ new
    ∧ placed <$> new.*1 `sublist_of` items
    ∧ for_each (place_item_ghost grid_size) (placed <$> new.*1) (grid, trace)
      = Ok (grid', trace').
Proof.
  revert grid trace. induction items as [|item items IH]; intros grid trace.
  - intros [= <- <-]. exists []. by rewrite app_nil_r.
  - rewrite for_each_cons. intros ([g t] & Hstep & Hrest)%bind_Ok.
    apply IH in Hrest as (new & -> & Hsub & Hreplay).
    pose proof Hstep as Hcases.
    apply place_item_ghost_Ok in Hcases
      as (il & iw & _ & _ & [(_ & -> & ->)|(x & y & px & py & _ & _ & _ & Hg & Ht)]).
    + exists new. split; [done|]. split; [by apply sublist_cons|done].
    + subst t. eexists (_ :: new). split; [by rewrite <-app_assoc|].
      rewrite !fmap_cons. split; [by apply sublist_skip|].
      cbn [fst placed]. rewrite for_each_cons, Hstep, bind_Ok_l. exact Hreplay.
Qed.

(** X18.  Placing again the items that were placed, in the same room,
    gives the same positions: an item that is dropped leaves the grid as it
    is, so the items placed after it do not depend on it. *)
Theorem placing_the_placed_items_again_changes_nothing
    (furniture : list FurnitureItem) (room_length room_width : float)
    (out : list PositionedItem) :
  Forall (λ x, Float.is_nan (footprint x) = false) furniture →
  position_furniture furniture room_length room_width = Ok out →
  position_furniture (placed <$> out) room_length room_width = Ok out.
Proof.
  intros Hnan Hrun. rewrite position_furniture_erase in Hrun.
  destruct (position_furniture_ghost furniture room_length room_width)
    as [[grid trace]|] eqn:Hghost; [|done].
  injection Hrun as <-.
  apply position_furniture_ghost_Ok in Hghost
    as (gl & gw & grid0 & Hgl & Hgw & Hzeros & Hloop).
  apply for_each_place_item_ghost_replay in Hloop as (new & Hnew & Hsub & Hreplay).
  rewrite app_nil_l in Hnew. subst new.
  assert (py_sorted footprint true (placed <$> trace.*1) = placed <$> trace.*1)
    as Hsorted.
  { apply py_sorted_reverse_sorted_id.
    - apply (Forall_sublist _ _ _ Hsub).
      by rewrite py_sorted_reverse_Permutation.
    - apply (StronglySorted_sublist _ _ _ Hsub).
      by apply py_sorted_reverse_sorted. }
  rewrite position_furniture_erase. unfold position_furniture_ghost. fold half.
  rewrite Hgl, bind_Ok_l, Hgw, bind_Ok_l, Hzeros, bind_Ok_l, Hsorted, Hreplay.
  done.
Qed.

Lemma placement_does_not_depend_on_input_order_witness :
  position_furniture (sample_item <$> ["sofa"; "coffee_table"; "bookshelf"; "bed"])
    (Float.of_Z 5) (Float.of_Z 4)
  = position_furniture sample_furniture (Float.of_Z 5) (Float.of_Z 4).
Proof.
  apply (placement_does_not_depend_on_input_order sample_furniture).
  - apply Permutation_swap.
  - repeat apply Forall_cons_2; try apply Forall_nil_2; by vm_compute.
  - intros x y Hx Hy. unfold sample_furniture in Hx, Hy.
    rewrite !fmap_cons, fmap_nil, !elem_of_cons, elem_of_nil in Hx, Hy.
    destruct Hx as [->|[->|[->|[->|[]]]]], Hy as [->|[->|[->|[->|[]]]]];
      first [by intros _ | by vm_compute].
Defined.

Lemma placing_the_placed_items_again_changes_nothing_witness :
  ∃ out,
    position_furniture sample_furniture (Float.of_Z 5) (Float.of_Z 4) = Ok out
    ∧ position_furniture (placed <$> out) (Float.of_Z 5) (Float.of_Z 4) = Ok out.
Proof.
  assert (∃ out, position_furniture sample_furniture (Float.of_Z 5) (Float.of_Z 4)
                 = Ok out) as [out Hout] by (eexists; by vm_compute).
  exists out. split; [exact Hout|].
  apply (placing_the_placed_items_again_changes_nothing sample_furniture);
    [|exact Hout].
  repeat apply Forall_cons_2; try apply Forall_nil_2; by vm_compute.
Defined.

(** ** The figure *)

Lemma of_Z_2 : Float.of_Z 2 = S754_finite false 4503599627370496 (-51).
Proof. by vm_compute. Qed.

Lemma div_by_2 (a : float) : ∃ q, Float.div a (Float.of_Z 2) = Ok q.
Proof. rewrite of_Z_2. unfold Float.div. by eexists. Qed.

Lemma draw_item_Ok patches texts item :
  ∃ r t, draw_item (patches, texts) item = Ok (patches ++ [r], texts ++ [t])
         ∧ drawn_as item r t.
Proof.
  unfold draw_item.
  destruct (div_by_2 (dim_length (dimensions (placed item)))) as [hl Hl].
  destruct (div_by_2 (dim_width (dimensions (placed item)))) as [hw Hw].
  rewrite Hl, Hw, !bind_Ok_l. eexists _, _. split; [reflexivity|].
  unfold drawn_as. cbn [xy rect_width rect_height fill color text text_x text_y].
  do 6 (split; [reflexivity|]). exists hl, hw.
  split; [exact Hl|]. split; [exact Hw|]. split; reflexivity.
Qed.

Lemma for_each_draw_item_Ok items patches texts :
  ∃ rs ts,
    for_each draw_item items (patches, texts) = Ok (patches ++ rs, texts ++ ts)
    ∧ Forall3 drawn_as items rs ts.
Proof.
  revert patches texts. induction items as [|item items IH]; intros patches texts.
  - exists [], []. rewrite !app_nil_r. split; [done|constructor].
  - rewrite for_each_cons.
    destruct (draw_item_Ok patches texts item) as (r & t & -> & Hdrawn).
    rewrite bind_Ok_l.
    destruct (IH (patches ++ [r]) (texts ++ [t])) as (rs & ts & -> & Hall).
    exists (r :: rs), (t :: ts). rewrite <-!app_assoc. split; [done|].
    by constructor.
Qed.

Lemma position_furniture_Ok_units furniture room_length room_width out :
  position_furniture furniture room_length room_width = Ok out →
  ∃ grid_length grid_width,
    grid_units room_length half = Ok grid_length
    ∧ grid_units room_width half = Ok grid_width.
Proof.
  unfold position_furniture. fold half.
  intros (gl & Hgl & (gw & Hgw & _)%bind_Ok)%bind_Ok. by exists gl, gw.
Qed.

Lemma set_lim_Ok (low high : float) :
  Float.isfinite low = true → Float.isfinite high = true →
  set_lim low high = Ok (low, high).
Proof. unfold set_lim. by intros -> ->. Qed.

Lemma set_lim_not_finite (low high : float) :
  Float.isfinite low && Float.isfinite high = false →
  set_lim low high = Raise ValueError.
Proof. unfold set_lim. by intros ->. Qed.

Lemma opp_half_finite : Float.isfinite (Float.opp half) = true.
Proof. by rewrite half_eq. Qed.

(** The limits of a room that [position_furniture] accepts are finite. *)
Lemma set_lim_room (x : float) (grid_x : Z) :
  grid_units x half = Ok grid_x →
  set_lim (Float.opp half) (Float.add x half)
  = Ok (Float.opp half, Float.add x half).
Proof.
  intros Hx. apply set_lim_Ok; [apply opp_half_finite|].
  by eapply grid_units_add_half_finite.
Qed.


Lemma add_half_not_finite (x : float) :
  Float.isfinite x = false → Float.isfinite (Float.add x half) = false.
Proof. rewrite half_eq. by destruct x as [|[]| |]. Qed.





(** ** Colours and labels *)

Lemma NoDup_colors : NoDup colors.*1.
Proof. compute_done. Qed.

Lemma catalogue_colours :
  Forall (λ t,
    dict_get (list_to_map colors) t "#CCCCCC" = "#CCCCCC"
    ↔ t ∈ ["nightstand"; "office_chair"; "bookshelf"; "chairs"; "sideboard";
           "dining_set"]) base_prices_table.*1.
Proof. compute_done. Qed.

(** X21.  [draw_item] never raises.  The colour of the patch is the entry
    of the item type in [colors], or grey ("#CCCCCC") when there is none;
    of the sixteen types of the price table, exactly nightstand,
    office_chair, bookshelf, chairs, sideboard and dining_set are drawn
    grey. *)
Theorem catalogue_types_without_colour_are_drawn_grey
    (patches : list Rectangle) (texts : list Text) (item : PositionedItem) :
  ∃ r t,
    draw_item (patches, texts) item = Ok (patches ++ [r], texts ++ [t])
    ∧ ((item_type (placed item), color r) ∈ colors
       ∨ (item_type (placed item) ∉ colors.*1) ∧ color r = "#CCCCCC")
    ∧ (item_type (placed item) ∈ base_prices_table.*1 →
       (color r = "#CCCCCC"
        ↔ item_type (placed item)
          ∈ ["nightstand"; "office_chair"; "bookshelf"; "chairs"; "sideboard";
             "dining_set"])).
Proof.
  destruct (draw_item_Ok patches texts item) as (r & t & Hdraw & Hdrawn).
  exists r, t. split; [exact Hdraw|].
  destruct Hdrawn as (_ & _ & _ & _ & -> & _).
  split; [apply dict_get_cases, NoDup_colors|].
  intros Hin. pose proof catalogue_colours as H. rewrite Forall_forall in H.
  by apply H.
Qed.

Lemma replace_length old new s : String.length (replace old new s) = String.length s.
Proof. induction s as [|c s IH]; simpl; [done|]. by rewrite IH. Qed.

Lemma title_from_length b s : String.length (title_from b s) = String.length s.
Proof. revert b. induction s as [|c s IH]; intros b; simpl; [done|]. by rewrite IH. Qed.

Lemma lower_ascii_underscore c : c ≠ "_"%char → lower_ascii c ≠ "_"%char.
Proof. by destruct c as [[] [] [] [] [] [] [] []]. Qed.

Lemma upper_ascii_underscore c : c ≠ "_"%char → upper_ascii c ≠ "_"%char.
Proof. by destruct c as [[] [] [] [] [] [] [] []]. Qed.

Lemma title_from_no_underscore b s :
  Forall (λ c, c ≠ "_"%char) (list_ascii_of_string s) →
  Forall (λ c, c ≠ "_"%char) (list_ascii_of_string (title_from b s)).
Proof.
  revert b. induction s as [|c s IH]; intros b; simpl; [done|].
  intros [Hc Hs]%Forall_cons_1. apply Forall_cons_2; [|by apply IH].
  destruct b; [by apply lower_ascii_underscore|by apply upper_ascii_underscore].
Qed.

Lemma replace_no_underscore s :
  Forall (λ c, c ≠ "_"%char) (list_ascii_of_string (replace "_" " " s)).
Proof.
  induction s as [|c s IH]; simpl; [constructor|].
  apply Forall_cons_2; [|done]. by case_bool_decide.
Qed.

Lemma lower_ascii_isascii c :
  bool_decide (nat_of_ascii c < 128)%nat = true →
  bool_decide (nat_of_ascii (lower_ascii c) < 128)%nat = true.
Proof. by destruct c as [[] [] [] [] [] [] [] []]. Qed.

Lemma upper_ascii_isascii c :
  bool_decide (nat_of_ascii c < 128)%nat = true →
  bool_decide (nat_of_ascii (upper_ascii c) < 128)%nat = true.
Proof. by destruct c as [[] [] [] [] [] [] [] []]. Qed.

Lemma title_from_isascii b s : isascii s = true → isascii (title_from b s) = true.
Proof.
  unfold isascii. revert b. induction s as [|c s IH]; intros b; [done|].
  cbn [title_from list_ascii_of_string forallb].
  intros [Hc Hs]%andb_true_iff. apply andb_true_iff. split; [|by apply IH].
  destruct b; [by apply lower_ascii_isascii|by apply upper_ascii_isascii].
Qed.

Lemma replace_isascii old new s :
  bool_decide (nat_of_ascii new < 128)%nat = true →
  isascii s = true → isascii (replace old new s) = true.
Proof.
  unfold isascii. intros Hnew. induction s as [|c s IH]; [done|].
  cbn [replace list_ascii_of_string forallb].
  intros [Hc Hs]%andb_true_iff. apply andb_true_iff. split; [|by apply IH].
  by destruct (bool_decide (c = old)).
Qed.

(** X22.  The label of an item whose type is an ASCII string is an ASCII
    string of the same length as the type, and contains no underscore. *)
Theorem labels_keep_the_length_and_have_no_underscore
    (patches : list Rectangle) (texts : list Text) (item : PositionedItem) :
  isascii (item_type (placed item)) = true →
  ∃ r t,
    draw_item (patches, texts) item = Ok (patches ++ [r], texts ++ [t])
    ∧ isascii (text t) = true
    ∧ String.length (text t) = String.length (item_type (placed item))
    ∧ Forall (λ c, c ≠ "_"%char) (list_ascii_of_string (text t)).
Proof.
  intros Hascii.
  destruct (draw_item_Ok patches texts item) as (r & t & Hdraw & Hdrawn).
  exists r, t. split; [exact Hdraw|].
  destruct Hdrawn as (_ & _ & _ & _ & _ & -> & _).
  split; [|split].
  - unfold title. by apply title_from_isascii, replace_isascii.
  - unfold title. by rewrite title_from_length, replace_length.
  - apply title_from_no_underscore, replace_no_underscore.
Qed.

Lemma labels_keep_the_length_and_have_no_underscore_witness :
  isascii "coffee_table" = true
  ∧ ∃ r t,
      draw_item ([], [])
        {| placed := sample_item "coffee_table";
           position := (Float.of_Z 0, Float.of_Z 0) |} = Ok ([] ++ [r], [] ++ [t])
      ∧ isascii (text t) = true
      ∧ String.length (text t) = String.length "coffee_table"
      ∧ Forall (λ c, c ≠ "_"%char) (list_ascii_of_string (text t)).
Proof.
  split; [reflexivity|].
  apply (labels_keep_the_length_and_have_no_underscore [] []
           {| placed := sample_item "coffee_table";
              position := (Float.of_Z 0, Float.of_Z 0) |}).
  reflexivity.
Defined.


(** ** From the requirements to the figure *)

Lemma all_dimensions_units_ok :
  Forall (λ d, units_ok d = true)
    ({| dim_length := Float.lit 10 10; dim_width := Float.lit 10 10 |}
     :: dimensions_table.*2).
Proof. compute_done. Qed.

Lemma get_furniture_dimensions_units (t : string) :
  ∃ item_length item_width,
    grid_units (dim_length (get_furniture_dimensions t)) half = Ok item_length
    ∧ grid_units (dim_width (get_furniture_dimensions t)) half = Ok item_width
    ∧ 0 ≤ item_length ∧ 0 ≤ item_width.
Proof.
  assert (units_ok (get_furniture_dimensions t) = true) as Hok.
  { pose proof all_dimensions_units_ok as H. rewrite Forall_forall in H. apply H.
    unfold get_furniture_dimensions.
    destruct (dict_get_cases dimensions_table t
                {| dim_length := Float.lit 10 10; dim_width := Float.lit 10 10 |}
                NoDup_dimensions) as [Hin|[_ ->]]; [right|left].
    by apply (list_elem_of_fmap_2 snd) in Hin. }
  unfold units_ok in Hok.
  destruct (grid_units (dim_length (get_furniture_dimensions t)) half) as [il|];
    [|discriminate Hok].
  destruct (grid_units (dim_width (get_furniture_dimensions t)) half) as [iw|];
    [|discriminate Hok].
  apply bool_decide_eq_true in Hok. by exists il, iw.
Qed.


